(** * AppartTracker: the status rules, the dashboard reports and the routes

    A shallow embedding of the backend of AppartTracker (Express routes over
    Mongoose models) and the properties of it that the specification states.

    - [JS]        the JavaScript values the code computes with: Numbers
                  (IEEE 754 binary64), truthiness, object identifiers.
    - [Step]      models/Step.js: virtuals, lifecycle methods, the pre-save hook.
    - [Property]  models/Property.js and the helper of routes/properties.js.
    - [Routes]    the read routes of properties, steps, documents and calendar.
    - [Dashboard] routes/dashboard.js: overview, recent activity, analytics.

Definitions come first, the theorems follow. *)

From Stdlib Require Import ZArith List Bool Lia.
From Stdlib Require Import Strings.String Strings.Ascii.
From Stdlib Require Import SpecFloat DecimalString DecimalN DecimalPos.
From Stdlib Require Import Sorting.Sorted Sorting.Permutation.
From stdpp Require Import base option list strings.

Local Open Scope string_scope.
Local Open Scope Z_scope.

(* ================================================================== *)
(** * JavaScript values *)
(* ================================================================== *)

Module JS.

(** A JavaScript Number is an IEEE 754 double; [spec_float] with
    precision 53 and maximal exponent 1024 is exactly that format. *)
Definition prec : Z := 53.
Definition emax : Z := 1024.

Definition number : Type := spec_float.

(** The Number written as the integer literal [z]. *)
Definition num (z : Z) : number := binary_normalize prec emax z 0 false.

Definition NaN : number := S754_nan.

(** [x / y], [x * y], [x + y] on Numbers. *)
Definition div (x y : number) : number := SFdiv prec emax x y.
Definition mul (x y : number) : number := SFmul prec emax x y.
Definition add (x y : number) : number := SFadd prec emax x y.

(** [x > y] and [x < y]; false as soon as one side is NaN. *)
Definition gt (x y : number) : bool := SFltb y x.
Definition lt (x y : number) : bool := SFltb x y.

(** [Math.round(x)]: the integer closest to [x], a tie going towards
    +Infinity; NaN, the infinities and the zeros are returned as they are.
    A finite [m * 2^e] with [e < 0] is rounded exactly on integers:
    floor (m * 2^e + 1/2) = (2m + 2^-e) / 2^(1-e). *)
Definition Math_round (x : number) : number :=
  match x with
  | S754_finite s m e =>
      if 0 <=? e then x
      else
        let sm := if s then Z.neg m else Z.pos m in
        let d := Z.pow 2 (- e) in
        binary_normalize prec emax ((2 * sm + d) / (2 * d)) 0 s
  | _ => x
  end.

(** [Math.max(x, y)]: NaN if one argument is NaN, and +0 above -0. *)
Definition Math_max (x y : number) : number :=
  match SFcompare x y with
  | Some Lt => y
  | Some Gt => x
  | Some Eq => match x with S754_zero true => y | _ => x end
  | None => NaN
  end.

(** Truthiness of a Number: false for the zeros and NaN. *)
Definition truthy_number (x : number) : bool :=
  match x with
  | S754_zero _ | S754_nan => false
  | _ => true
  end.

(** The values an expression of the code below can yield: [undefined], a
    Number, or a member that every object literal inherits from
    [Object.prototype] (a function, or the prototype itself for
    [__proto__]). *)
Inductive value : Type :=
| VUndefined
| VNumber (n : number)
| VInherited (name : string).

Definition truthy (v : value) : bool :=
  match v with
  | VUndefined => false
  | VNumber n => truthy_number n
  | VInherited _ => true
  end.

(** [a || b]. *)
Definition logicalOr (a b : value) : value :=
  if truthy a then a else b.

(** The property names of [Object.prototype]. *)
Definition objectPrototypeKeys : list string :=
  ["constructor"; "hasOwnProperty"; "isPrototypeOf";
   "propertyIsEnumerable"; "toLocaleString"; "toString"; "valueOf";
   "__proto__"; "__defineGetter__"; "__defineSetter__";
   "__lookupGetter__"; "__lookupSetter__"].

Fixpoint ownProperty (o : list (string * number)) (k : string)
  : option number :=
  match o with
  | [] => None
  | (k', v) :: o' => if String.eqb k k' then Some v else ownProperty o' k
  end.

(** [o[k]] for an object literal [o] with Number-valued own properties:
    the own property if there is one, else what the prototype chain
    gives, else [undefined]. *)
Definition get (o : list (string * number)) (k : string) : value :=
  match ownProperty o k with
  | Some v => VNumber v
  | None =>
      if existsb (String.eqb k) objectPrototypeKeys then VInherited k
      else VUndefined
  end.

(** Truthiness of a string: false for the empty string only. *)
Definition truthy_string (s : string) : bool :=
  match s with EmptyString => false | _ => true end.

(** Identifiers.  A stored identifier is a BSON ObjectId, kept here as
    its 24-digit hexadecimal form.  A value that JavaScript code holds for
    an identifier is either the ObjectId object itself or a string. *)
Definition ObjectId : Type := string.

Inductive idValue : Type :=
| IdObject (o : ObjectId)
| IdString (s : string).

(** [v.toString()]. *)
Definition toString (v : idValue) : string :=
  match v with IdObject o => o | IdString s => s end.

(** [s === v] for a string [s]: strict equality never converts, so an
    ObjectId object is never equal to a string. *)
Definition strictEqString (s : string) (v : idValue) : bool :=
  match v with
  | IdString t => String.eqb s t
  | IdObject _ => false
  end.

(** [s !== v]. *)
Definition strictNeString (s : string) (v : idValue) : bool :=
  negb (strictEqString s v).

(** A query condition [{ field: v }] on an ObjectId path: Mongoose casts
    [v] to an ObjectId before the comparison. *)
Definition matchesId (stored : ObjectId) (v : idValue) : bool :=
  String.eqb stored (toString v).

(** A date is the number of milliseconds since the epoch. *)
Definition Date : Type := Z.

(** [String.prototype.trim].  A text is kept as the bytes of its UTF-8
    encoding; the white space that [trim] removes is the WhiteSpace and
    LineTerminator code points of the language: U+0009 to U+000D, U+0020,
    U+00A0, U+1680, U+2000 to U+200A, U+2028, U+2029, U+202F, U+205F,
    U+3000 and U+FEFF. *)
Definition bytes (l : list nat) : string :=
  foldr (fun n s => String (Ascii.ascii_of_nat n) s) EmptyString l.

Definition whiteSpace : list (list nat) :=
  [[9]; [10]; [11]; [12]; [13]; [32]; [194; 160]; [225; 154; 128];
   [226; 128; 128]; [226; 128; 129]; [226; 128; 130]; [226; 128; 131];
   [226; 128; 132]; [226; 128; 133]; [226; 128; 134]; [226; 128; 135];
   [226; 128; 136]; [226; 128; 137]; [226; 128; 138]; [226; 128; 168];
   [226; 128; 169]; [226; 128; 175]; [226; 129; 159]; [227; 128; 128];
   [239; 187; 191]]%nat.

Fixpoint stripPrefix (w s : string) : option string :=
  match w, s with
  | EmptyString, _ => Some s
  | String a w', String b s' =>
      if Ascii.eqb a b then stripPrefix w' s' else None
  | String _ _, EmptyString => None
  end.

(** [s] without the first of the [marks] that it starts with. *)
Fixpoint stripOne (marks : list string) (s : string) : option string :=
  match marks with
  | [] => None
  | w :: marks' =>
      match stripPrefix w s with
      | Some rest => Some rest
      | None => stripOne marks' s
      end
  end.

Fixpoint stripAll (marks : list string) (fuel : nat) (s : string)
  : string :=
  match fuel with
  | O => s
  | S fuel' =>
      match stripOne marks s with
      | Some rest => stripAll marks fuel' rest
      | None => s
      end
  end.

Definition reverse (s : string) : string :=
  string_of_list_ascii (List.rev (list_ascii_of_string s)).

Definition trimStart (s : string) : string :=
  stripAll (map bytes whiteSpace) (String.length s) s.

Definition trimEnd (s : string) : string :=
  reverse
    (stripAll (map (fun w => reverse (bytes w)) whiteSpace)
       (String.length s) (reverse s)).

Definition trim (s : string) : string := trimEnd (trimStart s).

End JS.

(* ================================================================== *)
(** * models/Step.js *)
(* ================================================================== *)

Module Step.
Import JS.

Record checklistItem : Type := {
  item : string;
  completed : bool;
  completedAt : option Date
}.

Record dates : Type := {
  plannedStart : option Date;
  plannedEnd : option Date;
  actualStart : option Date;
  actualEnd : option Date;
  deadline : option Date
}.

(** An embedded document under [costs], seen through the paths that the
    schema declares ([estimated], [actual], [currency]) and the two that
    the analytics pipeline reads ([category], [amount]). *)
Record costDoc : Type := {
  estimated : option number;
  actual : option number;
  currency : option string;
  cost_category : option string;
  amount : option number
}.

(** What a stored Step holds under [costs].  The schema declares one
    embedded document; the analytics pipeline runs on the stored
    documents as they are and unwinds the path, so an array of embedded
    documents is a value of the path too. *)
Inductive costsField : Type :=
| CostsMissing
| CostsOne (c : costDoc)
| CostsMany (l : list costDoc).

(** A Step document, with the paths the code below reads or writes.
    [isModified] is Mongoose's change tracking of the loaded document. *)
Record t : Type := {
  _id : ObjectId;
  property : ObjectId;
  name : string;
  category : string;
  status : string;
  priority : string;
  order : Z;
  step_dates : dates;
  checklist : list checklistItem;
  costs : costsField;
  completionPercentage : number;
  isActive : bool;
  updatedAt : Date;
  isModified : string -> bool
}.

Definition statusEnum : list string :=
  ["todo"; "in_progress"; "completed"; "cancelled"; "on_hold"].

(** Assignments to paths of a loaded document.  The change tracking is
    followed for the two paths the pre-save hook asks about, [status] and
    [checklist]: assigning a value marks the path as modified when the
    value differs from the one the document holds. *)
Definition set_status (v : string) (s : t) : t :=
  {| _id := _id s; property := property s; name := name s;
     category := category s; status := v; priority := priority s;
     order := order s; step_dates := step_dates s;
     checklist := checklist s; costs := costs s;
     completionPercentage := completionPercentage s;
     isActive := isActive s; updatedAt := updatedAt s;
     isModified :=
       fun p => (String.eqb p "status" && negb (String.eqb v (status s)))
                || isModified s p |}.

Definition set_completionPercentage (v : number) (s : t) : t :=
  {| _id := _id s; property := property s; name := name s;
     category := category s; status := status s; priority := priority s;
     order := order s; step_dates := step_dates s;
     checklist := checklist s; costs := costs s;
     completionPercentage := v;
     isActive := isActive s; updatedAt := updatedAt s;
     isModified := isModified s |}.

Definition set_dates (v : dates) (s : t) : t :=
  {| _id := _id s; property := property s; name := name s;
     category := category s; status := status s; priority := priority s;
     order := order s; step_dates := v;
     checklist := checklist s; costs := costs s;
     completionPercentage := completionPercentage s;
     isActive := isActive s; updatedAt := updatedAt s;
     isModified := isModified s |}.

(** What is left of the change tracking once the document is stored. *)
Definition stored (s : t) : t :=
  {| _id := _id s; property := property s; name := name s;
     category := category s; status := status s; priority := priority s;
     order := order s; step_dates := step_dates s;
     checklist := checklist s; costs := costs s;
     completionPercentage := completionPercentage s;
     isActive := isActive s; updatedAt := updatedAt s;
     isModified := fun _ => false |}.

(** virtual('isOverdue'); [now] is [new Date()]. *)
Definition isOverdue (now : Date) (s : t) : bool :=
  match deadline (step_dates s) with
  | None => false
  | Some d =>
      if String.eqb (status s) "completed" then false
      else now >? d
  end.

(** virtual('checklistCompletion'). *)
Definition checklistCompletion (s : t) : number :=
  match checklist s with
  | [] => num 100
  | _ =>
      let completed := List.filter (fun i => completed i) (checklist s) in
      Math_round
        (mul (div (num (Z.of_nat (length completed)))
                  (num (Z.of_nat (length (checklist s)))))
             (num 100))
  end.

(** pre('save'). *)
Definition preSave (s : t) : t :=
  if isModified s "checklist" || isModified s "status" then
    let checklistPercent := checklistCompletion s in
    if String.eqb (status s) "completed" then
      set_completionPercentage (num 100) s
    else if String.eqb (status s) "in_progress" then
      set_completionPercentage (Math_max checklistPercent (num 10)) s
    else if String.eqb (status s) "todo" then
      set_completionPercentage (num 0) s
    else s
  else s.

(** [save()] runs the pre-save hook and stores the document. *)
Definition save (s : t) : t := stored (preSave s).

(** methods.start; [now] is [new Date()]. *)
Definition start (now : Date) (s : t) : t :=
  if String.eqb (status s) "todo" then
    let d := step_dates s in
    save (set_dates {| plannedStart := plannedStart d;
                       plannedEnd := plannedEnd d;
                       actualStart := Some now;
                       actualEnd := actualEnd d;
                       deadline := deadline d |}
            (set_status "in_progress" s))
  else save s.

(** methods.complete. *)
Definition complete (now : Date) (s : t) : t :=
  let d := step_dates s in
  save (set_completionPercentage (num 100)
          (set_dates {| plannedStart := plannedStart d;
                        plannedEnd := plannedEnd d;
                        actualStart := actualStart d;
                        actualEnd := Some now;
                        deadline := deadline d |}
             (set_status "completed" s))).

(** methods.updateCompletionPercentage. *)
Definition updateCompletionPercentage (s : t) : t :=
  let checklistPercent := checklistCompletion s in
  if String.eqb (status s) "completed" then
    save (set_completionPercentage (num 100) s)
  else if String.eqb (status s) "in_progress" then
    save (set_completionPercentage (Math_max checklistPercent (num 10)) s)
  else
    save (set_completionPercentage (num 0) s).

End Step.


(* ================================================================== *)
(** * models/Property.js and the helper of routes/properties.js *)
(* ================================================================== *)

Module Property.
Import JS.

Record photo : Type := {
  url : string;
  caption : string;
  isPrimary : bool;
  uploadedAt : Date
}.

Record share : Type := {
  user : ObjectId;
  role : string;
  sharedAt : Date
}.

Record address : Type := {
  street : string;
  city : string;
  postalCode : string
}.

Record t : Type := {
  _id : ObjectId;
  owner : ObjectId;
  title : string;
  description : option string;
  prop_address : address;
  price_amount : number;
  details_surface : number;
  photos : list photo;
  status : string;
  isActive : bool;
  sharedWith : list share;
  createdAt : Date
}.

(** The [enum] of the [status] path. *)
Definition statusEnum : list string :=
  ["searching"; "visiting"; "offer_made"; "compromis_signed";
   "loan_pending"; "final_signature"; "keys_received"; "cancelled"].

(** The object literal [statusProgress], the same in the route helper
    and in the model method. *)
Definition statusProgress : list (string * number) :=
  [("searching", num 10); ("visiting", num 20); ("offer_made", num 40);
   ("compromis_signed", num 60); ("loan_pending", num 75);
   ("final_signature", num 90); ("keys_received", num 100);
   ("cancelled", num 0)].

(** function getProgressPercentage(status) of routes/properties.js. *)
Definition getProgressPercentage (status : string) : value :=
  logicalOr (get statusProgress status) (VNumber (num 0)).

(** propertySchema.methods.getProgressPercentage. *)
Definition methods_getProgressPercentage (this : t) : value :=
  logicalOr (get statusProgress (status this)) (VNumber (num 0)).

Definition set_isPrimary (b : bool) (ph : photo) : photo :=
  {| url := url ph; caption := caption ph; isPrimary := b;
     uploadedAt := uploadedAt ph |}.

Definition set_photos (l : list photo) (p : t) : t :=
  {| _id := _id p; owner := owner p; title := title p;
     description := description p; prop_address := prop_address p;
     price_amount := price_amount p;
     details_surface := details_surface p;
     photos := l; status := status p; isActive := isActive p;
     sharedWith := sharedWith p; createdAt := createdAt p |}.

(** virtual('primaryPhoto'). *)
Definition primaryPhoto (p : t) : option photo :=
  match List.find isPrimary (photos p) with
  | Some ph => Some ph
  | None => photos p !! 0%nat
  end.

(** A Property as [populate(path, select)] loads it holds, of the paths
    of the schema, those that [select] names.  [photosOf select p] is what
    [this.photos] reads on it, [None] standing for [undefined]. *)
Definition photosOf (select : list string) (p : t)
  : option (list photo) :=
  if existsb (String.eqb "photos") select then Some (photos p) else None.

(** virtual('primaryPhoto') on a populated Property: [.find] of
    [undefined] throws a TypeError, for which [None] stands.  The schema
    has [toJSON: { virtuals: true }], so that [res.json] runs this getter
    on every populated Property that it serialises. *)
Definition populatedPrimaryPhoto (select : list string) (p : t)
  : option (option photo) :=
  match photosOf select p with
  | None => None
  | Some l =>
      Some (match List.find isPrimary l with
            | Some ph => Some ph
            | None => l !! 0%nat
            end)
  end.

Definition primaryPhotoReads (select : list string) (p : t) : bool :=
  match populatedPrimaryPhoto select p with
  | Some _ => true
  | None => false
  end.

(** pre('save'): the hook that keeps a single primary photo. *)
Definition preSave (p : t) : t :=
  if (0 <? length (photos p))%nat then
    let primaryPhotos := List.filter isPrimary (photos p) in
    if (length primaryPhotos =? 0)%nat then
      set_photos (alter (set_isPrimary true) 0%nat (photos p)) p
    else if (1 <? length primaryPhotos)%nat then
      set_photos
        (imap (fun index ph => set_isPrimary (index =? 0)%nat ph)
              (photos p)) p
    else p
  else p.

End Property.

(* ================================================================== *)
(** * Documents, calendar events and the stored collections *)
(* ================================================================== *)

Module Document.
Import JS.

Record share : Type := {
  user : ObjectId;
  permissions : string;
  sharedAt : Date
}.

Record t : Type := {
  _id : ObjectId;
  property : ObjectId;
  step : option ObjectId;
  uploadedBy : ObjectId;
  name : string;
  category : string;
  type : string;
  sharedWith : list share;
  isActive : bool;
  createdAt : Date
}.

End Document.

Module CalendarEvent.
Import JS.

Record share : Type := {
  user : ObjectId;
  sharedAt : Date
}.

Record t : Type := {
  _id : ObjectId;
  owner : ObjectId;
  title : string;
  type : string;
  status : string;
  startDate : Date;
  endDate : Date;
  property : option ObjectId;
  sharedWith : list share;
  isActive : bool;
  createdAt : Date
}.

End CalendarEvent.

(** The four collections, each in the order the storage returns its
    documents when no sort is asked for. *)
Record store : Type := {
  properties : list Property.t;
  steps : list Step.t;
  documents : list Document.t;
  events : list CalendarEvent.t
}.

(** The outcome of a route: the success payload, or the HTTP status code
    and the message of the failure. *)
Inductive response (A : Type) : Type :=
| Ok (data : A)
| Fail (code : Z) (message : string).

Arguments Ok {A} data.
Arguments Fail {A} code message.

(** Sorting as the storage and [Array.prototype.sort] do it for the code
    below: [before a b] says that [a] has to come strictly in front of [b];
    elements that neither relation separates keep their input order. *)
Section Sorting.
Context {A : Type} (before : A -> A -> bool).

Fixpoint insertSorted (x : A) (l : list A) : list A :=
  match l with
  | [] => [x]
  | y :: l' => if before y x then y :: insertSorted x l' else x :: l
  end.

Definition stableSort (l : list A) : list A := foldr insertSorted [] l.
End Sorting.

(** [sort({ key: -1 })] and [sort({ key: 1 })] on a date or integer key. *)
Definition sortDesc {A : Type} (key : A -> Z) : list A -> list A :=
  stableSort (fun a b => key b <? key a).

Definition sortAsc {A : Type} (key : A -> Z) : list A -> list A :=
  stableSort (fun a b => key a <? key b).

(* ================================================================== *)
(** * The read routes *)
(* ================================================================== *)

Module Routes.
Import JS.

(** The visibility condition
    [$or: [{ owner: userId }, { 'sharedWith.user': userId }]]
    on a Property. *)
Definition ownerOrShared (userId : idValue) (p : Property.t) : bool :=
  matchesId (Property.owner p) userId
  || existsb (fun sh => matchesId (Property.user sh) userId)
       (Property.sharedWith p).

(** middleware/auth.js: [req.user.id] is set to [user._id], the ObjectId of
    the authenticated user.  The routes below take the value of
    [req.user.id] as it comes. *)
Definition authenticated (user : ObjectId) : idValue := IdObject user.

Definition findProperty (st : store) (id : ObjectId)
  : option Property.t :=
  List.find (fun p => String.eqb (Property._id p) id) (properties st).

(** ** GET /api/properties *)

(** The query string once the validators have read it: an integer
    parameter is the integer its text denotes, a price or surface bound is
    the Number that [parseFloat] returns for a non-empty text. *)
Record listQuery : Type := {
  page : option Z;
  limit : option Z;
  q_status : option string;
  q_city : option string;
  minPrice : option number;
  maxPrice : option number;
  minSurface : option number;
  maxSurface : option number;
  sortBy : option string;
  sortOrder : option string;
  search : option string
}.

Record enrichedProperty : Type := {
  e_property : Property.t;
  progressPercentage : value;
  pricePerSquareMeter : number
}.

Record pagination : Type := {
  currentPage : Z;
  totalPages : Z;
  totalItems : Z;
  itemsPerPage : Z
}.

Record listData : Type := {
  l_properties : list enrichedProperty;
  l_pagination : pagination
}.

Definition optAll {B : Type} (o : option B) (f : B -> bool) : bool :=
  match o with None => true | Some b => f b end.

Definition validList (q : listQuery) : bool :=
  optAll (page q) (fun z => 1 <=? z)
  && optAll (limit q) (fun z => (1 <=? z) && (z <=? 100))
  && optAll (q_status q)
       (fun s => existsb (String.eqb s) Property.statusEnum)
  && optAll (sortBy q)
       (fun s => existsb (String.eqb s)
                   ["createdAt"; "price"; "surface"; "title"])
  && optAll (sortOrder q)
       (fun s => existsb (String.eqb s) ["asc"; "desc"]).

Section PropertyList.
(** [regex pat] is the condition that [new RegExp(pat, 'i')] puts on a
    text, as the regular-expression engine of the storage decides it;
    [None] for a pattern that is refused, by the constructor with a
    SyntaxError or by the storage with a failed query: both send the route
    to its [catch] block. *)
Variable regex : string -> option (string -> bool).

(** [rank] stands for what orders two documents that the sort key of the
    request does not separate: the storage's own order, which is not
    specified and may differ from one query to the next, and, for the
    sort on [price], the fields of the embedded document after the
    first. *)
Variable rank : Property.t -> Z.

(** An optional parameter takes part in the filter when it is a
    truthy string. *)
Definition given (o : option string) : option string :=
  match o with
  | Some s => if truthy_string s then Some s else None
  | None => None
  end.

Definition regexTest (pat s : string) : bool :=
  match regex pat with
  | Some matches => matches s
  | None => false
  end.

(** The filter object that the route builds, as a condition on a
    stored Property. *)
Definition listFilter (userId : idValue) (q : listQuery)
  (p : Property.t) : bool :=
  matchesId (Property.owner p) userId
  && Property.isActive p
  && optAll (given (q_status q)) (String.eqb (Property.status p))
  && optAll (given (q_city q))
       (fun c => regexTest c (Property.city (Property.prop_address p)))
  && optAll (minPrice q) (fun n => SFleb n (Property.price_amount p))
  && optAll (maxPrice q) (fun n => SFleb (Property.price_amount p) n)
  && optAll (minSurface q)
       (fun n => SFleb n (Property.details_surface p))
  && optAll (maxSurface q)
       (fun n => SFleb (Property.details_surface p) n)
  && optAll (given (search q))
       (fun t =>
          regexTest t (Property.title p)
          || match Property.description p with
             | Some d => regexTest t d
             | None => false
             end
          || regexTest t (Property.street (Property.prop_address p))
          || regexTest t (Property.city (Property.prop_address p))).

(** What makes the route throw between the validation and the answer: a
    pattern of [city] or of [search] that is refused, and a bound that
    [parseFloat] read as [NaN], which Mongoose does not cast to a
    Number. *)
Definition compiles (o : option string) : bool :=
  match given o with
  | Some pat => match regex pat with Some _ => true | None => false end
  | None => true
  end.

Definition casts (o : option number) : bool :=
  match o with
  | Some S754_nan => false
  | _ => true
  end.

Definition listThrows (q : listQuery) : bool :=
  negb (compiles (q_city q) && compiles (search q)
        && casts (minPrice q) && casts (maxPrice q)
        && casts (minSurface q) && casts (maxSurface q)).

(** [sortOptions]: the order on the sort path.  [price] is an embedded
    document, ordered by its first field before the others; [surface] is
    not a path of a stored Property, so that no document comes in front
    of another. *)
Definition listBefore (q : listQuery) (a b : Property.t) : bool :=
  let path := default "createdAt" (sortBy q) in
  let less (x y : Property.t) : bool :=
    if String.eqb path "createdAt" then
      Property.createdAt x <? Property.createdAt y
    else if String.eqb path "title" then
      String.ltb (Property.title x) (Property.title y)
    else if String.eqb path "price" then
      JS.lt (Property.price_amount x) (Property.price_amount y)
    else false in
  if String.eqb (default "desc" (sortOrder q)) "desc"
  then less b a else less a b.

Definition enrich (p : Property.t) : enrichedProperty :=
  {| e_property := p;
     progressPercentage :=
       Property.getProgressPercentage (Property.status p);
     pricePerSquareMeter :=
       Math_round (div (Property.price_amount p)
                      (Property.details_surface p)) |}.

Definition listProperties (st : store) (userId : idValue)
  (q : listQuery) : response listData :=
  if negb (validList q) then Fail 400 "Paramètres invalides"
  else if listThrows q then Fail 500 "Erreur interne du serveur"
  else
    let page := default 1 (page q) in
    let limit := default 10 (limit q) in
    let matching := List.filter (listFilter userId q) (properties st) in
    let skip := (page - 1) * limit in
    let found :=
      take (Z.to_nat limit)
        (drop (Z.to_nat skip)
           (stableSort (listBefore q) (sortAsc rank matching))) in
    let total := Z.of_nat (length matching) in
    Ok {| l_properties := map enrich found;
          l_pagination :=
            {| currentPage := page;
               totalPages := (total + limit - 1) / limit;
               totalItems := total;
               itemsPerPage := limit |} |}.
End PropertyList.

(** ** The single-entity reads *)

(** Each of these routes hands [req.params.id] to [findById] or
    [findOne], which cast it to an ObjectId.  [cast] is that conversion,
    Mongoose's: [None] for a text that it refuses, with a CastError that
    rejects the query and sends the route to its [catch] block.
    [userExists] says which identifiers the users collection holds, so
    that [populate] finds a user under them; the User model is not among
    the sources. *)

(** ** GET /api/properties/:id *)

Record propertyData : Type := {
  d_property : Property.t;
  d_progressPercentage : value;
  d_steps : list Step.t
}.

Definition getProperty (cast : string -> option ObjectId) (st : store)
  (userId : idValue) (param : string) : response propertyData :=
  match cast param with
  | None => Fail 500 "Erreur interne du serveur"
  | Some id =>
      match List.find
              (fun p => String.eqb (Property._id p) id
                        && ownerOrShared userId p) (properties st) with
      | None => Fail 404 "Propriété non trouvée"
      | Some property =>
          Ok {| d_property := property;
                d_progressPercentage :=
                  Property.methods_getProgressPercentage property;
                d_steps :=
                  sortAsc Step.order
                    (List.filter
                       (fun s => String.eqb (Step.property s)
                                   (Property._id property))
                       (steps st)) |}
      end
  end.

(** ** GET /api/steps/:id *)

(** [populate('property', 'title owner')] replaces the reference by the
    Property it points to, or by [null]; reading [.owner] of [null]
    throws.  When the access check lets the request through, [res.json]
    serialises the step with that Property, which was loaded without its
    photos: the getter of [primaryPhoto] throws.  Either exception ends in
    the [catch] block. *)
Definition getStep (cast : string -> option ObjectId) (st : store)
  (userId : idValue) (param : string) : response Step.t :=
  match cast param with
  | None => Fail 500 "Erreur interne du serveur"
  | Some id =>
      match List.find (fun s => String.eqb (Step._id s) id) (steps st) with
      | None => Fail 404 "Étape non trouvée"
      | Some step =>
          match findProperty st (Step.property step) with
          | None => Fail 500 "Erreur interne du serveur"
          | Some property =>
              let answer :=
                if Property.primaryPhotoReads ["title"; "owner"] property
                then Ok step
                else Fail 500 "Erreur interne du serveur" in
              if strictNeString (Property.owner property) userId then
                match List.find
                        (fun p =>
                           String.eqb (Property._id p)
                             (Property._id property)
                           && existsb
                                (fun sh =>
                                   matchesId (Property.user sh) userId)
                                (Property.sharedWith p))
                        (properties st) with
                | None => Fail 403 "Accès refusé"
                | Some _ => answer
                end
              else answer
          end
      end
  end.

(** [shares.some(share => share.user._id.toString() === req.user.id)],
    over the users of the shares in their order.  [populate] has put
    the user document, or [null], under each [share.user]; reading [._id]
    of [null] throws, for which [None] stands. *)
Fixpoint someUser (userExists : ObjectId -> bool) (userId : idValue)
  (users : list ObjectId) : option bool :=
  match users with
  | [] => Some false
  | u :: users' =>
      if userExists u then
        if strictEqString u userId then Some true
        else someUser userExists userId users'
      else None
  end.

(** ** GET /api/documents/:id *)

Definition getDocument (cast : string -> option ObjectId)
  (userExists : ObjectId -> bool) (st : store) (userId : idValue)
  (param : string) : response Document.t :=
  match cast param with
  | None => Fail 500 "Erreur interne du serveur"
  | Some id =>
      match List.find (fun d => String.eqb (Document._id d) id)
              (documents st) with
      | None => Fail 404 "Document non trouvé"
      | Some document =>
          match findProperty st (Document.property document) with
          | None => Fail 500 "Erreur interne du serveur"
          | Some property =>
              let hasAccess :=
                if strictEqString (Property.owner property) userId
                then Some true
                else someUser userExists userId
                       (map Document.user (Document.sharedWith document)) in
              match hasAccess with
              | None => Fail 500 "Erreur interne du serveur"
              | Some false => Fail 403 "Accès refusé"
              | Some true =>
                  if Property.primaryPhotoReads ["title"; "owner"] property
                  then Ok document
                  else Fail 500 "Erreur interne du serveur"
              end
          end
      end
  end.

(** ** GET /api/calendar/events/:id *)

(** The owner of the event is populated too, and [event.owner._id] is
    read first.  [rest event] is whether [res.json] serialises what the
    event holds besides its Property, which the CalendarEvent, Step and
    User schemas decide; they are not among the sources. *)
Definition getEvent (cast : string -> option ObjectId)
  (userExists : ObjectId -> bool) (rest : CalendarEvent.t -> bool)
  (st : store) (userId : idValue) (param : string)
  : response CalendarEvent.t :=
  match cast param with
  | None => Fail 500 "Erreur interne du serveur"
  | Some id =>
      match List.find (fun e => String.eqb (CalendarEvent._id e) id)
              (events st) with
      | None => Fail 404 "Événement non trouvé"
      | Some event =>
          let hasAccess :=
            if userExists (CalendarEvent.owner event) then
              if strictEqString (CalendarEvent.owner event) userId
              then Some true
              else someUser userExists userId
                     (map CalendarEvent.user
                        (CalendarEvent.sharedWith event))
            else None in
          match hasAccess with
          | None => Fail 500 "Erreur interne du serveur"
          | Some false => Fail 403 "Accès refusé"
          | Some true =>
              if match CalendarEvent.property event ≫= findProperty st with
                 | Some p =>
                     Property.primaryPhotoReads
                       ["title"; "address"; "owner"] p
                 | None => true
                 end && rest event
              then Ok event
              else Fail 500 "Erreur interne du serveur"
          end
      end
  end.

End Routes.

(* ================================================================== *)
(** * routes/dashboard.js *)
(* ================================================================== *)

Module Dashboard.
Import JS.

(** [propertyFilter], the same object in the four reports (the analytics
    report adds a bound on [createdAt]). *)
Definition propertyFilter (userId : idValue) (p : Property.t) : bool :=
  Routes.ownerOrShared userId p && Property.isActive p.

(** [`${n}`] for a count. *)
Definition showCount (n : nat) : string :=
  NilZero.string_of_uint (Nat.to_uint n).

(** ** GET /api/dashboard/overview *)

Record alert : Type := {
  a_type : string;
  a_title : string;
  a_message : string;
  a_count : nat;
  a_priority : string
}.

(** The alerts, from the three counts that [countDocuments] returned;
    each [push] appends at the end. *)
Definition alerts (overdueSteps upcomingSteps overdueEvents : nat)
  : list alert :=
  let alerts0 : list alert := [] in
  let alerts1 :=
    if (0 <? overdueSteps)%nat then
      (alerts0 ++
       [{| a_type := "warning";
          a_title := "Étapes en retard";
          a_message :=
            "Vous avez " +:+ showCount overdueSteps
            +:+ " étape(s) en retard";
          a_count := overdueSteps;
          a_priority := "high" |}])%list
    else alerts0 in
  let alerts2 :=
    if (0 <? upcomingSteps)%nat then
      (alerts1 ++
       [{| a_type := "info";
          a_title := "Étapes à venir";
          a_message :=
            showCount upcomingSteps
            +:+ " étape(s) à réaliser dans les 7 prochains jours";
          a_count := upcomingSteps;
          a_priority := "medium" |}])%list
    else alerts1 in
  if (0 <? overdueEvents)%nat then
    (alerts2 ++
     [{| a_type := "error";
        a_title := "Événements en retard";
        a_message :=
          showCount overdueEvents +:+ " événement(s) non traité(s)";
        a_count := overdueEvents;
        a_priority := "high" |}])%list
  else alerts2.

(** [properties], the result of [Property.find(propertyFilter)]. *)
Definition overviewProperties (st : store) (userId : idValue)
  : list Property.t :=
  List.filter (propertyFilter userId) (properties st).

(** [summary.activeProperties] and [summary.completedPurchases]. *)
Definition activeProperties (properties : list Property.t) : nat :=
  length
    (List.filter
       (fun p =>
          existsb (fun s => String.eqb s (Property.status p))
            ["recherche"; "visite"; "negociation"; "compromis";
             "financement"])
       properties).

Definition completedPurchases (properties : list Property.t) : nat :=
  length
    (List.filter (fun p => String.eqb (Property.status p) "cles_remises")
       properties).

(** ** GET /api/dashboard/recent-activity *)

Record activity : Type := {
  type : string;
  action : string;
  title : string;
  description : string;
  property : option string;
  date : Date;
  icon : string;
  category : string
}.

(** The query string: each parameter as [parseInt] reads it, [None]
    standing for [NaN]. *)
Record activityQuery : Type := {
  q_limit : option Z;
  q_days : option Z
}.

(** [parseInt(x) || d]: [NaN] and 0 are falsy. *)
Definition parsedOr (o : option Z) (d : Z) : Z :=
  match o with
  | Some z => if z =? 0 then d else z
  | None => d
  end.

(** What a query returns under [.limit(x)].  For a positive whole
    number [x] it returns at most [x] documents.  The route also passes
    fractions and negative numbers; what the query does then is decided by
    Mongoose and the storage, which are not among the sources: it fails,
    or it returns at most some number of documents, or it is not
    limited. *)
Inductive cap : Type :=
| Rejected
| AtMost (n : nat)
| NoLimit.

(** [.limit(limit / 4)]; [other] is what Mongoose and the storage make of
    a quotient that is not a positive whole number. *)
Definition quarter (other : Z -> cap) (limit : Z) : cap :=
  if (0 <? limit) && (limit mod 4 =? 0) then AtMost (Z.to_nat (limit / 4))
  else other limit.

Definition limited {A : Type} (c : cap) (l : list A) : list A :=
  match c with
  | AtMost n => take n l
  | _ => l
  end.

(** [activities.slice(0, limit)] for an integer [limit]: a negative
    [limit] counts from the end. *)
Definition slice0 {A : Type} (limit : Z) (l : list A) : list A :=
  if 0 <=? limit then take (Z.to_nat limit) l
  else take (length l - Z.to_nat (- limit)) l.

Definition propertyTitle (st : store) (id : ObjectId) : option string :=
  Property.title <$> Routes.findProperty st id.

Definition stepActivity (st : store) (step : Step.t) : activity :=
  {| type := "step";
     action := "updated";
     title := "Étape mise à jour: " +:+ Step.name step;
     description := "Statut: " +:+ Step.status step;
     property := propertyTitle st (Step.property step);
     date := Step.updatedAt step;
     icon := "task";
     category := Step.category step |}.

Definition documentActivity (st : store) (doc : Document.t) : activity :=
  {| type := "document";
     action := "uploaded";
     title := "Document ajouté: " +:+ Document.name doc;
     description := "Catégorie: " +:+ Document.category doc;
     property := propertyTitle st (Document.property doc);
     date := Document.createdAt doc;
     icon := "document";
     category := Document.category doc |}.

Definition eventActivity (st : store) (event : CalendarEvent.t)
  : activity :=
  {| type := "event";
     action := "created";
     title := "Événement créé: " +:+ CalendarEvent.title event;
     description := "Type: " +:+ CalendarEvent.type event;
     property := CalendarEvent.property event ≫= propertyTitle st;
     date := CalendarEvent.createdAt event;
     icon := "calendar";
     category := CalendarEvent.type event |}.

Definition propertyActivity (p : Property.t) : activity :=
  {| type := "property";
     action := "created";
     title := "Nouvelle propriété: " +:+ Property.title p;
     description :=
       "Ville: " +:+ Property.city (Property.prop_address p);
     property := Some (Property.title p);
     date := Property.createdAt p;
     icon := "home";
     category := Property.status p |}.

(** The documents that each of the four queries selects, before its
    sort and its limit. *)
Definition stepCandidates (st : store) (userId : idValue) (since : Date)
  : list Step.t :=
  let propertyIds :=
    map Property._id (List.filter (propertyFilter userId) (properties st)) in
  List.filter
    (fun s => existsb (String.eqb (Step.property s)) propertyIds
              && Step.isActive s
              && (since <=? Step.updatedAt s))
    (steps st).

Definition documentCandidates (st : store) (userId : idValue)
  (since : Date) : list Document.t :=
  let propertyIds :=
    map Property._id (List.filter (propertyFilter userId) (properties st)) in
  List.filter
    (fun d => existsb (String.eqb (Document.property d)) propertyIds
              && Document.isActive d
              && (since <=? Document.createdAt d))
    (documents st).

Definition eventCandidates (st : store) (userId : idValue) (since : Date)
  : list CalendarEvent.t :=
  List.filter
    (fun e => (matchesId (CalendarEvent.owner e) userId
               || existsb (fun sh => matchesId (CalendarEvent.user sh) userId)
                    (CalendarEvent.sharedWith e))
              && CalendarEvent.isActive e
              && (since <=? CalendarEvent.createdAt e))
    (events st).

Definition propertyCandidates (st : store) (userId : idValue)
  (since : Date) : list Property.t :=
  List.filter
    (fun p => propertyFilter userId p && (since <=? Property.createdAt p))
    (properties st).

Definition since (q : activityQuery) (now : Date) : Date :=
  now - parsedOr (q_days q) 7 * 24 * 60 * 60 * 1000.

(** The route; [now] is [Date.now()].  A query that fails rejects the
    [Promise.all], and the [catch] block answers 500. *)
Definition recentActivity (other : Z -> cap) (st : store)
  (userId : idValue) (q : activityQuery) (now : Date)
  : response (list activity) :=
  let limit := parsedOr (q_limit q) 20 in
  let since := since q now in
  match quarter other limit with
  | Rejected => Fail 500 "Erreur interne du serveur"
  | c =>
      let recentSteps :=
        limited c
          (sortDesc Step.updatedAt (stepCandidates st userId since)) in
      let recentDocuments :=
        limited c
          (sortDesc Document.createdAt
             (documentCandidates st userId since)) in
      let recentEvents :=
        limited c
          (sortDesc CalendarEvent.createdAt
             (eventCandidates st userId since)) in
      let recentProperties :=
        limited c
          (sortDesc Property.createdAt
             (propertyCandidates st userId since)) in
      let activities :=
        (map (stepActivity st) recentSteps
         ++ map (documentActivity st) recentDocuments
         ++ map (eventActivity st) recentEvents
         ++ map propertyActivity recentProperties)%list in
      Ok (slice0 limit (sortDesc date activities))
  end.

(** ** GET /api/dashboard/analytics: the costs by category *)

Definition amountPositive (c : Step.costDoc) : bool :=
  match Step.amount c with
  | Some a => JS.gt a (num 0)
  | None => false
  end.

(** [$match: { isActive: true, 'costs.amount': { $gt: 0 } }]: a
    condition on the Step; on an array the path condition holds as soon
    as one element satisfies it. *)
Definition costsMatch (s : Step.t) : bool :=
  Step.isActive s
  && match Step.costs s with
     | Step.CostsMissing => false
     | Step.CostsOne c => amountPositive c
     | Step.CostsMany l => existsb amountPositive l
     end.

(** [$unwind: '$costs']: one output per element of the array; a value
    that is not an array counts as a single element, and a Step without
    the path or with an empty array gives no output. *)
Definition unwindCosts (s : Step.t) : list Step.costDoc :=
  match Step.costs s with
  | Step.CostsMissing => []
  | Step.CostsOne c => [c]
  | Step.CostsMany l => l
  end.

(** A group of the [$group] stage while it accumulates: [$sum] over the
    amounts that are Numbers, [$sum: 1], and for [$avg] the number of
    amounts that are Numbers. *)
Record costGroup : Type := {
  g_id : option string;
  totalAmount : number;
  g_count : nat;
  g_numbers : nat
}.

Definition sameKey (a b : option string) : bool :=
  match a, b with
  | Some x, Some y => String.eqb x y
  | None, None => true
  | _, _ => false
  end.

Definition accumulate (c : Step.costDoc) (g : costGroup) : costGroup :=
  {| g_id := g_id g;
     totalAmount :=
       match Step.amount c with
       | Some a => add (totalAmount g) a
       | None => totalAmount g
       end;
     g_count := S (g_count g);
     g_numbers :=
       match Step.amount c with
       | Some _ => S (g_numbers g)
       | None => g_numbers g
       end |}.

Fixpoint addToGroups (c : Step.costDoc) (gs : list costGroup)
  : list costGroup :=
  match gs with
  | [] =>
      [accumulate c
         {| g_id := Step.cost_category c; totalAmount := num 0;
            g_count := 0; g_numbers := 0 |}]
  | g :: gs' =>
      if sameKey (g_id g) (Step.cost_category c)
      then accumulate c g :: gs'
      else g :: addToGroups c gs'
  end.

(** [$group: { _id: '$costs.category', ... }], the groups in the order
    in which their keys first occur. *)
Definition groupCosts (l : list Step.costDoc) : list costGroup :=
  foldl (fun gs c => addToGroups c gs) [] l.

(** [avgAmount]: [null] for a group without a Number. *)
Definition avgAmount (g : costGroup) : option number :=
  match g_numbers g with
  | O => None
  | n => Some (div (totalAmount g) (num (Z.of_nat n)))
  end.

(** The whole pipeline, [$sort: { totalAmount: -1 }] last. *)
Definition costsByCategory (st : store) : list costGroup :=
  stableSort (fun a b => JS.gt (totalAmount a) (totalAmount b))
    (groupCosts (flat_map unwindCosts (List.filter costsMatch (steps st)))).

Record costRow : Type := {
  r_category : option string;
  r_total : number;
  r_count : nat;
  r_average : number
}.

(** [analytics.costs.byCategory]; [null * 100] is 0. *)
Definition byCategory (st : store) : list costRow :=
  map (fun item =>
         {| r_category := g_id item;
            r_total := totalAmount item;
            r_count := g_count item;
            r_average :=
              div (Math_round
                     (mul (default (num 0) (avgAmount item)) (num 100)))
                  (num 100) |})
    (costsByCategory st).

End Dashboard.

(* ================================================================== *)
(** * routes/calendar.js *)
(* ================================================================== *)

Module Calendar.
Import JS.

(** The visibility condition of the event queries:
    [$or: [{ owner: userId }, { 'sharedWith.user': userId }]]. *)
Definition ownerOrShared (userId : idValue) (e : CalendarEvent.t) : bool :=
  matchesId (CalendarEvent.owner e) userId
  || existsb (fun sh => matchesId (CalendarEvent.user sh) userId)
       (CalendarEvent.sharedWith e).

(** ** GET /api/calendar/events: the computed flags *)

Record flags : Type := {
  isPast : bool;
  isOngoing : bool;
  isUpcoming : bool
}.

(** The three flags that the list adds to an event.  Each [new Date()]
    reads the clock anew: [t1] for [isPast], [t2] and [t3] for the two sides
    of [isOngoing], [t4] for [isUpcoming], in that order. *)
Definition enrich (t1 t2 t3 t4 : Date) (e : CalendarEvent.t) : flags :=
  {| isPast := t1 >? CalendarEvent.endDate e;
     isOngoing :=
       (CalendarEvent.startDate e <=? t2) && (t3 <=? CalendarEvent.endDate e);
     isUpcoming := t4 <? CalendarEvent.startDate e |}.

Definition scheduledOrConfirmed (e : CalendarEvent.t) : bool :=
  existsb (String.eqb (CalendarEvent.status e)) ["scheduled"; "confirmed"].

(** ** The answer of the two lists below *)

(** The Property that [populate('property', 'title address')] puts under
    an event: the one the event refers to, when the collection has it. *)
Definition populatedProperty (st : store) (e : CalendarEvent.t)
  : option Property.t :=
  CalendarEvent.property e ≫= Routes.findProperty st.

(** [res.json({ success: true, data: { events } })] serialises each event
    with what [populate] loaded.  A populated Property is loaded without
    its photos, and the getter of its [primaryPhoto] virtual throws; the
    route then ends in its [catch] block.  [rest e] is whether the rest of
    the event serialises, which the CalendarEvent, Step and User schemas
    decide; they are not among the sources. *)
Definition respond (rest : CalendarEvent.t -> bool) (st : store)
  (events : list CalendarEvent.t) : response (list CalendarEvent.t) :=
  if forallb
       (fun e =>
          match populatedProperty st e with
          | Some p => Property.primaryPhotoReads ["title"; "address"] p
          | None => true
          end && rest e) events
  then Ok events
  else Fail 500 "Erreur interne du serveur".

(** ** GET /api/calendar/upcoming *)

(** The query of the route, for a window of [days] days. *)
Definition upcomingEvents (st : store) (userId : idValue) (days : Z)
  (now : Date) : list CalendarEvent.t :=
  let endDate := now + days * 24 * 60 * 60 * 1000 in
  take 20
    (sortAsc CalendarEvent.startDate
       (List.filter
          (fun e => ownerOrShared userId e
                    && CalendarEvent.isActive e
                    && (now <=? CalendarEvent.startDate e)
                    && (CalendarEvent.startDate e <=? endDate)
                    && scheduledOrConfirmed e)
          (events st))).

(** The route.  [days] is the query parameter as the validator and
    [parseInt] read it: absent, or the integer its text denotes. *)
Definition upcoming (rest : CalendarEvent.t -> bool) (st : store)
  (userId : idValue) (days : option Z) (now : Date)
  : response (list CalendarEvent.t) :=
  if negb (match days with
           | Some d => (1 <=? d) && (d <=? 365)
           | None => true
           end)
  then Fail 400 "Paramètres invalides"
  else
    let days := match days with
                | Some d => if d =? 0 then 7 else d
                | None => 7
                end in
    respond rest st (upcomingEvents st userId days now).

(** ** GET /api/calendar/overdue *)

Definition overdueEvents (st : store) (userId : idValue) (now : Date)
  : list CalendarEvent.t :=
  take 50
    (sortDesc CalendarEvent.startDate
       (List.filter
          (fun e => ownerOrShared userId e
                    && CalendarEvent.isActive e
                    && (CalendarEvent.endDate e <? now)
                    && scheduledOrConfirmed e)
          (events st))).

Definition overdue (rest : CalendarEvent.t -> bool) (st : store)
  (userId : idValue) (now : Date) : response (list CalendarEvent.t) :=
  respond rest st (overdueEvents st userId now).

End Calendar.

(* ================================================================== *)
(** * models/Document.js *)
(* ================================================================== *)

Module DocumentModel.
Import JS.

(** [s.startsWith(p)] and [s.includes(p)]. *)
Definition startsWith (s p : string) : bool := String.prefix p s.

Fixpoint includes (s p : string) : bool :=
  String.prefix p s
  || match s with
     | EmptyString => false
     | String _ s' => includes s' p
     end.

(** [s.split('.')]: the text before the first dot, and what follows that
    dot when there is one. *)
Fixpoint untilDot (s : string) : string * option string :=
  match s with
  | EmptyString => (EmptyString, None)
  | String c s' =>
      if Ascii.eqb c "."%char then (EmptyString, Some s')
      else let (a, r) := untilDot s' in (String c a, r)
  end.

(** [s.split('.')[0]] and [s.split('.')[1]], [None] for [undefined]. *)
Definition part0 (s : string) : string := fst (untilDot s).

Definition part1 (s : string) : option string :=
  match snd (untilDot s) with
  | Some r => Some (fst (untilDot r))
  | None => None
  end.

Definition isDigit (c : ascii) : bool :=
  let n := Ascii.nat_of_ascii c in (48 <=? n)%nat && (n <=? 57)%nat.

(** The longest prefix made of decimal digits. *)
Fixpoint digitPrefix (s : string) : string :=
  match s with
  | EmptyString => EmptyString
  | String c s' => if isDigit c then String c (digitPrefix s') else EmptyString
  end.

(** What [parseInt] returns.  [Unread] stands for the texts that this
    reading of [parseInt] leaves aside: those that begin with white space, a
    sign, a character outside ASCII or the prefix 0x, and those whose digits
    denote 2^53 or more, where a Number no longer holds every integer. *)
Inductive parsed : Type :=
| Int (z : Z)
| NotANumber
| Unread.

Definition parseInt (s : string) : parsed :=
  match s with
  | EmptyString => NotANumber
  | String c s' =>
      if isDigit c then
        match s' with
        | String x _ =>
            if Ascii.eqb c "0"%char
               && (Ascii.eqb x "x"%char || Ascii.eqb x "X"%char)
            then Unread
            else
              match NilEmpty.uint_of_string (digitPrefix s) with
              | Some d =>
                  if Z.of_uint d <? 2 ^ 53 then Int (Z.of_uint d) else Unread
              | None => NotANumber
              end
        | EmptyString =>
            match NilEmpty.uint_of_string (digitPrefix s) with
            | Some d => Int (Z.of_uint d)
            | None => NotANumber
            end
        end
      else
        let n := Ascii.nat_of_ascii c in
        if (existsb (Nat.eqb n) [9; 10; 11; 12; 13; 32; 43; 45]
            || (128 <=? n))%nat
        then Unread
        else NotANumber
  end.

(** [`${n}`] for a Number that is a natural number below 2^53 + 1. *)
Definition showInt (z : Z) : string :=
  NilZero.string_of_uint (N.to_uint (Z.to_N z)).

Record version : Type := {
  v_version : string;
  v_filename : string;
  v_path : string;
  v_size : number;
  v_uploadedAt : Date;
  v_uploadedBy : ObjectId;
  v_changelog : string
}.

(** A Document, with the paths that the virtuals, the methods and the
    hook of the model read or write. *)
Record t : Type := {
  _id : ObjectId;
  type : string;
  file_originalName : string;
  file_mimeType : string;
  metadata_version : string;
  status : string;
  isArchived : bool;
  downloadCount : number;
  lastDownloaded : option Date;
  lastDownloadedBy : option ObjectId;
  versions : list version;
  expirationDate : option Date;
  isNew : bool;
  isModified : string -> bool
}.

(** The [enum] of the [type] path. *)
Definition typeEnum : list string :=
  ["pdf"; "image"; "document"; "spreadsheet"; "presentation"; "video";
   "audio"; "archive"; "autre"].

(** virtual('isExpired'); [now] is [new Date()]. *)
Definition isExpired (now : Date) (d : t) : bool :=
  match expirationDate d with
  | None => false
  | Some e => now >? e
  end.

(** virtual('isImage'), virtual('isPDF'), virtual('previewUrl'). *)
Definition isImage (d : t) : bool :=
  existsb (fun ty => String.eqb ty (file_mimeType d))
    ["image/jpeg"; "image/jpg"; "image/png"; "image/gif"; "image/webp";
     "image/svg+xml"].

Definition isPDF (d : t) : bool :=
  String.eqb (file_mimeType d) "application/pdf".

Definition previewUrl (d : t) : option string :=
  if isImage d || isPDF d
  then Some ("/api/documents/" +:+ _id d +:+ "/preview")
  else None.

(** The chain of tests of the pre-save hook on the media type. *)
Definition classify (mimeType : string) : string :=
  if startsWith mimeType "image/" then "image"
  else if String.eqb mimeType "application/pdf" then "pdf"
  else if includes mimeType "document" || includes mimeType "text"
  then "document"
  else if includes mimeType "spreadsheet" || includes mimeType "excel"
  then "spreadsheet"
  else if includes mimeType "presentation"
          || includes mimeType "powerpoint"
  then "presentation"
  else if startsWith mimeType "video/" then "video"
  else if startsWith mimeType "audio/" then "audio"
  else if includes mimeType "zip" || includes mimeType "rar"
          || includes mimeType "archive"
  then "archive"
  else "autre".

Definition set_type (v : string) (d : t) : t :=
  {| _id := _id d; type := v; file_originalName := file_originalName d;
     file_mimeType := file_mimeType d;
     metadata_version := metadata_version d; status := status d;
     isArchived := isArchived d; downloadCount := downloadCount d;
     lastDownloaded := lastDownloaded d;
     lastDownloadedBy := lastDownloadedBy d; versions := versions d;
     expirationDate := expirationDate d; isNew := isNew d;
     isModified := isModified d |}.

(** pre('save'). *)
Definition preSave (d : t) : t :=
  if isNew d || isModified d "file.mimeType"
  then set_type (classify (file_mimeType d)) d
  else d.

(** methods.getNextVersion; [None] where [parseInt] is left unread. *)
Definition getNextVersion (d : t) : option string :=
  match last (versions d) with
  | None => Some "1.1"
  | Some v =>
      let lastVersion := v_version v in
      let minor :=
        match part1 lastVersion with
        | Some text => parseInt text
        | None => NotANumber
        end in
      match minor with
      | Int z => Some (part0 lastVersion +:+ "." +:+ showInt (z + 1))
      | NotANumber => Some (part0 lastVersion +:+ ".NaN")
      | Unread => None
      end
  end.

Record fileData : Type := {
  f_filename : string;
  f_path : string;
  f_size : number
}.

(** methods.addVersion, up to its [save()]: the document as the method
    leaves it.  [changelog] is [None] for an argument that is not given,
    [now] is the default of [uploadedAt]; the [changelog] path of a
    version has [trim: true], so that the text is trimmed when the
    version is pushed. *)
Definition addVersion (file : fileData) (userId : ObjectId)
  (changelog : option string) (now : Date) (d : t) : option t :=
  match getNextVersion d with
  | None => None
  | Some next =>
      let newVersion :=
        {| v_version := next;
           v_filename := f_filename file;
           v_path := f_path file;
           v_size := f_size file;
           v_uploadedAt := now;
           v_uploadedBy := userId;
           v_changelog :=
             trim
               match changelog with
               | Some c => if truthy_string c then c else "Nouvelle version"
               | None => "Nouvelle version"
               end |} in
      Some {| _id := _id d; type := type d;
              file_originalName := file_originalName d;
              file_mimeType := file_mimeType d;
              metadata_version := next; status := status d;
              isArchived := isArchived d; downloadCount := downloadCount d;
              lastDownloaded := lastDownloaded d;
              lastDownloadedBy := lastDownloadedBy d;
              versions := (versions d ++ [newVersion])%list;
              expirationDate := expirationDate d; isNew := isNew d;
              isModified :=
                fun p => String.eqb p "versions"
                         || String.eqb p "metadata.version"
                         || isModified d p |}
  end.

End DocumentModel.

(* ================================================================== *)
(** * middleware/auth.js *)
(* ================================================================== *)

Module Auth.
Import JS.

(** A User as the middleware reads it. *)
Record user : Type := {
  _id : ObjectId;
  email : string;
  firstName : string;
  lastName : string;
  role : string;
  isActive : bool
}.

(** [req.user]. *)
Record reqUser : Type := {
  id : idValue;
  r_email : string;
  r_firstName : string;
  r_lastName : string;
  r_role : string
}.

Definition ofUser (u : user) : reqUser :=
  {| id := IdObject (_id u);
     r_email := email u;
     r_firstName := firstName u;
     r_lastName := lastName u;
     r_role := role u |}.

(** [s.slice(n)] for [n] within the length of [s]. *)
Fixpoint slice (n : nat) (s : string) : string :=
  match n, s with
  | S n', String _ s' => slice n' s'
  | _, _ => s
  end.

(** The token of an Authorization header. *)
Definition tokenOf (authHeader : string) : string :=
  if String.prefix "Bearer " authHeader then slice 7 authHeader
  else authHeader.

Section Middleware.
(** [jwt.verify(token, secret)] gives the decoded payload or throws; the
    two errors that the middleware tells apart are named.  [findUser] is
    [User.findById(decoded.userId)], which gives a user, [null], or
    throws. *)
Context {payload : Type}.

Inductive verified : Type :=
| Decoded (p : payload)
| JsonWebTokenError
| TokenExpiredError
| OtherError.

Inductive found : Type :=
| Found (u : user)
| NoUser
| Throws.

Variable verify : string -> verified.
Variable findUser : payload -> found.

(** [auth]: the request goes on with [req.user], or is answered. *)
Definition auth (authHeader : option string) : response reqUser :=
  match authHeader with
  | None => Fail 401 "Accès refusé. Token manquant."
  | Some h =>
      if negb (truthy_string h) then Fail 401 "Accès refusé. Token manquant."
      else
        let token := tokenOf h in
        if negb (truthy_string token)
        then Fail 401 "Accès refusé. Token invalide."
        else
          match verify token with
          | Decoded p =>
              match findUser p with
              | Found u =>
                  if negb (isActive u)
                  then Fail 401
                         "Compte désactivé. Contactez l'administrateur."
                  else Ok (ofUser u)
              | NoUser => Fail 401 "Token invalide. Utilisateur non trouvé."
              | Throws => Fail 500 "Erreur interne du serveur"
              end
          | JsonWebTokenError => Fail 401 "Token invalide."
          | TokenExpiredError =>
              Fail 401 "Token expiré. Veuillez vous reconnecter."
          | OtherError => Fail 500 "Erreur interne du serveur"
          end
  end.

(** [optionalAuth]: the request always goes on, with or without
    [req.user]. *)
Definition optionalAuth (authHeader : option string) : option reqUser :=
  match authHeader with
  | None => None
  | Some h =>
      if negb (truthy_string h) then None
      else
        let token := tokenOf h in
        if negb (truthy_string token) then None
        else
          match verify token with
          | Decoded p =>
              match findUser p with
              | Found u => if isActive u then Some (ofUser u) else None
              | NoUser | Throws => None
              end
          | _ => None
          end
  end.

(** [authorize(...roles)], applied to the request that [req.user] is
    part of. *)
Definition authorize (roles : list string) (user : option reqUser)
  : response reqUser :=
  match user with
  | None => Fail 401 "Accès refusé. Authentification requise."
  | Some u =>
      if negb (existsb (String.eqb (r_role u)) roles)
      then Fail 403 "Accès refusé. Permissions insuffisantes."
      else Ok u
  end.

End Middleware.

End Auth.

(* ================================================================== *)
(** * routes/steps.js: the list of a property's steps and two writes *)
(* ================================================================== *)

(** The writes below follow the paths that the routes assign.  The
    [updatedAt] path, which the [timestamps] option of the schema keeps,
    is not followed: a written step carries the value it was loaded
    with. *)
Module StepRoutes.
Import JS.

(** ** GET /api/steps/property/:propertyId *)

Record stats : Type := {
  total : nat;
  completed : nat;
  inProgress : nat;
  todo : nat;
  overdue : nat
}.

Record stepsData : Type := {
  d_steps : list Step.t;
  d_stats : stats
}.

Definition countStatus (status : string) (l : list Step.t) : nat :=
  length (List.filter (fun step => String.eqb (Step.status step) status) l).

(** [clock i] is what [new Date()] gives when the [isOverdue] virtual of
    the step at index [i] is read. *)
Definition getPropertySteps (st : store) (userId : idValue)
  (propertyId : ObjectId) (clock : nat -> Date) : response stepsData :=
  match List.find
          (fun p => String.eqb (Property._id p) propertyId
                    && Routes.ownerOrShared userId p) (properties st) with
  | None => Fail 404 "Propriété non trouvée"
  | Some _ =>
      let steps :=
        sortAsc Step.order
          (List.filter
             (fun s => String.eqb (Step.property s) propertyId
                       && Step.isActive s) (steps st)) in
      Ok {| d_steps := steps;
            d_stats :=
              {| total := length steps;
                 completed := countStatus "completed" steps;
                 inProgress := countStatus "in_progress" steps;
                 todo := countStatus "todo" steps;
                 overdue :=
                   length
                     (List.filter (fun b : bool => b)
                        (imap (fun i step => Step.isOverdue (clock i) step)
                           steps)) |} |}
  end.

(** ** PUT /api/steps/:id/status *)

(** [save()] writes the document that has the identifier of [s]. *)
Fixpoint replaceStep (s : Step.t) (l : list Step.t) : list Step.t :=
  match l with
  | [] => []
  | x :: l' =>
      if String.eqb (Step._id x) (Step._id s) then s :: l'
      else x :: replaceStep s l'
  end.

Definition withSteps (l : list Step.t) (st : store) : store :=
  {| properties := properties st; steps := l;
     documents := documents st; events := events st |}.

(** The access check on the populated step: the owner test, and the
    query on the share list when it fails. *)
Definition refused (st : store) (userId : idValue)
  (property : Property.t) : bool :=
  if strictNeString (Property.owner property) userId then
    match List.find
            (fun p =>
               String.eqb (Property._id p) (Property._id property)
               && existsb (fun sh => matchesId (Property.user sh) userId)
                    (Property.sharedWith p))
            (properties st) with
    | None => true
    | Some _ => false
    end
  else false.

(** The change of status, by the model methods where the route uses
    them; [now] is [new Date()]. *)
Definition applyStatus (status : string) (now : Date) (step : Step.t)
  : Step.t :=
  let oldStatus := Step.status step in
  if String.eqb status "in_progress" && String.eqb oldStatus "todo" then
    Step.start now step
  else if String.eqb status "completed" then
    Step.complete now step
  else
    Step.save (Step.set_status status step).

(** The route: its answer, and the collections as it leaves them.  A
    step that [findById] returns has no pending modification; a missing
    Property makes [populate] leave [null], and reading [.owner] of it
    throws. *)
Definition putStatus (st : store) (userId : idValue) (id : ObjectId)
  (status : string) (now : Date) : response Step.t * store :=
  if negb (existsb (String.eqb status) Step.statusEnum)
  then (Fail 400 "Statut invalide", st)
  else
    match List.find (fun s => String.eqb (Step._id s) id) (steps st) with
    | None => (Fail 404 "Étape non trouvée", st)
    | Some loaded =>
        let step := Step.stored loaded in
        match Routes.findProperty st (Step.property step) with
        | None => (Fail 500 "Erreur interne du serveur", st)
        | Some property =>
            if refused st userId property
            then (Fail 403 "Accès refusé", st)
            else
              let saved := applyStatus status now step in
              (Ok saved, withSteps (replaceStep saved (steps st)) st)
        end
    end.

(** ** POST /api/steps/reorder *)

Definition set_order (v : Z) (s : Step.t) : Step.t :=
  {| Step._id := Step._id s; Step.property := Step.property s;
     Step.name := Step.name s; Step.category := Step.category s;
     Step.status := Step.status s; Step.priority := Step.priority s;
     Step.order := v; Step.step_dates := Step.step_dates s;
     Step.checklist := Step.checklist s; Step.costs := Step.costs s;
     Step.completionPercentage := Step.completionPercentage s;
     Step.isActive := Step.isActive s; Step.updatedAt := Step.updatedAt s;
     Step.isModified := Step.isModified s |}.

(** [Step.findByIdAndUpdate(id, { order })]: the step with that
    identifier, if there is one, gets the order; no hook runs. *)
Fixpoint findByIdAndUpdate (id : ObjectId) (order : Z) (l : list Step.t)
  : list Step.t :=
  match l with
  | [] => []
  | x :: l' =>
      if String.eqb (Step._id x) id then set_order order x :: l'
      else x :: findByIdAndUpdate id order l'
  end.

(** The route.  [items] is the [steps] array of the body, an identifier
    and an integer order each, the identifiers well formed; the updates
    are applied in the order of the array. *)
Definition reorder (st : store) (userId : idValue) (propertyId : ObjectId)
  (items : list (ObjectId * Z)) : response (list Step.t) * store :=
  if negb (forallb (fun item => 1 <=? snd item) items)
  then (Fail 400 "Données invalides", st)
  else
    match List.find
            (fun p => String.eqb (Property._id p) propertyId
                      && matchesId (Property.owner p) userId)
            (properties st) with
    | None => (Fail 404 "Propriété non trouvée", st)
    | Some _ =>
        let updated :=
          foldl (fun l item => findByIdAndUpdate (fst item) (snd item) l)
            (steps st) items in
        (Ok (sortAsc Step.order
               (List.filter
                  (fun s => String.eqb (Step.property s) propertyId
                            && Step.isActive s) updated)),
         withSteps updated st)
    end.

End StepRoutes.

(* ================================================================== *)
(** * routes/properties.js: the soft delete and the change of status *)
(* ================================================================== *)

Module PropertyRoutes.
Import JS.

Definition set_isActive (b : bool) (p : Property.t) : Property.t :=
  {| Property._id := Property._id p; Property.owner := Property.owner p;
     Property.title := Property.title p;
     Property.description := Property.description p;
     Property.prop_address := Property.prop_address p;
     Property.price_amount := Property.price_amount p;
     Property.details_surface := Property.details_surface p;
     Property.photos := Property.photos p;
     Property.status := Property.status p; Property.isActive := b;
     Property.sharedWith := Property.sharedWith p;
     Property.createdAt := Property.createdAt p |}.

Definition set_status (v : string) (p : Property.t) : Property.t :=
  {| Property._id := Property._id p; Property.owner := Property.owner p;
     Property.title := Property.title p;
     Property.description := Property.description p;
     Property.prop_address := Property.prop_address p;
     Property.price_amount := Property.price_amount p;
     Property.details_surface := Property.details_surface p;
     Property.photos := Property.photos p;
     Property.status := v; Property.isActive := Property.isActive p;
     Property.sharedWith := Property.sharedWith p;
     Property.createdAt := Property.createdAt p |}.

(** [Property.findOne({ _id: id, owner: req.user.id })]. *)
Definition findOwned (st : store) (userId : idValue) (id : ObjectId)
  : option Property.t :=
  List.find
    (fun p => String.eqb (Property._id p) id
              && matchesId (Property.owner p) userId) (properties st).

(** [save()] runs the pre-save hook and writes the document that has the
    identifier of [p]. *)
Fixpoint replaceProperty (p : Property.t) (l : list Property.t)
  : list Property.t :=
  match l with
  | [] => []
  | x :: l' =>
      if String.eqb (Property._id x) (Property._id p) then p :: l'
      else x :: replaceProperty p l'
  end.

Definition withProperties (l : list Property.t) (st : store) : store :=
  {| properties := l; steps := steps st;
     documents := documents st; events := events st |}.

Definition save (p : Property.t) (st : store) : Property.t * store :=
  let saved := Property.preSave p in
  (saved, withProperties (replaceProperty saved (properties st)) st).

(** ** DELETE /api/properties/:id *)

Definition deleteProperty (st : store) (userId : idValue) (id : ObjectId)
  : response unit * store :=
  match findOwned st userId id with
  | None => (Fail 404 "Propriété non trouvée", st)
  | Some property =>
      let (_, st') := save (set_isActive false property) st in
      (Ok tt, st')
  end.

(** ** PUT /api/properties/:id/status *)

Record statusData : Type := {
  s_property : Property.t;
  s_progressPercentage : value
}.

Definition putStatus (st : store) (userId : idValue) (id : ObjectId)
  (status : string) : response statusData * store :=
  if negb (existsb (String.eqb status) Property.statusEnum)
  then (Fail 400 "Statut invalide", st)
  else
    match findOwned st userId id with
    | None => (Fail 404 "Propriété non trouvée", st)
    | Some property =>
        let (saved, st') := save (set_status status property) st in
        (Ok {| s_property := saved;
               s_progressPercentage :=
                 Property.methods_getProgressPercentage saved |}, st')
    end.

End PropertyRoutes.

(* ================================================================== *)
(** * What the statements speak of *)
(* ================================================================== *)

(** The order that [sortDesc] establishes on its key, and its strict
    form. *)
Definition descending {A : Type} (key : A -> Z) : list A -> Prop :=
  StronglySorted (fun a b => key b <= key a).

Definition strictlyDescending {A : Type} (key : A -> Z) : list A -> Prop :=
  StronglySorted (fun a b => key b < key a).

(** What the statements below read of an alert. *)
Definition alertKind (a : Dashboard.alert) : string * string * nat :=
  (Dashboard.a_type a, Dashboard.a_priority a, Dashboard.a_count a).

(** The cost entries that reach the [$group] stage: all entries of the
    active Steps that the [$match] stage keeps. *)
Definition keptEntries (st : store) : list Step.costDoc :=
  flat_map Dashboard.unwindCosts
    (List.filter Dashboard.costsMatch (steps st)).

(** How many of the entries [l] fall under the group key [k]. *)
Definition entriesUnder (k : option string) (l : list Step.costDoc) : nat :=
  length
    (List.filter (fun c => Dashboard.sameKey k (Step.cost_category c)) l).

(** The groups while the entries [l] have been read: one group per key
    that occurs, each counting the entries under its key. *)
Definition groupsOf (gs : list Dashboard.costGroup) (l : list Step.costDoc)
  : Prop :=
  NoDup (map Dashboard.g_id gs)
  /\ Forall (fun g => Dashboard.g_count g = entriesUnder (Dashboard.g_id g) l
                      /\ (0 < Dashboard.g_count g)%nat) gs
  /\ (forall c, In c l ->
               In (Step.cost_category c) (map Dashboard.g_id gs)).

(** The same list request for another page, and the Properties that the
    list route returns for it. *)
Definition withPage (k : Z) (q : Routes.listQuery) : Routes.listQuery :=
  {| Routes.page := Some k; Routes.limit := Routes.limit q;
     Routes.q_status := Routes.q_status q; Routes.q_city := Routes.q_city q;
     Routes.minPrice := Routes.minPrice q;
     Routes.maxPrice := Routes.maxPrice q;
     Routes.minSurface := Routes.minSurface q;
     Routes.maxSurface := Routes.maxSurface q;
     Routes.sortBy := Routes.sortBy q;
     Routes.sortOrder := Routes.sortOrder q;
     Routes.search := Routes.search q |}.

Definition pageOf (regex : string -> option (string -> bool))
  (rank : Property.t -> Z) (st : store)
  (userId : JS.idValue) (q : Routes.listQuery) (k : Z)
  : list Routes.enrichedProperty :=
  match Routes.listProperties regex rank st userId (withPage k q) with
  | Ok data => Routes.l_properties data
  | Fail _ _ => []
  end.

(** The order that [sortAsc] establishes on its key. *)
Definition ascending {A : Type} (key : A -> Z) : list A -> Prop :=
  StronglySorted (fun a b => key a <= key b).

(** How many of the three flags are set. *)
Definition flagsSet (f : Calendar.flags) : nat :=
  (Nat.b2n (Calendar.isPast f) + Nat.b2n (Calendar.isOngoing f)
   + Nat.b2n (Calendar.isUpcoming f))%nat.

(** One call of [addVersion], and a series of calls, each on the
    document that the one before left. *)
Record upload : Type := {
  u_file : DocumentModel.fileData;
  u_user : JS.ObjectId;
  u_changelog : option string;
  u_now : JS.Date
}.

Fixpoint addVersions (l : list upload) (d : DocumentModel.t)
  : option DocumentModel.t :=
  match l with
  | [] => Some d
  | u :: l' =>
      match DocumentModel.addVersion (u_file u) (u_user u) (u_changelog u)
              (u_now u) d with
      | Some d' => addVersions l' d'
      | None => None
      end
  end.

(** The version text "1.k". *)
Definition minorVersion (k : nat) : string :=
  "1." +:+ DocumentModel.showInt (Z.of_nat k).

(** A value of [costs] such as the Step schema admits: nothing, or one
    embedded document with the declared paths only ([estimated], [actual],
    [currency]). *)
Definition declaredCosts (c : Step.costsField) : Prop :=
  match c with
  | Step.CostsMissing => True
  | Step.CostsOne d => Step.amount d = None /\ Step.cost_category d = None
  | Step.CostsMany _ => False
  end.

(** All the updates of a request, one after the other. *)
Definition updates (items : list (JS.ObjectId * Z)) (l : list Step.t)
  : list Step.t :=
  foldl (fun l item =>
           StepRoutes.findByIdAndUpdate (fst item) (snd item) l) l items.

(* ================================================================== *)
(** * Example data *)
(* ================================================================== *)

Definition noDates : Step.dates :=
  {| Step.plannedStart := None; Step.plannedEnd := None;
     Step.actualStart := None; Step.actualEnd := None;
     Step.deadline := None |}.

Definition schemaCosts : Step.costsField :=
  Step.CostsOne
    {| Step.estimated := None; Step.actual := None;
       Step.currency := Some "EUR"; Step.cost_category := None;
       Step.amount := None |}.

(** A step in progress with the empty checklist, as loaded with its
    status just assigned: the [status] path is marked as modified. *)
Definition stepInProgress : Step.t :=
  {| Step._id := "5f0000000000000000000101";
     Step.property := "5f0000000000000000000001";
     Step.name := "Recherche active";
     Step.category := "recherche";
     Step.status := "in_progress";
     Step.priority := "medium";
     Step.order := 1;
     Step.step_dates := noDates;
     Step.checklist := [];
     Step.costs := schemaCosts;
     Step.completionPercentage := JS.num 0;
     Step.isActive := true;
     Step.updatedAt := 1000;
     Step.isModified := fun p => String.eqb p "status" |}.

(** A cancelled step whose deadline (day 5) lies before now (day 10). *)
Definition stepCancelled : Step.t :=
  {| Step._id := "5f0000000000000000000102";
     Step.property := "5f0000000000000000000001";
     Step.name := "Deuxième visite";
     Step.category := "visite";
     Step.status := "cancelled";
     Step.priority := "medium";
     Step.order := 3;
     Step.step_dates :=
       {| Step.plannedStart := None; Step.plannedEnd := None;
          Step.actualStart := None; Step.actualEnd := None;
          Step.deadline := Some (5 * 86400000) |};
     Step.checklist := [];
     Step.costs := schemaCosts;
     Step.completionPercentage := JS.num 0;
     Step.isActive := true;
     Step.updatedAt := 1000;
     Step.isModified := fun _ => false |}.

(** Two users: the caller and another one. *)
Definition caller : JS.ObjectId := "5f00000000000000000000a1".
Definition other : JS.ObjectId := "5f00000000000000000000a2".

Definition photoAt (u : string) (primary : bool) : Property.photo :=
  {| Property.url := u; Property.caption := "";
     Property.isPrimary := primary; Property.uploadedAt := 0 |}.

Definition propertyOf (id owner title status : string)
  (shares : list Property.share) (created : JS.Date) : Property.t :=
  {| Property._id := id;
     Property.owner := owner;
     Property.title := title;
     Property.description := None;
     Property.prop_address :=
       {| Property.street := "1 rue de la Paix"; Property.city := "Paris";
          Property.postalCode := "75002" |};
     Property.price_amount := JS.num 250000;
     Property.details_surface := JS.num 50;
     Property.photos :=
       [photoAt "/uploads/properties/a.jpg" false;
        photoAt "/uploads/properties/b.jpg" true;
        photoAt "/uploads/properties/c.jpg" true];
     Property.status := status;
     Property.isActive := true;
     Property.sharedWith := shares;
     Property.createdAt := created |}.

(** A Property of the caller's, and one that its owner shares with the
    caller. *)
Definition propertyOwned : Property.t :=
  propertyOf "5f0000000000000000000001" caller "Studio Bastille" "visiting"
    [] (1 * 86400000).

Definition propertyShared : Property.t :=
  propertyOf "5f0000000000000000000002" other "Maison Annecy" "searching"
    [{| Property.user := caller; Property.role := "viewer";
        Property.sharedAt := 0 |}] (2 * 86400000).

(** A Property of the other user's that nobody shares. *)
Definition propertyForeign : Property.t :=
  propertyOf "5f0000000000000000000003" other "Loft Lyon" "offer_made"
    [] (3 * 86400000).

(** A step, a document and an event that belong to the other user
    alone, and the collections holding all of the above. *)
Definition stepForeign : Step.t :=
  {| Step._id := "5f0000000000000000000103";
     Step.property := Property._id propertyForeign;
     Step.name := "Faire une offre";
     Step.category := "offre";
     Step.status := "todo";
     Step.priority := "high";
     Step.order := 4;
     Step.step_dates := noDates;
     Step.checklist := [];
     Step.costs := schemaCosts;
     Step.completionPercentage := JS.num 0;
     Step.isActive := true;
     Step.updatedAt := 3 * 86400000;
     Step.isModified := fun _ => false |}.

Definition documentForeign : Document.t :=
  {| Document._id := "5f0000000000000000000201";
     Document.property := Property._id propertyForeign;
     Document.step := None;
     Document.uploadedBy := other;
     Document.name := "Compromis de vente";
     Document.category := "compromis";
     Document.type := "pdf";
     Document.sharedWith := [];
     Document.isActive := true;
     Document.createdAt := 3 * 86400000 |}.

Definition eventForeign : CalendarEvent.t :=
  {| CalendarEvent._id := "5f0000000000000000000301";
     CalendarEvent.owner := other;
     CalendarEvent.title := "Rendez-vous notaire";
     CalendarEvent.type := "rendez_vous_notaire";
     CalendarEvent.status := "scheduled";
     CalendarEvent.startDate := 20 * 86400000;
     CalendarEvent.endDate := 20 * 86400000 + 3600000;
     CalendarEvent.property := Some (Property._id propertyForeign);
     CalendarEvent.sharedWith := [];
     CalendarEvent.isActive := true;
     CalendarEvent.createdAt := 3 * 86400000 |}.

Definition exampleStore : store :=
  {| properties := [propertyOwned; propertyShared; propertyForeign];
     steps := [stepInProgress; stepCancelled; stepForeign];
     documents := [documentForeign];
     events := [eventForeign] |}.

(** An identifier that no stored record has. *)
Definition missingId : JS.ObjectId := "5f00000000000000000000ff".

(** The sources of the activity example: one Property of the caller's
    created on day 1, two events created on days 2 and 3, four documents
    created on days 4 to 7 and four steps updated on days 8 to 11. *)
Definition day (n : Z) : JS.Date := n * 86400000.

Definition activityProperty : Property.t :=
  propertyOf "5f0000000000000000000001" caller "Studio Bastille" "visiting"
    [] (day 1).

Definition stepAt (id name : string) (updated : JS.Date) : Step.t :=
  {| Step._id := id;
     Step.property := Property._id activityProperty;
     Step.name := name;
     Step.category := "visite";
     Step.status := "todo";
     Step.priority := "medium";
     Step.order := 1;
     Step.step_dates := noDates;
     Step.checklist := [];
     Step.costs := schemaCosts;
     Step.completionPercentage := JS.num 0;
     Step.isActive := true;
     Step.updatedAt := updated;
     Step.isModified := fun _ => false |}.

Definition documentAt (id name : string) (created : JS.Date) : Document.t :=
  {| Document._id := id;
     Document.property := Property._id activityProperty;
     Document.step := None;
     Document.uploadedBy := caller;
     Document.name := name;
     Document.category := "diagnostic";
     Document.type := "pdf";
     Document.sharedWith := [];
     Document.isActive := true;
     Document.createdAt := created |}.

Definition eventAt (id title : string) (created : JS.Date)
  : CalendarEvent.t :=
  {| CalendarEvent._id := id;
     CalendarEvent.owner := caller;
     CalendarEvent.title := title;
     CalendarEvent.type := "visite";
     CalendarEvent.status := "scheduled";
     CalendarEvent.startDate := day 20;
     CalendarEvent.endDate := day 21;
     CalendarEvent.property := Some (Property._id activityProperty);
     CalendarEvent.sharedWith := [];
     CalendarEvent.isActive := true;
     CalendarEvent.createdAt := created |}.

Definition activityStore : store :=
  {| properties := [activityProperty];
     steps :=
       [stepAt "5f0000000000000000000111" "s9" (day 9);
        stepAt "5f0000000000000000000112" "s11" (day 11);
        stepAt "5f0000000000000000000113" "s8" (day 8);
        stepAt "5f0000000000000000000114" "s10" (day 10)];
     documents :=
       [documentAt "5f0000000000000000000211" "d4" (day 4);
        documentAt "5f0000000000000000000212" "d7" (day 7);
        documentAt "5f0000000000000000000213" "d5" (day 5);
        documentAt "5f0000000000000000000214" "d6" (day 6)];
     events :=
       [eventAt "5f0000000000000000000311" "e3" (day 3);
        eventAt "5f0000000000000000000312" "e2" (day 2)] |}.

(** The request [?limit=8&days=30], made on day 12. *)
Definition activityRequest : Dashboard.activityQuery :=
  {| Dashboard.q_limit := Some 8; Dashboard.q_days := Some 30 |}.

(** The Step of the costs example: its cost entries are
    [{category: "notary", amount: 500}, {category: "notary", amount: 0}]. *)
Definition costEntry (category : string) (amount : Z) : Step.costDoc :=
  {| Step.estimated := None; Step.actual := None; Step.currency := None;
     Step.cost_category := Some category;
     Step.amount := Some (JS.num amount) |}.

Definition stepWithCosts : Step.t :=
  {| Step._id := "5f0000000000000000000121";
     Step.property := Property._id activityProperty;
     Step.name := "Signature du compromis";
     Step.category := "compromis";
     Step.status := "completed";
     Step.priority := "high";
     Step.order := 6;
     Step.step_dates := noDates;
     Step.checklist := [];
     Step.costs :=
       Step.CostsMany [costEntry "notary" 500; costEntry "notary" 0];
     Step.completionPercentage := JS.num 100;
     Step.isActive := true;
     Step.updatedAt := day 9;
     Step.isModified := fun _ => false |}.

Definition costStore : store :=
  {| properties := [activityProperty];
     steps := [stepWithCosts];
     documents := [];
     events := [] |}.

(** The request without any parameter. *)
Definition plainList : Routes.listQuery :=
  {| Routes.page := None; Routes.limit := None; Routes.q_status := None;
     Routes.q_city := None; Routes.minPrice := None;
     Routes.maxPrice := None; Routes.minSurface := None;
     Routes.maxSurface := None; Routes.sortBy := None;
     Routes.sortOrder := None; Routes.search := None |}.

(** A document just created from an uploaded PDF, and three uploads of
    new versions. *)
Definition documentNew : DocumentModel.t :=
  {| DocumentModel._id := "5f0000000000000000000221";
     DocumentModel.type := "";
     DocumentModel.file_originalName := "compromis.pdf";
     DocumentModel.file_mimeType := "application/pdf";
     DocumentModel.metadata_version := "1.0";
     DocumentModel.status := "uploaded";
     DocumentModel.isArchived := false;
     DocumentModel.downloadCount := JS.num 0;
     DocumentModel.lastDownloaded := None;
     DocumentModel.lastDownloadedBy := None;
     DocumentModel.versions := [];
     DocumentModel.expirationDate := None;
     DocumentModel.isNew := true;
     DocumentModel.isModified := fun _ => true |}.

Definition uploadAt (name : string) (now : JS.Date) : upload :=
  {| u_file :=
       {| DocumentModel.f_filename := name;
          DocumentModel.f_path := "uploads/documents/" +:+ name;
          DocumentModel.f_size := JS.num 1024 |};
     u_user := caller;
     u_changelog := None;
     u_now := now |}.

Definition threeUploads : list upload :=
  [uploadAt "doc-1.pdf" (day 1); uploadAt "doc-2.pdf" (day 2);
   uploadAt "doc-3.pdf" (day 3)].

(** A token service that knows one token, "abc", of the caller. *)
Definition verifyExample (token : string) : @Auth.verified JS.ObjectId :=
  if String.eqb token "abc" then Auth.Decoded caller
  else Auth.JsonWebTokenError.

Definition findUserExample (id : JS.ObjectId) : Auth.found :=
  if String.eqb id caller
  then Auth.Found {| Auth._id := caller; Auth.email := "a@example.org";
                     Auth.firstName := "Ada"; Auth.lastName := "L";
                     Auth.role := "user"; Auth.isActive := true |}
  else Auth.NoUser.

(** A step of the Property that its owner shares with the caller, and
    the collections with it. *)
Definition stepShared : Step.t :=
  {| Step._id := "5f0000000000000000000104";
     Step.property := Property._id propertyShared;
     Step.name := "Première visite";
     Step.category := "visite";
     Step.status := "todo";
     Step.priority := "medium";
     Step.order := 2;
     Step.step_dates := noDates;
     Step.checklist := [];
     Step.costs := schemaCosts;
     Step.completionPercentage := JS.num 0;
     Step.isActive := true;
     Step.updatedAt := 2 * 86400000;
     Step.isModified := fun _ => false |}.

Definition sharedStore : store :=
  {| properties := [propertyOwned; propertyShared; propertyForeign];
     steps := [stepCancelled; stepShared; stepForeign];
     documents := [];
     events := [] |}.

(** A storage that rejects every limit that is not a positive whole
    number. *)
Definition refuseOther : Z -> Dashboard.cap := fun _ => Dashboard.Rejected.

(** An event of the caller's that refers to no Property, and the
    collections with it. *)
Definition eventPlain : CalendarEvent.t :=
  {| CalendarEvent._id := "5f0000000000000000000302";
     CalendarEvent.owner := caller;
     CalendarEvent.title := "Appel à la banque";
     CalendarEvent.type := "autre";
     CalendarEvent.status := "confirmed";
     CalendarEvent.startDate := 18 * 86400000;
     CalendarEvent.endDate := 18 * 86400000 + 1800000;
     CalendarEvent.property := None;
     CalendarEvent.sharedWith := [];
     CalendarEvent.isActive := true;
     CalendarEvent.createdAt := 3 * 86400000 |}.

Definition plainEventStore : store :=
  {| properties := [propertyOwned; propertyShared; propertyForeign];
     steps := [];
     documents := [];
     events := [eventForeign; eventPlain] |}.

(** A cast for the examples: it accepts the texts of 24 hexadecimal
    digits and reads them in lower case, as identifiers are kept here;
    it refuses every other text. *)
Definition isHexDigit (c : ascii) : bool :=
  let n := nat_of_ascii c in
  ((48 <=? n) && (n <=? 57) || (65 <=? n) && (n <=? 70)
   || (97 <=? n) && (n <=? 102))%nat.

Definition lowerHex (c : ascii) : ascii :=
  let n := nat_of_ascii c in
  if ((65 <=? n) && (n <=? 70))%nat then ascii_of_nat (n + 32) else c.

Definition castHex (s : string) : option JS.ObjectId :=
  if (String.length s =? 24)%nat
     && forallb isHexDigit (list_ascii_of_string s)
  then Some (string_of_list_ascii (map lowerHex (list_ascii_of_string s)))
  else None.

(** A second Property of the caller's, created after the first, the
    collections with both, and the list request for pages of one. *)
Definition propertySecond : Property.t :=
  propertyOf "5f0000000000000000000004" caller "Duplex Nantes" "searching"
    [] (4 * 86400000).

Definition twoOwnedStore : store :=
  {| properties := [propertyOwned; propertyShared; propertySecond];
     steps := [];
     documents := [];
     events := [] |}.

Definition onePerPage : Routes.listQuery :=
  {| Routes.page := None; Routes.limit := Some 1; Routes.q_status := None;
     Routes.q_city := None; Routes.minPrice := None;
     Routes.maxPrice := None; Routes.minSurface := None;
     Routes.maxSurface := None; Routes.sortBy := None;
     Routes.sortOrder := None; Routes.search := None |}.

(* ================================================================== *)
(** * Theorems *)
(* ================================================================== *)

(** Closes [~ In k l] for a string [k] and an explicit list [l]. *)
Ltac absent_from_list :=
  let H := fresh "H" in
  simpl; intros H;
  repeat (destruct H as [H | H]; [discriminate H |]); exact H.

(** ** Sorting *)

Section SortingFacts.
Context {A : Type} (before : A -> A -> bool).

Lemma insertSorted_Permutation (x : A) (l : list A) :
  insertSorted before x l ≡ₚ x :: l.
Proof.
  induction l as [| y l IH]; simpl; [reflexivity |].
  destruct (before y x); [| reflexivity].
  rewrite IH. apply perm_swap.
Qed.

Lemma stableSort_Permutation (l : list A) : stableSort before l ≡ₚ l.
Proof.
  induction l as [| x l IH]; simpl; [reflexivity |].
  fold (stableSort before l). rewrite insertSorted_Permutation.
  now apply perm_skip.
Qed.

Lemma stableSort_length (l : list A) :
  length (stableSort before l) = length l.
Proof. apply Permutation_length, stableSort_Permutation. Qed.

Lemma stableSort_In (x : A) (l : list A) :
  In x (stableSort before l) <-> In x l.
Proof.
  split; apply Permutation_in;
    [| symmetry]; apply stableSort_Permutation.
Qed.

End SortingFacts.

Section SortDescFacts.
Context {A : Type} (key : A -> Z).

Lemma insertSorted_descending (x : A) (l : list A) :
  descending key l ->
  descending key (insertSorted (fun a b => key b <? key a) x l).
Proof.
  unfold descending. induction 1 as [| y l Hl IH Hy]; simpl.
  - repeat constructor.
  - destruct (key x <? key y) eqn:E.
    + apply Z.ltb_lt in E. constructor; [exact IH |].
      apply List.Forall_forall. intros z Hz.
      apply (Permutation_in _ (insertSorted_Permutation _ x l)) in Hz.
      destruct Hz as [<- | Hz]; [lia |].
      rewrite List.Forall_forall in Hy. now apply Hy.
    + apply Z.ltb_ge in E. constructor; [now constructor |].
      constructor; [exact E |].
      eapply List.Forall_impl; [| exact Hy]. simpl. intros z Hz. lia.
Qed.

Lemma sortDesc_descending (l : list A) : descending key (sortDesc key l).
Proof.
  unfold sortDesc. induction l as [| x l IH]; simpl; [constructor |].
  now apply insertSorted_descending.
Qed.

Lemma descending_strict (l : list A) :
  descending key l -> NoDup (map key l) -> strictlyDescending key l.
Proof.
  unfold descending, strictlyDescending.
  induction 1 as [| x l Hl IH Hx]; simpl; intros Hnd; [constructor |].
  apply NoDup_cons in Hnd. destruct Hnd as [Hnotin Hnd].
  constructor; [now apply IH |].
  apply List.Forall_forall. intros z Hz.
  rewrite List.Forall_forall in Hx. specialize (Hx z Hz).
  assert (key z <> key x).
  { intros Heq. apply Hnotin. rewrite <- Heq.
    apply list_elem_of_In. now apply in_map. }
  lia.
Qed.

Lemma strictlyDescending_take (n : nat) (l : list A) :
  strictlyDescending key l -> strictlyDescending key (take n l).
Proof.
  unfold strictlyDescending. intros H. revert n.
  induction H as [| x l Hl IH Hx]; intros [| n]; simpl; try constructor.
  - apply IH.
  - apply List.Forall_forall. intros z Hz.
    rewrite List.Forall_forall in Hx. apply Hx.
    apply list_elem_of_In. apply list_elem_of_In in Hz.
    now apply (subseteq_take n l).
Qed.

Lemma sortDesc_strictlyDescending (l : list A) :
  NoDup (map key l) -> strictlyDescending key (sortDesc key l).
Proof.
  intros Hnd. apply descending_strict; [apply sortDesc_descending |].
  unfold sortDesc. now rewrite stableSort_Permutation.
Qed.



End SortDescFacts.

(** ** models/Step.js *)

Section StepFacts.
Import JS.

Lemma checklistCompletion_empty (s : Step.t) :
  Step.checklist s = [] -> Step.checklistCompletion s = num 100.
Proof. unfold Step.checklistCompletion. intros ->. reflexivity. Qed.

Lemma completionPercentage_stored (s : Step.t) :
  Step.completionPercentage (Step.stored s) = Step.completionPercentage s.
Proof. reflexivity. Qed.

(** What the hook leaves for a step in progress. *)
Lemma preSave_in_progress (s : Step.t) :
  Step.status s = "in_progress" ->
  Step.isModified s "checklist" || Step.isModified s "status" = true ->
  Step.completionPercentage (Step.preSave s)
  = Math_max (Step.checklistCompletion s) (num 10).
Proof.
  intros Hst Hmod. unfold Step.preSave. rewrite Hmod, Hst. reflexivity.
Qed.

Lemma preSave_completed (s : Step.t) :
  Step.status s = "completed" ->
  Step.isModified s "checklist" || Step.isModified s "status" = true ->
  Step.completionPercentage (Step.preSave s) = num 100.
Proof.
  intros Hst Hmod. unfold Step.preSave. rewrite Hmod, Hst. reflexivity.
Qed.

(** A checklist none of whose eight items is done gives 0, hence the
    floor of 10; one item of eight gives 12.5, rounded up to 13; and 29
    items of 200 give 14, since [0.145 * 100] is [14.499999999999998]
    on doubles. *)
Example checklistCompletion_values :
  let item b :=
    {| Step.item := "x"; Step.completed := b; Step.completedAt := None |} in
  let withList l :=
    {| Step._id := Step._id stepInProgress;
       Step.property := Step.property stepInProgress;
       Step.name := "n"; Step.category := "visite";
       Step.status := "in_progress"; Step.priority := "medium";
       Step.order := 1; Step.step_dates := noDates;
       Step.checklist := l; Step.costs := schemaCosts;
       Step.completionPercentage := num 0;
       Step.isActive := true; Step.updatedAt := 0;
       Step.isModified := fun _ => true |} in
  Step.completionPercentage
    (Step.save (withList (repeat (item false) 8))) = num 10
  /\ Step.checklistCompletion
       (withList (item true :: repeat (item false) 7)) = num 13
  /\ Step.checklistCompletion
       (withList (repeat (item true) 29 ++ repeat (item false) 171)%list)
     = num 14.
Proof. vm_compute. auto. Qed.

(** [start()] on a step to do whose checklist is empty: the step is in
    progress, stamped, and saved with a completion of 100. *)
Lemma start_todo_empty_checklist (now : Date) (s : Step.t) :
  Step.status s = "todo" ->
  Step.checklist s = [] ->
  Step.status (Step.start now s) = "in_progress"
  /\ Step.actualStart (Step.step_dates (Step.start now s)) = Some now
  /\ Step.completionPercentage (Step.start now s) = num 100.
Proof.
  intros Hst Hcl. unfold Step.start. rewrite Hst. cbn [String.eqb Ascii.eqb
    Bool.eqb]. unfold Step.save, Step.preSave.
  cbn [Step.isModified Step.set_dates Step.set_status Step.status
       Step.checklist]. rewrite Hst.
  replace (Step.checklistCompletion _) with (num 100)
    by (symmetry; apply checklistCompletion_empty; exact Hcl).
  destruct (Step.isModified s "checklist"); repeat split.
Qed.

(** [start()] on a step that is not to do changes neither its status nor
    its stamp. *)
Lemma start_not_todo (now : Date) (s : Step.t) :
  Step.status s <> "todo" ->
  Step.status (Step.start now s) = Step.status s
  /\ Step.step_dates (Step.start now s) = Step.step_dates s.
Proof.
  intros Hst. unfold Step.start.
  apply String.eqb_neq in Hst. rewrite Hst.
  unfold Step.save, Step.preSave.
  destruct (Step.isModified s "checklist" || Step.isModified s "status");
    [| split; reflexivity].
  destruct (String.eqb (Step.status s) "completed");
    [split; reflexivity |].
  destruct (String.eqb (Step.status s) "in_progress");
    [split; reflexivity |].
  destruct (String.eqb (Step.status s) "todo"); split; reflexivity.
Qed.

(** [complete()] from any status leaves a completion of 100. *)
Lemma complete_percentage (now : Date) (s : Step.t) :
  Step.status (Step.complete now s) = "completed"
  /\ Step.completionPercentage (Step.complete now s) = num 100.
Proof.
  unfold Step.complete, Step.save, Step.preSave.
  cbn [Step.isModified Step.set_dates Step.set_status Step.status
       Step.set_completionPercentage].
  destruct (_ || _); split; reflexivity.
Qed.

(** C1, the claim as stated, fails: the in-progress step with the empty
    checklist is saved with a completion of 100, which is not 10. *)
Lemma C1_empty_checklist_is_not_10 :
  Step.status stepInProgress = "in_progress"
  /\ Step.checklist stepInProgress = []
  /\ Step.isModified stepInProgress "status" = true
  /\ Step.completionPercentage (Step.save stepInProgress) = num 100
  /\ Step.completionPercentage (Step.save stepInProgress) <> num 10.
Proof. repeat split; vm_compute; congruence. Qed.

(** C1, amended: for every Step with status in_progress and an empty
    checklist, the completion that a save recomputes after a change to
    status or checklist equals 100, the value [checklistCompletion] gives
    an empty checklist, and is never 0. *)
Theorem C1_in_progress_empty_checklist (s : Step.t) :
  Step.status s = "in_progress" ->
  Step.checklist s = [] ->
  Step.isModified s "checklist" || Step.isModified s "status" = true ->
  Step.completionPercentage (Step.save s) = num 100
  /\ Step.completionPercentage (Step.save s) <> num 0.
Proof.
  intros Hst Hcl Hmod.
  assert (H : Step.completionPercentage (Step.save s) = num 100).
  { unfold Step.save. rewrite completionPercentage_stored.
    rewrite (preSave_in_progress s Hst Hmod).
    rewrite (checklistCompletion_empty s Hcl). reflexivity. }
  split; [exact H | rewrite H; vm_compute; congruence].
Qed.

Lemma C1_in_progress_empty_checklist_witness :
  Step.completionPercentage (Step.save stepInProgress) = num 100
  /\ Step.completionPercentage (Step.save stepInProgress) <> num 0.
Proof.
  apply (C1_in_progress_empty_checklist stepInProgress); reflexivity.
Defined.

(** The guard of [isOverdue] on the completed status. *)
Lemma isOverdue_completed (now : Date) (s : Step.t) :
  Step.status s = "completed" -> Step.isOverdue now s = false.
Proof.
  intros Hst. unfold Step.isOverdue. rewrite Hst.
  destruct (Step.deadline (Step.step_dates s)); reflexivity.
Qed.

Lemma isOverdue_no_deadline (now : Date) (s : Step.t) :
  Step.deadline (Step.step_dates s) = None -> Step.isOverdue now s = false.
Proof. intros H. unfold Step.isOverdue. rewrite H. reflexivity. Qed.

(** C2: what the code does where the claim fails.  A cancelled Step
    whose deadline is strictly in the past has [isOverdue] true: the
    guard of the virtual names the completed status only. *)
Theorem C2_cancelled_past_deadline_is_overdue
  (now d : Date) (s : Step.t) :
  Step.status s = "cancelled" ->
  Step.deadline (Step.step_dates s) = Some d ->
  d < now ->
  Step.isOverdue now s = true.
Proof.
  intros Hst Hd Hlt. unfold Step.isOverdue. rewrite Hd, Hst. simpl.
  apply Z.gtb_lt. lia.
Qed.

Lemma C2_cancelled_past_deadline_is_overdue_witness :
  Step.isOverdue (10 * 86400000) stepCancelled = true.
Proof.
  apply (C2_cancelled_past_deadline_is_overdue
           (10 * 86400000) (5 * 86400000) stepCancelled);
    [reflexivity | reflexivity | lia].
Defined.

End StepFacts.


(** ** models/Property.js *)

Section PropertyFacts.
Import JS.

Lemma ownProperty_absent (o : list (string * number)) (k : string) :
  ~ In k (map fst o) -> ownProperty o k = None.
Proof.
  induction o as [| [k' v] o IH]; simpl; intros Hnot; [reflexivity |].
  destruct (String.eqb_spec k k') as [-> | Hne].
  - exfalso. apply Hnot. now left.
  - apply IH. intros Hin. apply Hnot. now right.
Qed.

Lemma existsb_eqb_absent (k : string) (l : list string) :
  ~ In k l -> existsb (String.eqb k) l = false.
Proof.
  induction l as [| x l IH]; simpl; intros Hnot; [reflexivity |].
  destruct (String.eqb_spec k x) as [-> | Hne].
  - exfalso. apply Hnot. now left.
  - apply IH. intros Hin. apply Hnot. now right.
Qed.

(** A name that is neither an own property nor inherited reads as
    [undefined]. *)
Lemma get_undefined (o : list (string * number)) (k : string) :
  ~ In k (map fst o) -> ~ In k objectPrototypeKeys -> get o k = VUndefined.
Proof.
  intros Hown Hproto. unfold get.
  rewrite (ownProperty_absent o k Hown).
  rewrite (existsb_eqb_absent k _ Hproto). reflexivity.
Qed.

(** The own properties of [statusProgress] are the statuses of the
    schema's enumeration. *)
Lemma statusProgress_keys :
  map fst Property.statusProgress = Property.statusEnum.
Proof. reflexivity. Qed.

(** The model method computes what the route helper computes. *)
Lemma methods_getProgressPercentage_eq (p : Property.t) :
  Property.methods_getProgressPercentage p
  = Property.getProgressPercentage (Property.status p).
Proof. reflexivity. Qed.

(** C4, the claim as stated, fails: "constructor" is outside the
    enumeration, and the lookup finds the member that the object literal
    inherits under that name, which is truthy and is what is returned. *)
Lemma C4_inherited_name_is_not_0 :
  ~ In "constructor" Property.statusEnum
  /\ Property.getProgressPercentage "constructor" = VInherited "constructor"
  /\ Property.getProgressPercentage "constructor" <> VNumber (num 0).
Proof.
  split; [| split].
  - absent_from_list.
  - reflexivity.
  - discriminate.
Qed.

(** C4, amended: for every Property status in the enumeration the progress
    function returns the table value (searching 10, visiting 20, offer_made
    40, compromis_signed 60, loan_pending 75, final_signature 90,
    keys_received 100, cancelled 0); for any string outside the enumeration
    that is not the name of a member inherited from [Object.prototype] it
    returns 0. *)
Theorem C4_progress_table :
  Property.getProgressPercentage "searching" = VNumber (num 10)
  /\ Property.getProgressPercentage "visiting" = VNumber (num 20)
  /\ Property.getProgressPercentage "offer_made" = VNumber (num 40)
  /\ Property.getProgressPercentage "compromis_signed" = VNumber (num 60)
  /\ Property.getProgressPercentage "loan_pending" = VNumber (num 75)
  /\ Property.getProgressPercentage "final_signature" = VNumber (num 90)
  /\ Property.getProgressPercentage "keys_received" = VNumber (num 100)
  /\ Property.getProgressPercentage "cancelled" = VNumber (num 0)
  /\ forall status : string,
       ~ In status Property.statusEnum ->
       ~ In status objectPrototypeKeys ->
       Property.getProgressPercentage status = VNumber (num 0).
Proof.
  repeat (split; [reflexivity |]).
  intros status Henum Hproto. unfold Property.getProgressPercentage.
  rewrite get_undefined; [reflexivity | | exact Hproto].
  rewrite statusProgress_keys. exact Henum.
Qed.

Lemma C4_progress_table_witness :
  Property.getProgressPercentage "negociation" = VNumber (num 0).
Proof.
  destruct C4_progress_table as (_ & _ & _ & _ & _ & _ & _ & _ & Hother).
  apply (Hother "negociation").
  - absent_from_list.
  - absent_from_list.
Defined.

(** The photos hook. *)

Lemma filter_nil_Forall {A : Type} (f : A -> bool) (l : list A) :
  List.filter f l = [] -> Forall (fun x => f x = false) l.
Proof.
  induction l as [| x l IH]; simpl; intros H; [constructor |].
  destruct (f x) eqn:E; [discriminate |].
  constructor; auto.
Qed.

Lemma filter_Forall_false {A : Type} (f : A -> bool) (l : list A) :
  Forall (fun x => f x = false) l -> List.filter f l = [].
Proof.
  induction 1 as [| x l Hx _ IH]; simpl; [reflexivity |].
  now rewrite Hx.
Qed.

Lemma imap_not_first (k : nat) (l : list Property.photo) :
  imap (fun index ph => Property.set_isPrimary (index + S k =? 0)%nat ph) l
  = map (Property.set_isPrimary false) l.
Proof.
  revert k. induction l as [| ph l IH]; intros k; [reflexivity |].
  rewrite imap_cons. simpl. f_equal.
  rewrite <- (IH (S k)). apply imap_ext. intros i x _. simpl.
  replace (i + S (S k))%nat with (S i + S k)%nat by lia. reflexivity.
Qed.

(** [forEach] with [index === 0]: the first photo is marked, every other
    one is unmarked. *)
Lemma imap_first_only (ph : Property.photo) (l : list Property.photo) :
  imap (fun index p => Property.set_isPrimary (index =? 0)%nat p) (ph :: l)
  = Property.set_isPrimary true ph :: map (Property.set_isPrimary false) l.
Proof.
  rewrite imap_cons. simpl. f_equal.
  rewrite <- (imap_not_first 0 l). apply imap_ext. intros i x _. simpl.
  replace (i + 1)%nat with (S i) by lia. reflexivity.
Qed.

Lemma filter_isPrimary_unmarked (l : list Property.photo) :
  List.filter Property.isPrimary (map (Property.set_isPrimary false) l) = [].
Proof. induction l as [| ph l IH]; simpl; auto. Qed.

(** C10: for every Property with a non-empty photos list, after the
    pre-save hook exactly one photo has isPrimary true; when no photo was
    marked the first photo is made primary and nothing else changes, and when
    several were marked the first photo is primary and no other one is. *)
Theorem C10_single_primary_photo (p : Property.t) :
  Property.photos p <> [] ->
  length (List.filter Property.isPrimary
            (Property.photos (Property.preSave p))) = 1%nat
  /\ (List.filter Property.isPrimary (Property.photos p) = [] ->
      exists ph rest,
        Property.photos p = ph :: rest
        /\ Property.photos (Property.preSave p)
           = Property.set_isPrimary true ph :: rest)
  /\ ((1 < length (List.filter Property.isPrimary (Property.photos p)))%nat ->
      exists ph rest,
        Property.photos p = ph :: rest
        /\ Property.photos (Property.preSave p)
           = Property.set_isPrimary true ph
             :: map (Property.set_isPrimary false) rest).
Proof.
  intros Hne. unfold Property.preSave.
  destruct (Property.photos p) as [| ph rest] eqn:Hph; [congruence |].
  cbn [length Nat.ltb Nat.leb].
  remember (List.filter Property.isPrimary (ph :: rest)) as prim eqn:Hprim.
  destruct prim as [| a [| b prim']].
  - (* no photo is marked *)
    cbn [length Nat.eqb]. unfold Property.set_photos; cbn [Property.photos].
    symmetry in Hprim. apply filter_nil_Forall in Hprim.
    inversion Hprim as [| ? ? Hph0 Hrest]; subst.
    split; [| split].
    + simpl. rewrite (filter_Forall_false _ _ Hrest). reflexivity.
    + intros _. exists ph, rest. split; reflexivity.
    + simpl. lia.
  - (* exactly one photo is marked: nothing changes *)
    cbn [length Nat.eqb Nat.ltb Nat.leb]. rewrite Hph, <- Hprim.
    split; [reflexivity | split].
    + discriminate.
    + simpl. lia.
  - (* several photos are marked *)
    cbn [length Nat.eqb Nat.ltb Nat.leb].
    unfold Property.set_photos; cbn [Property.photos].
    rewrite imap_first_only.
    split; [| split].
    + simpl. rewrite filter_isPrimary_unmarked. reflexivity.
    + discriminate.
    + intros _. exists ph, rest. split; reflexivity.
Qed.

Lemma C10_single_primary_photo_witness :
  length (List.filter Property.isPrimary
            (Property.photos (Property.preSave propertyOwned))) = 1%nat.
Proof.
  apply (C10_single_primary_photo propertyOwned). discriminate.
Defined.

End PropertyFacts.



(** ** routes/dashboard.js: the overview *)

Section OverviewFacts.
Import JS.

(** C7: for the counts overdueSteps 3, upcomingSteps 0, overdueEvents 0 the
    alert list is the single alert of type warning, priority high and count
    3; for all counts the alerts come in the fixed order overdue steps,
    upcoming steps, overdue events, each present exactly when its count is
    not zero and carrying that count. *)
Theorem C7_alerts :
  Dashboard.alerts 3 0 0
  = [{| Dashboard.a_type := "warning";
        Dashboard.a_title := "Étapes en retard";
        Dashboard.a_message := "Vous avez 3 étape(s) en retard";
        Dashboard.a_count := 3;
        Dashboard.a_priority := "high" |}]
  /\ forall overdueSteps upcomingSteps overdueEvents : nat,
       map alertKind
         (Dashboard.alerts overdueSteps upcomingSteps overdueEvents)
       = ((if (0 <? overdueSteps)%nat
           then [("warning", "high", overdueSteps)] else [])
          ++ (if (0 <? upcomingSteps)%nat
              then [("info", "medium", upcomingSteps)] else [])
          ++ (if (0 <? overdueEvents)%nat
              then [("error", "high", overdueEvents)] else []))%list
       /\ Forall (fun a => (0 < Dashboard.a_count a)%nat)
            (Dashboard.alerts overdueSteps upcomingSteps overdueEvents).
Proof.
  split; [reflexivity |].
  intros o u e. unfold Dashboard.alerts.
  destruct (0 <? o)%nat eqn:Ho, (0 <? u)%nat eqn:Hu, (0 <? e)%nat eqn:He;
    (split; [reflexivity |]);
    repeat match goal with
           | H : (0 <? _)%nat = true |- _ => apply Nat.ltb_lt in H
           end;
    simpl; repeat constructor; simpl; assumption.
Qed.

(** None of the status values that the summary counts is a status of the
    Property schema. *)
Lemma summary_statuses_outside_enum :
  Forall (fun s => ~ In s Property.statusEnum)
    ["recherche"; "visite"; "negociation"; "compromis"; "financement";
     "cles_remises"].
Proof. repeat constructor; absent_from_list. Qed.

Lemma activeProperties_status (p : Property.t) :
  In (Property.status p) Property.statusEnum ->
  existsb (fun s => String.eqb s (Property.status p))
    ["recherche"; "visite"; "negociation"; "compromis"; "financement"]
  = false
  /\ String.eqb (Property.status p) "cles_remises" = false.
Proof.
  simpl. intros H.
  repeat (destruct H as [H | H]; [rewrite <- H; split; reflexivity |]).
  destruct H.
Qed.

(** C9: in every storage state whose Properties carry a status of the
    schema's enumeration, the overview's summary counters activeProperties
    and completedPurchases are 0, for every caller: the six status values
    that they count are outside the enumeration. *)
Theorem C9_summary_counters_zero (st : store) (userId : idValue) :
  Forall (fun p => In (Property.status p) Property.statusEnum)
    (properties st) ->
  Dashboard.activeProperties (Dashboard.overviewProperties st userId) = 0%nat
  /\ Dashboard.completedPurchases (Dashboard.overviewProperties st userId)
     = 0%nat
  /\ Forall (fun s => ~ In s Property.statusEnum)
       ["recherche"; "visite"; "negociation"; "compromis"; "financement";
        "cles_remises"].
Proof.
  intros Hreach.
  assert (Hvis : Forall (fun p => In (Property.status p) Property.statusEnum)
                   (Dashboard.overviewProperties st userId)).
  { unfold Dashboard.overviewProperties. rewrite !List.Forall_forall in *.
    intros p Hin. apply filter_In in Hin. apply Hreach. tauto. }
  split; [| split; [| exact summary_statuses_outside_enum]].
  - unfold Dashboard.activeProperties.
    rewrite filter_Forall_false; [reflexivity |].
    eapply List.Forall_impl; [| exact Hvis].
    intros p Hp. apply (activeProperties_status p Hp).
  - unfold Dashboard.completedPurchases.
    rewrite filter_Forall_false; [reflexivity |].
    eapply List.Forall_impl; [| exact Hvis].
    intros p Hp. apply (activeProperties_status p Hp).
Qed.

Lemma C9_summary_counters_zero_witness :
  Dashboard.activeProperties
    (Dashboard.overviewProperties exampleStore (IdObject caller)) = 0%nat
  /\ Dashboard.completedPurchases
       (Dashboard.overviewProperties exampleStore (IdObject caller)) = 0%nat.
Proof.
  destruct (C9_summary_counters_zero exampleStore (IdObject caller))
    as (Hactive & Hdone & _).
  - repeat constructor; simpl; tauto.
  - split; assumption.
Defined.

End OverviewFacts.


(** ** The read routes *)

Section RouteFacts.
Import JS.

Lemma find_all_false {A : Type} (f : A -> bool) (l : list A) :
  (forall x, In x l -> f x = false) -> List.find f l = None.
Proof.
  induction l as [| x l IH]; simpl; intros H; [reflexivity |].
  rewrite (H x (or_introl eq_refl)). apply IH. intros y Hy. apply H. now right.
Qed.

Lemma existsb_all_false {A : Type} (f : A -> bool) (l : list A) :
  (forall x, In x l -> f x = false) -> existsb f l = false.
Proof.
  induction l as [| x l IH]; simpl; intros H; [reflexivity |].
  rewrite (H x (or_introl eq_refl)). apply IH. intros y Hy. apply H. now right.
Qed.

Lemma strictEqString_true (s : string) (v : idValue) :
  strictEqString s v = true -> s = toString v.
Proof.
  destruct v as [o | t]; simpl; [discriminate |].
  intros H. now apply String.eqb_eq.
Qed.

Lemma strictEqString_other (s : string) (v : idValue) :
  s <> toString v -> strictEqString s v = false.
Proof.
  intros Hne. destruct (strictEqString s v) eqn:E; [| reflexivity].
  exfalso. apply Hne. now apply strictEqString_true.
Qed.

Lemma matchesId_other (o : ObjectId) (v : idValue) :
  o <> toString v -> matchesId o v = false.
Proof. intros Hne. unfold matchesId. now apply String.eqb_neq. Qed.

(** The list route keeps a Property only if the caller owns it. *)
Lemma listFilter_owner (regex : string -> option (string -> bool))
  (userId : idValue) (q : Routes.listQuery) (p : Property.t) :
  Routes.listFilter regex userId q p = true ->
  matchesId (Property.owner p) userId = true.
Proof.
  unfold Routes.listFilter. intros H.
  repeat (apply andb_prop in H; destruct H as [H _]). exact H.
Qed.

(** Whatever the query, the list holds Properties of the caller's only. *)
Lemma listProperties_only_owned
  (regex : string -> option (string -> bool)) (rank : Property.t -> Z)
  (st : store) (userId : idValue) (q : Routes.listQuery)
  (data : Routes.listData) (e : Routes.enrichedProperty) :
  Routes.listProperties regex rank st userId q = Ok data ->
  In e (Routes.l_properties data) ->
  matchesId (Property.owner (Routes.e_property e)) userId = true.
Proof.
  unfold Routes.listProperties.
  destruct (negb (Routes.validList q)); [discriminate |].
  destruct (Routes.listThrows regex q); [discriminate |].
  intros [= <-]. cbn [Routes.l_properties]. intros Hin.
  apply in_map_iff in Hin. destruct Hin as (p & <- & Hp).
  cbn [Routes.e_property].
  apply list_elem_of_In, subseteq_take, subseteq_drop in Hp.
  apply list_elem_of_In, stableSort_In in Hp. unfold sortAsc in Hp.
  apply stableSort_In, filter_In in Hp.
  destruct Hp as [_ Hp]. exact (listFilter_owner _ _ _ _ Hp).
Qed.

(** C5: what the code does where the claim fails.  In the example store
    the caller owns one active Property and another active Property is shared
    with the caller.  The overview's [propertyFilter] selects both; the list
    route, whose filter names the owner only, returns the owned one alone and
    counts one item. *)
Theorem C5_list_omits_shared_property
  (regex : string -> option (string -> bool)) (rank : Property.t -> Z) :
  Property.isActive propertyShared = true
  /\ Routes.ownerOrShared (IdObject caller) propertyShared = true
  /\ Dashboard.overviewProperties exampleStore (IdObject caller)
     = [propertyOwned; propertyShared]
  /\ Routes.listProperties regex rank exampleStore (IdObject caller)
       plainList
     = Ok {| Routes.l_properties := [Routes.enrich propertyOwned];
             Routes.l_pagination :=
               {| Routes.currentPage := 1; Routes.totalPages := 1;
                  Routes.totalItems := 1; Routes.itemsPerPage := 10 |} |}.
Proof. repeat split. Qed.

(** The single-entity reads. *)

Lemma getProperty_not_visible (cast : string -> option ObjectId)
  (st : store) (userId : idValue) (param : string) (id : ObjectId) :
  cast param = Some id ->
  (forall p, In p (properties st) -> Property._id p = id ->
             Routes.ownerOrShared userId p = false) ->
  Routes.getProperty cast st userId param
  = Fail 404 "Propriété non trouvée".
Proof.
  intros Hc H. unfold Routes.getProperty. rewrite Hc.
  rewrite find_all_false; [reflexivity |].
  intros p Hp. destruct (String.eqb_spec (Property._id p) id) as [E | E];
    [| reflexivity].
  simpl. now apply H.
Qed.

Lemma getStep_unresolved (cast : string -> option ObjectId) (st : store)
  (userId : idValue) (param : string) (id : ObjectId) :
  cast param = Some id ->
  (forall s, In s (steps st) -> Step._id s <> id) ->
  Routes.getStep cast st userId param = Fail 404 "Étape non trouvée".
Proof.
  intros Hc H. unfold Routes.getStep. rewrite Hc.
  rewrite find_all_false; [reflexivity |].
  intros s Hs. apply String.eqb_neq. now apply H.
Qed.

Lemma getStep_outside_scope (cast : string -> option ObjectId)
  (st : store) (userId : idValue) (param : string) (id : ObjectId)
  (s : Step.t) (p : Property.t) :
  cast param = Some id ->
  List.find (fun s => String.eqb (Step._id s) id) (steps st) = Some s ->
  Routes.findProperty st (Step.property s) = Some p ->
  Property.owner p <> toString userId ->
  (forall p', In p' (properties st) -> Property._id p' = Property._id p ->
     forall sh, In sh (Property.sharedWith p') ->
       Property.user sh <> toString userId) ->
  Routes.getStep cast st userId param = Fail 403 "Accès refusé".
Proof.
  intros Hc Hs Hp Howner Hshared. unfold Routes.getStep.
  rewrite Hc, Hs, Hp. unfold strictNeString.
  rewrite (strictEqString_other _ _ Howner). cbn [negb].
  rewrite find_all_false; [reflexivity |].
  intros p' Hp'.
  destruct (String.eqb_spec (Property._id p') (Property._id p)) as [E | E];
    [| reflexivity].
  simpl. apply existsb_all_false. intros sh Hsh.
  apply matchesId_other. exact (Hshared p' Hp' E sh Hsh).
Qed.

(** Among users that exist, none of whom is the caller, the test of the
    shares finds nobody. *)
Lemma someUser_nobody (userExists : ObjectId -> bool) (userId : idValue)
  (users : list ObjectId) :
  (forall u, In u users -> userExists u = true /\ u <> toString userId) ->
  Routes.someUser userExists userId users = Some false.
Proof.
  induction users as [| u users IH]; simpl; intros H; [reflexivity |].
  destruct (H u (or_introl eq_refl)) as [He Hne].
  rewrite He, (strictEqString_other _ _ Hne).
  apply IH. intros v Hv. apply H. now right.
Qed.

Lemma getDocument_unresolved (cast : string -> option ObjectId)
  (userExists : ObjectId -> bool) (st : store) (userId : idValue)
  (param : string) (id : ObjectId) :
  cast param = Some id ->
  (forall d, In d (documents st) -> Document._id d <> id) ->
  Routes.getDocument cast userExists st userId param
  = Fail 404 "Document non trouvé".
Proof.
  intros Hc H. unfold Routes.getDocument. rewrite Hc.
  rewrite find_all_false; [reflexivity |].
  intros d Hd. apply String.eqb_neq. now apply H.
Qed.

Lemma getDocument_outside_scope (cast : string -> option ObjectId)
  (userExists : ObjectId -> bool) (st : store) (userId : idValue)
  (param : string) (id : ObjectId) (d : Document.t) (p : Property.t) :
  cast param = Some id ->
  List.find (fun d => String.eqb (Document._id d) id) (documents st)
  = Some d ->
  Routes.findProperty st (Document.property d) = Some p ->
  Property.owner p <> toString userId ->
  (forall sh, In sh (Document.sharedWith d) ->
     userExists (Document.user sh) = true
     /\ Document.user sh <> toString userId) ->
  Routes.getDocument cast userExists st userId param
  = Fail 403 "Accès refusé".
Proof.
  intros Hc Hd Hp Howner Hshared. unfold Routes.getDocument.
  rewrite Hc, Hd, Hp. rewrite (strictEqString_other _ _ Howner).
  rewrite someUser_nobody; [reflexivity |].
  intros u Hu. apply in_map_iff in Hu. destruct Hu as (sh & <- & Hsh).
  now apply Hshared.
Qed.

Lemma getEvent_unresolved (cast : string -> option ObjectId)
  (userExists : ObjectId -> bool) (rest : CalendarEvent.t -> bool)
  (st : store) (userId : idValue) (param : string) (id : ObjectId) :
  cast param = Some id ->
  (forall e, In e (events st) -> CalendarEvent._id e <> id) ->
  Routes.getEvent cast userExists rest st userId param
  = Fail 404 "Événement non trouvé".
Proof.
  intros Hc H. unfold Routes.getEvent. rewrite Hc.
  rewrite find_all_false; [reflexivity |].
  intros e He. apply String.eqb_neq. now apply H.
Qed.

Lemma getEvent_outside_scope (cast : string -> option ObjectId)
  (userExists : ObjectId -> bool) (rest : CalendarEvent.t -> bool)
  (st : store) (userId : idValue) (param : string) (id : ObjectId)
  (e : CalendarEvent.t) :
  cast param = Some id ->
  List.find (fun e => String.eqb (CalendarEvent._id e) id) (events st)
  = Some e ->
  userExists (CalendarEvent.owner e) = true ->
  CalendarEvent.owner e <> toString userId ->
  (forall sh, In sh (CalendarEvent.sharedWith e) ->
     userExists (CalendarEvent.user sh) = true
     /\ CalendarEvent.user sh <> toString userId) ->
  Routes.getEvent cast userExists rest st userId param
  = Fail 403 "Accès refusé".
Proof.
  intros Hc He Hex Howner Hshared. unfold Routes.getEvent.
  rewrite Hc, He, Hex. rewrite (strictEqString_other _ _ Howner).
  rewrite someUser_nobody; [reflexivity |].
  intros u Hu. apply in_map_iff in Hu. destruct Hu as (sh & <- & Hsh).
  now apply Hshared.
Qed.

(** C8, the claim as stated, fails: the caller reads a document that
    belongs to a Property of the other user and is not shared, and reads a
    well-formed identifier that no document has; the first answer is 403
    with "Accès refusé", the second is 404. *)
Lemma C8_document_forbidden_is_not_not_found :
  castHex (Document._id documentForeign)
  = Some (Document._id documentForeign)
  /\ castHex missingId = Some missingId
  /\ Routes.getDocument castHex (fun _ => true) exampleStore
       (IdObject caller) (Document._id documentForeign)
     = Fail 403 "Accès refusé"
  /\ Routes.getDocument castHex (fun _ => true) exampleStore
       (IdObject caller) missingId
     = Fail 404 "Document non trouvé"
  /\ Routes.getDocument castHex (fun _ => true) exampleStore
       (IdObject caller) (Document._id documentForeign)
     <> Routes.getDocument castHex (fun _ => true) exampleStore
          (IdObject caller) missingId.
Proof. repeat split. discriminate. Qed.

(** C8, amended: a request parameter that Mongoose does not accept as an
    identifier makes each of the four single-entity reads answer 500.  For
    a parameter that is an identifier: the single-Property read answers
    the same NotFound failure (404) whether the identifier resolves to no
    record or to a Property outside the caller's visibility scope; the
    single-Step, single-Document and single-CalendarEvent reads answer
    NotFound (404) for an identifier that resolves to no record, and the
    Forbidden failure (403, "Accès refusé") for one that resolves to a
    record outside the caller's scope, the Property of the step or of the
    document and the users that the record is shared with (and the owner
    of the event) being in their collections. *)
Theorem C8_reads_outside_scope
  (cast : string -> option ObjectId) (userExists : ObjectId -> bool)
  (rest : CalendarEvent.t -> bool) (st : store) (userId : idValue) :
  (forall param,
     cast param = None ->
     Routes.getProperty cast st userId param
     = Fail 500 "Erreur interne du serveur"
     /\ Routes.getStep cast st userId param
        = Fail 500 "Erreur interne du serveur"
     /\ Routes.getDocument cast userExists st userId param
        = Fail 500 "Erreur interne du serveur"
     /\ Routes.getEvent cast userExists rest st userId param
        = Fail 500 "Erreur interne du serveur")
  /\ (forall param missing,
        cast param = Some missing ->
        ((forall p, In p (properties st) -> Property._id p <> missing) ->
         Routes.getProperty cast st userId param
         = Fail 404 "Propriété non trouvée")
        /\ ((forall s, In s (steps st) -> Step._id s <> missing) ->
            Routes.getStep cast st userId param
            = Fail 404 "Étape non trouvée")
        /\ ((forall d, In d (documents st) -> Document._id d <> missing) ->
            Routes.getDocument cast userExists st userId param
            = Fail 404 "Document non trouvé")
        /\ ((forall e, In e (events st) -> CalendarEvent._id e <> missing) ->
            Routes.getEvent cast userExists rest st userId param
            = Fail 404 "Événement non trouvé"))
  /\ (forall param id,
        cast param = Some id ->
        ((forall p, In p (properties st) -> Property._id p = id ->
                    Routes.ownerOrShared userId p = false) ->
         Routes.getProperty cast st userId param
         = Fail 404 "Propriété non trouvée")
        /\ (forall s p,
              List.find (fun s => String.eqb (Step._id s) id) (steps st)
              = Some s ->
              Routes.findProperty st (Step.property s) = Some p ->
              Property.owner p <> toString userId ->
              (forall p', In p' (properties st) ->
                 Property._id p' = Property._id p ->
                 forall sh, In sh (Property.sharedWith p') ->
                   Property.user sh <> toString userId) ->
              Routes.getStep cast st userId param
              = Fail 403 "Accès refusé")
        /\ (forall d p,
              List.find (fun d => String.eqb (Document._id d) id)
                (documents st) = Some d ->
              Routes.findProperty st (Document.property d) = Some p ->
              Property.owner p <> toString userId ->
              (forall sh, In sh (Document.sharedWith d) ->
                 userExists (Document.user sh) = true
                 /\ Document.user sh <> toString userId) ->
              Routes.getDocument cast userExists st userId param
              = Fail 403 "Accès refusé")
        /\ (forall e,
              List.find (fun e => String.eqb (CalendarEvent._id e) id)
                (events st) = Some e ->
              userExists (CalendarEvent.owner e) = true ->
              CalendarEvent.owner e <> toString userId ->
              (forall sh, In sh (CalendarEvent.sharedWith e) ->
                 userExists (CalendarEvent.user sh) = true
                 /\ CalendarEvent.user sh <> toString userId) ->
              Routes.getEvent cast userExists rest st userId param
              = Fail 403 "Accès refusé")).
Proof.
  split; [| split].
  - intros param Hc.
    unfold Routes.getProperty, Routes.getStep, Routes.getDocument,
      Routes.getEvent.
    rewrite Hc. repeat split.
  - intros param missing Hc.
    split; [| split; [| split]].
    + intros H. apply (getProperty_not_visible cast st userId param missing Hc).
      intros p Hin Hid. exfalso. exact (H p Hin Hid).
    + now apply getStep_unresolved.
    + now apply getDocument_unresolved.
    + now apply getEvent_unresolved.
  - intros param id Hc.
    split; [| split; [| split]].
    + now apply getProperty_not_visible.
    + intros s p. now apply getStep_outside_scope.
    + intros d p. now apply getDocument_outside_scope.
    + intros e. now apply getEvent_outside_scope.
Qed.

Lemma C8_reads_outside_scope_witness :
  Routes.getProperty castHex exampleStore (IdObject caller)
    (Property._id propertyForeign)
  = Routes.getProperty castHex exampleStore (IdObject caller) missingId
  /\ Routes.getStep castHex exampleStore (IdObject caller)
       (Step._id stepForeign)
     = Fail 403 "Accès refusé"
  /\ Routes.getDocument castHex (fun _ => true) exampleStore
       (IdObject caller) (Document._id documentForeign)
     = Fail 403 "Accès refusé"
  /\ Routes.getEvent castHex (fun _ => true) (fun _ => true) exampleStore
       (IdObject caller) (CalendarEvent._id eventForeign)
     = Fail 403 "Accès refusé"
  /\ Routes.getDocument castHex (fun _ => true) exampleStore
       (IdObject caller) "abc"
     = Fail 500 "Erreur interne du serveur".
Proof.
  destruct (C8_reads_outside_scope castHex (fun _ => true) (fun _ => true)
              exampleStore (IdObject caller))
    as (Hbad & Hmissing & Hout).
  destruct (Hmissing missingId missingId eq_refl) as (Hnone & _).
  destruct (Hout (Property._id propertyForeign)
              (Property._id propertyForeign) eq_refl) as (Hprop & _).
  destruct (Hout (Step._id stepForeign) (Step._id stepForeign) eq_refl)
    as (_ & Hstep & _).
  destruct (Hout (Document._id documentForeign)
              (Document._id documentForeign) eq_refl) as (_ & _ & Hdoc & _).
  destruct (Hout (CalendarEvent._id eventForeign)
              (CalendarEvent._id eventForeign) eq_refl)
    as (_ & _ & _ & Hevent).
  split; [| split; [| split; [| split]]].
  - rewrite Hnone by (intros p [<- | [<- | [<- | []]]]; discriminate).
    apply Hprop.
    intros p [<- | [<- | [<- | []]]]; (discriminate || reflexivity).
  - apply (Hstep stepForeign propertyForeign);
      [reflexivity | reflexivity | discriminate |].
    intros p' [<- | [<- | [<- | []]]]; try discriminate.
    intros _ sh [].
  - apply (Hdoc documentForeign propertyForeign);
      [reflexivity | reflexivity | discriminate |].
    intros sh [].
  - apply (Hevent eventForeign);
      [reflexivity | reflexivity | discriminate |].
    intros sh [].
  - exact (proj1 (proj2 (proj2 (Hbad "abc" eq_refl)))).
Defined.

End RouteFacts.


(** ** routes/dashboard.js: the recent activity *)

Section ActivityFacts.
Import JS.





End ActivityFacts.


(** ** routes/dashboard.js: the costs by category *)

Section CostFacts.
Import JS.

Lemma sameKey_eq (a b : option string) :
  Dashboard.sameKey a b = true <-> a = b.
Proof.
  destruct a as [x |], b as [y |]; simpl; try (split; congruence).
  rewrite String.eqb_eq. split; congruence.
Qed.

Lemma sameKey_refl (a : option string) : Dashboard.sameKey a a = true.
Proof. now apply sameKey_eq. Qed.

Lemma sameKey_ne (a b : option string) :
  a <> b -> Dashboard.sameKey a b = false.
Proof.
  intros Hne. destruct (Dashboard.sameKey a b) eqn:E; [| reflexivity].
  apply sameKey_eq in E. contradiction.
Qed.

(** The [$match] stage keeps the active Steps that have at least one cost
    entry with a positive amount. *)
Lemma costsMatch_iff (s : Step.t) :
  Dashboard.costsMatch s = true
  <-> Step.isActive s = true
      /\ exists c, In c (Dashboard.unwindCosts s)
                   /\ Dashboard.amountPositive c = true.
Proof.
  unfold Dashboard.costsMatch, Dashboard.unwindCosts.
  rewrite andb_true_iff.
  destruct (Step.costs s) as [| c | l].
  - split; [intros [_ H]; discriminate | intros [_ (c & [] & _)]].
  - split; intros [Ha H]; (split; [exact Ha |]).
    + exists c. split; [now left | exact H].
    + destruct H as (c' & [<- | []] & H). exact H.
  - rewrite existsb_exists. tauto.
Qed.

Lemma entriesUnder_snoc (k : option string) (l : list Step.costDoc)
  (c : Step.costDoc) :
  entriesUnder k (l ++ [c])
  = (entriesUnder k l
     + if Dashboard.sameKey k (Step.cost_category c) then 1 else 0)%nat.
Proof.
  unfold entriesUnder. rewrite List.filter_app, length_app. simpl.
  destruct (Dashboard.sameKey k (Step.cost_category c)); reflexivity.
Qed.

Lemma addToGroups_new (c : Step.costDoc) (gs : list Dashboard.costGroup) :
  ~ In (Step.cost_category c) (map Dashboard.g_id gs) ->
  Dashboard.addToGroups c gs
  = (gs ++ [Dashboard.accumulate c
              {| Dashboard.g_id := Step.cost_category c;
                 Dashboard.totalAmount := num 0;
                 Dashboard.g_count := 0; Dashboard.g_numbers := 0 |}])%list.
Proof.
  induction gs as [| g gs IH]; simpl; intros Hnot; [reflexivity |].
  rewrite sameKey_ne by (intros E; apply Hnot; now left).
  f_equal. apply IH. intros Hin. apply Hnot. now right.
Qed.

Lemma addToGroups_old (c : Step.costDoc) (gs : list Dashboard.costGroup) :
  In (Step.cost_category c) (map Dashboard.g_id gs) ->
  exists gs1 g gs2,
    gs = (gs1 ++ g :: gs2)%list
    /\ Dashboard.g_id g = Step.cost_category c
    /\ Dashboard.addToGroups c gs
       = (gs1 ++ Dashboard.accumulate c g :: gs2)%list.
Proof.
  induction gs as [| g gs IH]; simpl; intros Hin; [destruct Hin |].
  destruct (Dashboard.sameKey (Dashboard.g_id g) (Step.cost_category c))
    eqn:E.
  - apply sameKey_eq in E. exists [], g, gs. auto.
  - destruct Hin as [Hin | Hin];
      [apply sameKey_eq in Hin; congruence |].
    destruct (IH Hin) as (gs1 & g' & gs2 & -> & Hid & ->).
    exists (g :: gs1), g', gs2. auto.
Qed.

Lemma groupsOf_step (gs : list Dashboard.costGroup)
  (l : list Step.costDoc) (c : Step.costDoc) :
  groupsOf gs l -> groupsOf (Dashboard.addToGroups c gs) (l ++ [c]).
Proof.
  intros (Hnd & Hcount & Hcover).
  destruct (decide (Step.cost_category c ∈ map Dashboard.g_id gs))
    as [Hin | Hnot]; rewrite list_elem_of_In in *.
  - destruct (addToGroups_old c gs Hin) as (gs1 & g & gs2 & -> & Hid & ->).
    rewrite map_app in Hnd. simpl in Hnd.
    apply NoDup_app in Hnd. destruct Hnd as (Hnd1 & Hdisj & Hnd2).
    apply NoDup_cons in Hnd2. destruct Hnd2 as [Hg2 Hnd2].
    apply Forall_app in Hcount. destruct Hcount as [Hc1 Hc2].
    apply Forall_cons in Hc2. destruct Hc2 as [[Hcg Hpos] Hc2].
    split; [| split].
    + rewrite map_app. simpl. apply NoDup_app. split; [exact Hnd1 |].
      split; [exact Hdisj |]. apply NoDup_cons. now split.
    + apply Forall_app. split; [| apply Forall_cons; split].
      * rewrite List.Forall_forall in Hc1 |- *. intros g1 Hg1.
        destruct (Hc1 g1 Hg1) as [E Hp]. split; [| exact Hp].
        rewrite entriesUnder_snoc, sameKey_ne; [lia |].
        intros Heq. apply (Hdisj (Dashboard.g_id g1)).
        -- apply list_elem_of_In. now apply in_map.
        -- rewrite Heq, <- Hid. now left.
      * cbn [Dashboard.accumulate Dashboard.g_id Dashboard.g_count].
        rewrite Hid in Hcg |- *.
        rewrite entriesUnder_snoc, sameKey_refl. lia.
      * rewrite List.Forall_forall in Hc2 |- *. intros g2 Hg2in.
        destruct (Hc2 g2 Hg2in) as [E Hp]. split; [| exact Hp].
        rewrite entriesUnder_snoc, sameKey_ne; [lia |].
        intros Heq. apply Hg2. rewrite Hid, <- Heq.
        apply list_elem_of_In. now apply in_map.
    + intros c' Hc'. apply in_app_or in Hc'.
      destruct Hc' as [Hc' | [<- | []]].
      * apply Hcover in Hc'. rewrite map_app in Hc' |- *. exact Hc'.
      * rewrite map_app. apply in_or_app. right. left. exact Hid.
  - rewrite (addToGroups_new c gs Hnot).
    split; [| split].
    + rewrite map_app. simpl. apply NoDup_app. split; [exact Hnd |].
      split; [| apply NoDup_singleton].
      intros k Hk Hk'. apply list_elem_of_In in Hk.
      apply list_elem_of_singleton in Hk'. subst k. contradiction.
    + apply Forall_app. split; [| apply Forall_cons; split; [| constructor]].
      * rewrite List.Forall_forall in Hcount |- *. intros g Hg.
        destruct (Hcount g Hg) as [E Hp]. split; [| exact Hp].
        rewrite entriesUnder_snoc, sameKey_ne; [lia |].
        intros Heq. apply Hnot. rewrite <- Heq. now apply in_map.
      * cbn [Dashboard.accumulate Dashboard.g_id Dashboard.g_count].
        rewrite entriesUnder_snoc, sameKey_refl.
        assert (entriesUnder (Step.cost_category c) l = 0%nat) as ->;
          [| lia].
        unfold entriesUnder. rewrite filter_Forall_false; [reflexivity |].
        apply List.Forall_forall. intros c' Hc'. apply sameKey_ne.
        intros Heq. apply Hnot. rewrite Heq. now apply Hcover.
    + intros c' Hc'. rewrite map_app. apply in_or_app.
      apply in_app_or in Hc'. destruct Hc' as [Hc' | [<- | []]].
      * left. now apply Hcover.
      * right. now left.
Qed.

Lemma groupsOf_foldl (l l0 : list Step.costDoc)
  (gs : list Dashboard.costGroup) :
  groupsOf gs l0 ->
  groupsOf (foldl (fun gs c => Dashboard.addToGroups c gs) gs l) (l0 ++ l).
Proof.
  revert l0 gs. induction l as [| c l IH]; intros l0 gs H; simpl.
  - now rewrite app_nil_r.
  - replace (l0 ++ c :: l)%list with ((l0 ++ [c]) ++ l)%list
      by (now rewrite <- app_assoc).
    apply IH. now apply groupsOf_step.
Qed.

Lemma groupCosts_groupsOf (l : list Step.costDoc) :
  groupsOf (Dashboard.groupCosts l) l.
Proof.
  apply (groupsOf_foldl l [] []).
  split; [constructor | split; [constructor | intros c []]].
Qed.

(** Each row of the report counts all the kept entries of its category,
    and every kept entry falls in a row. *)
Lemma byCategory_rows (st : store) :
  (forall row, In row (Dashboard.byCategory st) ->
     Dashboard.r_count row
     = entriesUnder (Dashboard.r_category row) (keptEntries st)
     /\ (0 < Dashboard.r_count row)%nat)
  /\ (forall c, In c (keptEntries st) ->
       exists row, In row (Dashboard.byCategory st)
                   /\ Dashboard.r_category row = Step.cost_category c).
Proof.
  destruct (groupCosts_groupsOf (keptEntries st)) as (_ & Hcount & Hcover).
  unfold Dashboard.byCategory, Dashboard.costsByCategory.
  fold (keptEntries st). split.
  - intros row Hrow. apply in_map_iff in Hrow.
    destruct Hrow as (g & <- & Hg). apply stableSort_In in Hg.
    cbn [Dashboard.r_count Dashboard.r_category].
    rewrite List.Forall_forall in Hcount. now apply Hcount.
  - intros c Hc. apply Hcover, in_map_iff in Hc.
    destruct Hc as (g & Hid & Hg).
    eexists. split.
    + apply in_map. apply stableSort_In. exact Hg.
    + exact Hid.
Qed.


(** The same for every state of the collection: the pipeline keeps the
    active Steps that have at least one cost entry with amount strictly
    greater than 0, and each row counts every cost entry of these Steps in
    its category, whatever its amount. *)
Lemma byCategory_counts_kept_entries :
  (forall (st : store) (c : Step.costDoc),
     In c (keptEntries st)
     <-> exists s, In s (steps st)
                   /\ Step.isActive s = true
                   /\ (exists c', In c' (Dashboard.unwindCosts s)
                                  /\ Dashboard.amountPositive c' = true)
                   /\ In c (Dashboard.unwindCosts s))
  /\ (forall (st : store) (row : Dashboard.costRow),
        In row (Dashboard.byCategory st) ->
        Dashboard.r_count row
        = entriesUnder (Dashboard.r_category row) (keptEntries st))
  /\ (forall (st : store) (c : Step.costDoc),
        In c (keptEntries st) ->
        exists row, In row (Dashboard.byCategory st)
                    /\ Dashboard.r_category row = Step.cost_category c)
  /\ map (fun row => (Dashboard.r_category row, Dashboard.r_total row,
                      Dashboard.r_count row))
       (Dashboard.byCategory costStore)
     = [(Some "notary", num 500, 2%nat)].
Proof.
  split; [| split; [| split]].
  - intros st c. unfold keptEntries. rewrite in_flat_map. split.
    + intros (s & Hs & Hc). apply filter_In in Hs. destruct Hs as [Hs Hm].
      apply costsMatch_iff in Hm. destruct Hm as [Ha Hpos].
      exists s. auto.
    + intros (s & Hs & Ha & Hpos & Hc). exists s. split; [| exact Hc].
      apply filter_In. split; [exact Hs |]. apply costsMatch_iff. auto.
  - intros st row Hrow. now apply (proj1 (byCategory_rows st)).
  - intros st. apply (proj2 (byCategory_rows st)).
  - reflexivity.
Qed.

Lemma byCategory_counts_kept_entries_example :
  let row :=
    {| Dashboard.r_category := Some "notary";
       Dashboard.r_total := num 500;
       Dashboard.r_count := 2;
       Dashboard.r_average := num 250 |} in
  Dashboard.r_count row
  = entriesUnder (Dashboard.r_category row) (keptEntries costStore).
Proof.
  destruct byCategory_counts_kept_entries as (_ & Hcount & _ & _).
  apply (Hcount costStore). left. reflexivity.
Defined.

End CostFacts.


(* ================================================================== *)
(** * Further properties of the same code *)
(* ================================================================== *)

(** ** models/Step.js: the lifecycle methods and the hook *)

Section StepLifecycle.
Import JS.

(** X1: [start()] on a step whose status is not todo leaves its status
    and its dates as they are. *)
Theorem X1_start_only_from_todo (now : Date) (s : Step.t) :
  Step.status s <> "todo" ->
  Step.status (Step.start now s) = Step.status s
  /\ Step.step_dates (Step.start now s) = Step.step_dates s.
Proof.
  intros Hst. unfold Step.start.
  apply String.eqb_neq in Hst. rewrite Hst.
  unfold Step.save, Step.preSave.
  destruct (Step.isModified s "checklist" || Step.isModified s "status");
    [| split; reflexivity].
  repeat match goal with
         | |- context [if String.eqb ?a ?b then _ else _] =>
             destruct (String.eqb a b)
         end; split; reflexivity.
Qed.

Lemma X1_start_only_from_todo_witness :
  Step.status (Step.start (day 10) stepCancelled) = "cancelled"
  /\ Step.step_dates (Step.start (day 10) stepCancelled)
     = Step.step_dates stepCancelled.
Proof.
  apply (X1_start_only_from_todo (day 10) stepCancelled). discriminate.
Defined.

(** X2: [start()] on a step to do puts it in progress, stamps
    [actualStart] with the current time and leaves each of the other four
    dates (planned start, planned end, actual end, deadline) as it was,
    leaves the identifier, the property, the order and the checklist, and
    saves the completion as the larger of the checklist completion and
    10. *)
Theorem X2_start_from_todo (now : Date) (s : Step.t) :
  Step.status s = "todo" ->
  let s' := Step.start now s in
  Step.status s' = "in_progress"
  /\ Step.step_dates s'
     = {| Step.plannedStart := Step.plannedStart (Step.step_dates s);
          Step.plannedEnd := Step.plannedEnd (Step.step_dates s);
          Step.actualStart := Some now;
          Step.actualEnd := Step.actualEnd (Step.step_dates s);
          Step.deadline := Step.deadline (Step.step_dates s) |}
  /\ Step._id s' = Step._id s
  /\ Step.property s' = Step.property s
  /\ Step.order s' = Step.order s
  /\ Step.checklist s' = Step.checklist s
  /\ Step.completionPercentage s'
     = Math_max (Step.checklistCompletion s) (num 10).
Proof.
  intros Hst. cbv zeta. unfold Step.start. rewrite Hst.
  cbn [String.eqb Ascii.eqb Bool.eqb]. unfold Step.save, Step.preSave.
  cbn [Step.isModified Step.set_dates Step.set_status Step.status]. rewrite Hst.
  destruct (Step.isModified s "checklist"); repeat split.
Qed.

Lemma X2_start_from_todo_witness :
  Step.status (Step.start (day 10) stepForeign) = "in_progress"
  /\ Step.step_dates (Step.start (day 10) stepForeign)
     = {| Step.plannedStart := None; Step.plannedEnd := None;
          Step.actualStart := Some (day 10); Step.actualEnd := None;
          Step.deadline := None |}.
Proof.
  destruct (X2_start_from_todo (day 10) stepForeign eq_refl)
    as (H1 & H2 & _).
  split; assumption.
Defined.

(** X3: [complete()], from any status and whatever the checklist, leaves
    the step completed, stamped with [actualEnd], at a completion of 100,
    with its start stamp and its checklist untouched. *)
Theorem X3_complete (now : Date) (s : Step.t) :
  let s' := Step.complete now s in
  Step.status s' = "completed"
  /\ Step.actualEnd (Step.step_dates s') = Some now
  /\ Step.actualStart (Step.step_dates s')
     = Step.actualStart (Step.step_dates s)
  /\ Step.checklist s' = Step.checklist s
  /\ Step.completionPercentage s' = num 100.
Proof.
  cbv zeta. unfold Step.complete, Step.save, Step.preSave.
  cbn [Step.isModified Step.set_dates Step.set_status Step.status
       Step.set_completionPercentage].
  destruct (_ || _); repeat split.
Qed.

(** X4: the pre-save hook writes nothing but [completionPercentage], and
    it leaves that too when neither the status nor the checklist is modified
    or when the status is none of completed, in_progress and todo (cancelled
    and on_hold steps keep the completion they had). *)
Theorem X4_preSave_frame (s : Step.t) :
  Step.set_completionPercentage (Step.completionPercentage (Step.preSave s)) s
  = Step.preSave s
  /\ (Step.isModified s "checklist" || Step.isModified s "status" = false ->
      Step.preSave s = s)
  /\ (Step.status s <> "completed" -> Step.status s <> "in_progress" ->
      Step.status s <> "todo" -> Step.preSave s = s).
Proof.
  assert (Hid : Step.set_completionPercentage (Step.completionPercentage s) s
                = s) by (destruct s; reflexivity).
  split; [| split].
  - unfold Step.preSave.
    destruct (_ || _); [| exact Hid].
    repeat match goal with
           | |- context [if String.eqb ?a ?b then _ else _] =>
               destruct (String.eqb a b)
           end; try reflexivity; exact Hid.
  - intros H. unfold Step.preSave. now rewrite H.
  - intros H1 H2 H3. unfold Step.preSave.
    apply String.eqb_neq in H1, H2, H3. rewrite H1, H2, H3.
    now destruct (_ || _).
Qed.

Lemma X4_preSave_frame_witness : Step.preSave stepCancelled = stepCancelled.
Proof.
  destruct (X4_preSave_frame stepCancelled) as (_ & _ & H).
  apply H; discriminate.
Defined.

End StepLifecycle.


(** ** models/Property.js: the photos hook and the primary photo *)

Section PhotoFacts.
Import JS.

Lemma set_photos_same (p : Property.t) :
  Property.set_photos (Property.photos p) p = p.
Proof. destruct p; reflexivity. Qed.

(** The three outcomes of the hook on a non-empty list. *)
Lemma preSave_shape (p : Property.t) (ph : Property.photo)
  (rest : list Property.photo) :
  Property.photos p = ph :: rest ->
  (List.filter Property.isPrimary (ph :: rest) = []
   /\ Property.preSave p
      = Property.set_photos (Property.set_isPrimary true ph :: rest) p)
  \/ (length (List.filter Property.isPrimary (ph :: rest)) = 1%nat
      /\ Property.preSave p = p)
  \/ ((1 < length (List.filter Property.isPrimary (ph :: rest)))%nat
      /\ Property.preSave p
         = Property.set_photos
             (Property.set_isPrimary true ph
              :: map (Property.set_isPrimary false) rest) p).
Proof.
  intros Hph. unfold Property.preSave. rewrite Hph.
  cbn [length Nat.ltb Nat.leb].
  destruct (List.filter Property.isPrimary (ph :: rest))
    as [| a [| b prim]] eqn:Hprim.
  - left. split; [reflexivity |]. reflexivity.
  - right; left. split; reflexivity.
  - right; right. cbn [length Nat.eqb Nat.ltb Nat.leb].
    rewrite imap_first_only. split; [simpl; lia | reflexivity].
Qed.

Lemma preSave_no_photos (p : Property.t) :
  Property.photos p = [] -> Property.preSave p = p.
Proof. intros H. unfold Property.preSave. now rewrite H. Qed.

(** The photos after the hook, in the three cases at once: the marks
    change, nothing else does. *)
Lemma preSave_photos_marks (p : Property.t) :
  exists marks : list bool,
    length marks = length (Property.photos p)
    /\ Property.photos (Property.preSave p)
       = zip_with Property.set_isPrimary marks (Property.photos p)
    /\ length (List.filter id marks)
       = (if Property.photos p is [] then 0 else 1)%nat.
Proof.
  destruct (Property.photos p) as [| ph rest] eqn:Hph.
  - exists []. rewrite preSave_no_photos, Hph by exact Hph. auto.
  - destruct (preSave_shape p ph rest Hph)
      as [[Hnone ->] | [[Hone ->] | [Hmany ->]]].
    + exists (true :: map Property.isPrimary rest).
      cbn [Property.photos Property.set_photos].
      apply filter_nil_Forall in Hnone.
      inversion Hnone as [| ? ? _ Hrest]; subst.
      split; [simpl; now rewrite length_map |]. split.
      * simpl. f_equal. clear -rest.
        induction rest as [| x l IH]; simpl; [reflexivity |].
        rewrite <- IH. now destruct x.
      * simpl. f_equal. clear -Hrest.
        induction Hrest as [| x l Hx _ IH]; simpl; [reflexivity |].
        now rewrite Hx.
    + exists (map Property.isPrimary (ph :: rest)). rewrite Hph.
      split; [now rewrite length_map |]. split.
      * clear. induction (ph :: rest) as [| x l IH]; simpl; [reflexivity |].
        rewrite <- IH. now destruct x.
      * rewrite <- Hone. clear.
        induction (ph :: rest) as [| x l IH]; simpl; [reflexivity |].
        destruct (Property.isPrimary x); simpl; now rewrite IH.
    + exists (true :: map (fun _ => false) rest).
      cbn [Property.photos Property.set_photos].
      split; [simpl; now rewrite length_map |]. split.
      * simpl. f_equal. clear.
        induction rest as [| x l IH]; simpl; [reflexivity |]. now rewrite IH.
      * simpl. f_equal. clear.
        induction rest as [| x l IH]; simpl; [reflexivity | exact IH].
Qed.

(** X5: saving twice is saving once: the photos hook is idempotent. *)
Theorem X5_preSave_idempotent (p : Property.t) :
  Property.preSave (Property.preSave p) = Property.preSave p.
Proof.
  destruct (Property.photos p) as [| ph rest] eqn:Hph.
  - now rewrite !preSave_no_photos by (rewrite ?preSave_no_photos; exact Hph).
  - destruct (preSave_shape p ph rest Hph)
      as [[Hnone E] | [[Hone E] | [Hmany E]]]; rewrite E.
    + apply filter_nil_Forall in Hnone.
      inversion Hnone as [| ? ? _ Hrest]; subst.
      edestruct (preSave_shape
                   (Property.set_photos
                      (Property.set_isPrimary true ph :: rest) p))
        as [[H _] | [[_ H] | [H _]]]; [reflexivity | | exact H |].
      * discriminate H.
      * simpl in H. rewrite (filter_Forall_false _ _ Hrest) in H.
        simpl in H. lia.
    + now rewrite E.
    + edestruct (preSave_shape
                   (Property.set_photos
                      (Property.set_isPrimary true ph
                       :: map (Property.set_isPrimary false) rest) p))
        as [[H _] | [[_ H] | [H _]]]; [reflexivity | | exact H |].
      * discriminate H.
      * simpl in H. rewrite filter_isPrimary_unmarked in H. simpl in H. lia.
Qed.

(** X6: the hook keeps the photos themselves: their number, their order,
    their urls, captions and upload dates; only primary marks change. *)
Theorem X6_preSave_keeps_photos (p : Property.t) :
  length (Property.photos (Property.preSave p)) = length (Property.photos p)
  /\ map Property.url (Property.photos (Property.preSave p))
     = map Property.url (Property.photos p)
  /\ map Property.caption (Property.photos (Property.preSave p))
     = map Property.caption (Property.photos p)
  /\ map Property.uploadedAt (Property.photos (Property.preSave p))
     = map Property.uploadedAt (Property.photos p)
  /\ Property.set_photos (Property.photos p) (Property.preSave p) = p.
Proof.
  destruct (preSave_photos_marks p) as (marks & Hlen & Hphotos & _).
  assert (Hfields :
    forall (A : Type) (f : Property.photo -> A),
      (forall b ph, f (Property.set_isPrimary b ph) = f ph) ->
      map f (Property.photos (Property.preSave p))
      = map f (Property.photos p)).
  { intros A f Hf. rewrite Hphotos. clear Hphotos. revert marks Hlen.
    induction (Property.photos p) as [| x l IH]; intros [| b marks] Hlen;
      try discriminate; simpl; [reflexivity |].
    rewrite Hf. f_equal. apply IH. simpl in Hlen. lia. }
  split; [| split; [| split; [| split]]].
  - rewrite <- (length_map Property.url), <- (length_map Property.url
      (Property.photos p)). f_equal. now apply Hfields.
  - now apply Hfields.
  - now apply Hfields.
  - now apply Hfields.
  - destruct (Property.photos p) as [| ph rest] eqn:Hph.
    + rewrite preSave_no_photos by exact Hph. rewrite <- Hph.
      apply set_photos_same.
    + destruct (preSave_shape p ph rest Hph)
        as [[_ ->] | [[_ ->] | [_ ->]]];
        try (rewrite <- Hph; destruct p; reflexivity).
Qed.

(** X7: [primaryPhoto] is [null] exactly for a Property without photos;
    after the hook it is a photo of the Property that is marked primary, and
    the only one that is. *)
Theorem X7_primaryPhoto (p : Property.t) :
  (Property.primaryPhoto p = None <-> Property.photos p = [])
  /\ (Property.photos p <> [] ->
      exists ph,
        Property.primaryPhoto (Property.preSave p) = Some ph
        /\ Property.isPrimary ph = true
        /\ List.filter Property.isPrimary
             (Property.photos (Property.preSave p)) = [ph]).
Proof.
  split.
  - unfold Property.primaryPhoto.
    destruct (Property.photos p) as [| ph rest]; simpl.
    + tauto.
    + destruct (Property.isPrimary ph); [split; discriminate |].
      destruct (List.find Property.isPrimary rest); split; discriminate.
  - intros Hne.
    destruct (Property.photos p) as [| ph rest] eqn:Hph; [congruence |].
    assert (Hfind : forall l x,
              List.filter Property.isPrimary l = [x] ->
              List.find Property.isPrimary l = Some x
              /\ Property.isPrimary x = true).
    { induction l as [| y l IH]; simpl; intros x Hx; [discriminate |].
      destruct (Property.isPrimary y) eqn:Ey.
      - injection Hx as <- _. auto.
      - now apply IH. }
    assert (Hone : exists x,
              List.filter Property.isPrimary
                (Property.photos (Property.preSave p)) = [x]).
    { destruct (preSave_shape p ph rest Hph)
        as [[Hnone ->] | [[Hone ->] | [Hmany ->]]].
      - apply filter_nil_Forall in Hnone.
        inversion Hnone as [| ? ? _ Hrest]; subst.
        eexists. simpl. now rewrite (filter_Forall_false _ _ Hrest).
      - rewrite Hph.
        destruct (List.filter Property.isPrimary (ph :: rest))
          as [| x [| y l]]; try discriminate. now exists x.
      - eexists. simpl. now rewrite filter_isPrimary_unmarked. }
    destruct Hone as [x Hx]. exists x.
    destruct (Hfind _ _ Hx) as [Hf Hp].
    unfold Property.primaryPhoto. rewrite Hf. auto.
Qed.

Lemma X7_primaryPhoto_witness :
  exists ph,
    Property.primaryPhoto (Property.preSave propertyOwned) = Some ph
    /\ Property.isPrimary ph = true.
Proof.
  destruct (X7_primaryPhoto propertyOwned) as [_ H].
  destruct H as (ph & H1 & H2 & _); [discriminate |].
  exists ph. split; assumption.
Defined.

End PhotoFacts.


(** ** routes/properties.js: the list and its pages *)

Section ListFacts.
Import JS.
Variable regex : string -> option (string -> bool).
Variable rank : Property.t -> Z.

Lemma validList_bounds (q : Routes.listQuery) :
  Routes.validList q = true ->
  1 <= default 1 (Routes.page q)
  /\ 1 <= default 10 (Routes.limit q) <= 100.
Proof.
  unfold Routes.validList. rewrite !andb_true_iff.
  intros ((((Hp & Hl) & _) & _) & _).
  destruct (Routes.page q), (Routes.limit q); simpl in *; lia.
Qed.

Lemma listProperties_Ok (st : store) (userId : idValue)
  (q : Routes.listQuery) (data : Routes.listData) :
  Routes.listProperties regex rank st userId q = Ok data ->
  Routes.validList q = true
  /\ Routes.listThrows regex q = false
  /\ data
     = let limit := default 10 (Routes.limit q) in
       let matching :=
         List.filter (Routes.listFilter regex userId q) (properties st) in
       let total := Z.of_nat (length matching) in
       {| Routes.l_properties :=
            map Routes.enrich
              (take (Z.to_nat limit)
                 (drop (Z.to_nat ((default 1 (Routes.page q) - 1) * limit))
                    (stableSort (Routes.listBefore q)
                       (sortAsc rank matching))));
          Routes.l_pagination :=
            {| Routes.currentPage := default 1 (Routes.page q);
               Routes.totalPages := (total + limit - 1) / limit;
               Routes.totalItems := total;
               Routes.itemsPerPage := limit |} |}.
Proof.
  unfold Routes.listProperties.
  destruct (Routes.validList q); simpl; [| discriminate].
  destruct (Routes.listThrows regex q); [discriminate |].
  intros [= <-]. repeat split.
Qed.

(** X8: a list answer never holds more Properties than the page size,
    which lies between 1 and 100 (10 by default); the total counts the
    Properties that match the filter whatever the page and the sort; and the
    number of pages is the least number of pages of that size that hold the
    total. *)
Theorem X8_list_pagination (st : store) (userId : idValue)
  (q : Routes.listQuery) (data : Routes.listData) :
  Routes.listProperties regex rank st userId q = Ok data ->
  let pg := Routes.l_pagination data in
  Routes.itemsPerPage pg = default 10 (Routes.limit q)
  /\ 1 <= Routes.itemsPerPage pg <= 100
  /\ (length (Routes.l_properties data)
      <= Z.to_nat (Routes.itemsPerPage pg))%nat
  /\ Routes.totalItems pg
     = Z.of_nat
         (length (List.filter (Routes.listFilter regex userId q)
                    (properties st)))
  /\ Routes.totalItems pg
     <= Routes.totalPages pg * Routes.itemsPerPage pg
  /\ (Routes.totalPages pg - 1) * Routes.itemsPerPage pg
     < Z.max 1 (Routes.totalItems pg).
Proof.
  intros H. apply listProperties_Ok in H. destruct H as (Hv & _ & ->).
  destruct (validList_bounds q Hv) as [_ Hl].
  cbv zeta. cbn [Routes.l_pagination Routes.l_properties
    Routes.itemsPerPage Routes.totalItems Routes.totalPages].
  set (L := default 10 (Routes.limit q)) in *.
  set (T := Z.of_nat (length _)).
  assert (0 <= T) by (unfold T; lia).
  split; [reflexivity |]. split; [exact Hl |].
  split; [rewrite length_map, length_take; lia |].
  split; [reflexivity |].
  pose proof (Z.div_mod (T + L - 1) L ltac:(lia)) as Hdm.
  pose proof (Z.mod_pos_bound (T + L - 1) L ltac:(lia)) as Hmb.
  split; nia.
Qed.

(** X9: every Property of a list answer is a stored Property that the
    caller owns and that is active; it has the requested status when the
    request names one; and it comes with the progress of its status. *)
Theorem X9_listed_properties (st : store) (userId : idValue)
  (q : Routes.listQuery) (data : Routes.listData)
  (e : Routes.enrichedProperty) :
  Routes.listProperties regex rank st userId q = Ok data ->
  In e (Routes.l_properties data) ->
  let p := Routes.e_property e in
  In p (properties st)
  /\ Property.owner p = toString userId
  /\ Property.isActive p = true
  /\ (forall s, Routes.q_status q = Some s -> Property.status p = s)
  /\ Routes.progressPercentage e
     = Property.getProgressPercentage (Property.status p).
Proof.
  intros H Hin. apply listProperties_Ok in H. destruct H as (Hv & _ & ->).
  cbv zeta in Hin. cbn [Routes.l_properties] in Hin.
  apply in_map_iff in Hin. destruct Hin as (p & <- & Hp).
  cbv zeta. cbn [Routes.e_property Routes.enrich Routes.progressPercentage].
  apply list_elem_of_In, subseteq_take, subseteq_drop in Hp.
  apply list_elem_of_In, stableSort_In in Hp. unfold sortAsc in Hp.
  apply stableSort_In, filter_In in Hp.
  destruct Hp as [Hstored Hf].
  unfold Routes.listFilter in Hf. rewrite !andb_true_iff in Hf.
  destruct Hf as ((((((((Ho & Ha) & Hs) & _) & _) & _) & _) & _) & _).
  split; [exact Hstored |].
  split; [unfold matchesId in Ho; now apply String.eqb_eq in Ho |].
  split; [exact Ha |]. split; [| reflexivity].
  intros s Hq. rewrite Hq in Hs.
  unfold Routes.validList in Hv. rewrite !andb_true_iff, Hq in Hv.
  destruct Hv as ((((_ & _) & Henum) & _) & _). simpl in Henum.
  assert (Hnonempty : truthy_string s = true).
  { destruct s; [discriminate Henum | reflexivity]. }
  unfold Routes.given in Hs. rewrite Hnonempty in Hs. simpl in Hs.
  now apply String.eqb_eq.
Qed.

Lemma withPage_valid (q : Routes.listQuery) (k : Z) :
  Routes.validList q = true -> 1 <= k ->
  Routes.validList (withPage k q) = true.
Proof.
  unfold Routes.validList. rewrite !andb_true_iff. simpl.
  intros ((((_ & Hl) & Hs) & Hb) & Ho) Hk.
  repeat split; try assumption. now apply Z.leb_le.
Qed.

(** Two comparisons that agree sort alike. *)
Lemma stableSort_ext {A : Type} (f g : A -> A -> bool) (l : list A) :
  (forall a b, f a b = g a b) -> stableSort f l = stableSort g l.
Proof.
  intros H. induction l as [| x l IH]; simpl; [reflexivity |].
  fold (stableSort f l). fold (stableSort g l). rewrite IH.
  generalize (stableSort g l). intros k.
  induction k as [| y k IHk]; simpl; [reflexivity |].
  rewrite H. destruct (g y x); [now rewrite IHk | reflexivity].
Qed.

(** A list has one arrangement at most that is strictly sorted. *)
Lemma strictlyDescending_unique {A : Type} (key : A -> Z)
  (l1 l2 : list A) :
  strictlyDescending key l1 -> strictlyDescending key l2 ->
  l1 ≡ₚ l2 -> l1 = l2.
Proof.
  unfold strictlyDescending. revert l2.
  induction l1 as [| x l1 IH]; intros l2 H1 H2 Hp.
  - symmetry. now apply Permutation_nil.
  - destruct l2 as [| y l2].
    { symmetry in Hp. now apply Permutation_nil in Hp. }
    inversion H1 as [| ? ? H1' Hx]; subst.
    inversion H2 as [| ? ? H2' Hy]; subst.
    rewrite List.Forall_forall in Hx, Hy.
    assert (x = y) as ->.
    { assert (In x (y :: l2)) as Hxin
        by (apply (Permutation_in _ Hp); now left).
      assert (In y (x :: l1)) as Hyin
        by (apply (Permutation_in _ (Permutation_sym Hp)); now left).
      destruct Hxin as [E | Hxin]; [now symmetry |].
      destruct Hyin as [E | Hyin]; [exact E |].
      specialize (Hx _ Hyin). specialize (Hy _ Hxin). lia. }
    f_equal. apply IH; [exact H1' | exact H2' |].
    now apply Permutation_cons_inv in Hp.
Qed.

Lemma NoDup_map_opp (l : list Z) : NoDup l -> NoDup (map Z.opp l).
Proof.
  induction 1 as [| x l Hx Hl IH]; simpl; [apply NoDup_nil_2 |].
  apply NoDup_cons_2; [| exact IH].
  intros Hin. apply Hx. apply list_elem_of_In in Hin.
  apply in_map_iff in Hin. destruct Hin as (y & Hy & Hin).
  apply list_elem_of_In. now replace x with y by lia.
Qed.

(** By creation date, when the dates are pairwise distinct, the sort
    does not depend on the order in which the storage comes across the
    documents. *)
Lemma sorted_by_createdAt (q : Routes.listQuery) (r : Property.t -> Z)
  (l : list Property.t) :
  default "createdAt" (Routes.sortBy q) = "createdAt" ->
  NoDup (map Property.createdAt l) ->
  stableSort (Routes.listBefore q) (sortAsc r l)
  = stableSort (Routes.listBefore q) l.
Proof.
  intros Hpath Hnd.
  set (key := fun p : Property.t =>
                if String.eqb (default "desc" (Routes.sortOrder q)) "desc"
                then Property.createdAt p else - Property.createdAt p).
  assert (Hcmp : forall a b, Routes.listBefore q a b = (key b <? key a)).
  { intros a b. unfold Routes.listBefore, key. rewrite Hpath.
    cbn [String.eqb Ascii.eqb Bool.eqb].
    destruct (String.eqb (default "desc" (Routes.sortOrder q)) "desc");
      [reflexivity |].
    destruct (Z.ltb_spec (Property.createdAt a) (Property.createdAt b));
      symmetry; [apply Z.ltb_lt | apply Z.ltb_ge]; lia. }
  assert (Hkeys : NoDup (map key l)).
  { unfold key.
    destruct (String.eqb (default "desc" (Routes.sortOrder q)) "desc");
      [exact Hnd |].
    rewrite <- (map_map Property.createdAt Z.opp).
    now apply NoDup_map_opp. }
  rewrite !(stableSort_ext _ (fun a b => key b <? key a) _ Hcmp).
  apply (strictlyDescending_unique key).
  - apply (sortDesc_strictlyDescending key).
    unfold sortAsc. now rewrite stableSort_Permutation.
  - now apply (sortDesc_strictlyDescending key).
  - etransitivity; [apply stableSort_Permutation |].
    etransitivity; [apply stableSort_Permutation |].
    symmetry. apply stableSort_Permutation.
Qed.

Lemma pageOf_slice (r : Property.t -> Z) (st : store) (userId : idValue)
  (q : Routes.listQuery) (k : nat) :
  Routes.validList q = true ->
  Routes.listThrows regex q = false ->
  let L := Z.to_nat (default 10 (Routes.limit q)) in
  pageOf regex r st userId q (Z.of_nat (S k))
  = map Routes.enrich
      (take L
         (drop (k * L)
            (stableSort (Routes.listBefore q)
               (sortAsc r
                  (List.filter (Routes.listFilter regex userId q)
                     (properties st)))))).
Proof.
  intros Hv Ht. cbv zeta. unfold pageOf.
  pose proof (withPage_valid q (Z.of_nat (S k)) Hv ltac:(lia)) as Hv'.
  unfold Routes.listProperties. rewrite Hv'. simpl negb. cbv iota.
  change (Routes.listThrows regex (withPage (Z.of_nat (S k)) q))
    with (Routes.listThrows regex q).
  rewrite Ht. cbn [Routes.l_properties].
  destruct (validList_bounds q Hv) as [_ Hl].
  change (Routes.limit (withPage (Z.of_nat (S k)) q)) with (Routes.limit q).
  change (Routes.page (withPage (Z.of_nat (S k)) q))
    with (Some (Z.of_nat (S k))).
  do 2 f_equal. f_equal.
  set (L := default 10 (Routes.limit q)) in *.
  change (default 1 (Some (Z.of_nat (S k)))) with (Z.of_nat (S k)). nia.
Qed.

(** X10: for a list request that sorts by creation date, as it does by
    default, over matching Properties whose creation dates are pairwise
    distinct, the pages of the request, each one fetched by a query of its
    own and read from the first to the last, give every matching Property
    exactly once, in the order of the sort, whatever order the storage
    gives in each of these queries to the documents that a sort key does
    not separate. *)
Theorem X10_pages_cover (ranks : nat -> Property.t -> Z) (st : store)
  (userId : idValue) (q : Routes.listQuery) (data : Routes.listData) :
  let matching :=
    List.filter (Routes.listFilter regex userId q) (properties st) in
  Routes.listProperties regex rank st userId q = Ok data ->
  default "createdAt" (Routes.sortBy q) = "createdAt" ->
  NoDup (map Property.createdAt matching) ->
  concat
    (map (fun k => pageOf regex (ranks k) st userId q (Z.of_nat k))
       (seq 1 (Z.to_nat (Routes.totalPages (Routes.l_pagination data)))))
  = map Routes.enrich (stableSort (Routes.listBefore q) matching).
Proof.
  intros matching H Hpath Hnd.
  apply listProperties_Ok in H. destruct H as (Hv & Ht & ->).
  cbv zeta. cbn [Routes.l_pagination Routes.totalPages].
  destruct (validList_bounds q Hv) as [_ Hl].
  fold matching.
  set (sorted := stableSort (Routes.listBefore q) matching).
  set (L := Z.to_nat (default 10 (Routes.limit q))).
  assert (Hpages : forall n,
            concat (map (fun k => pageOf regex (ranks k) st userId q
                                    (Z.of_nat k))
                      (seq 1 n))
            = map Routes.enrich (take (n * L) sorted)).
  { induction n as [| n IH]; [reflexivity |].
    rewrite seq_S, map_app, concat_app, IH. simpl.
    rewrite (pageOf_slice (ranks (S n)) st userId q n Hv Ht).
    fold matching. rewrite (sorted_by_createdAt q _ matching Hpath Hnd).
    fold sorted. fold L.
    rewrite app_nil_r, <- map_app. f_equal.
    rewrite take_take_drop. f_equal. lia. }
  rewrite Hpages. f_equal. apply take_ge.
  unfold sorted. rewrite stableSort_length.
  set (T := length _).
  pose proof (Z.div_mod (Z.of_nat T + default 10 (Routes.limit q) - 1)
                (default 10 (Routes.limit q)) ltac:(lia)) as Hdm.
  pose proof (Z.mod_pos_bound
                (Z.of_nat T + default 10 (Routes.limit q) - 1)
                (default 10 (Routes.limit q)) ltac:(lia)) as Hmb.
  unfold L. nia.
Qed.

End ListFacts.

Section ListExamples.
Import JS.

Lemma X8_list_pagination_witness :
  Routes.totalItems
    (Routes.l_pagination
       {| Routes.l_properties := [Routes.enrich propertyOwned];
          Routes.l_pagination :=
            {| Routes.currentPage := 1; Routes.totalPages := 1;
               Routes.totalItems := 1; Routes.itemsPerPage := 10 |} |})
  <= 1 * 10.
Proof.
  destruct (X8_list_pagination (fun _ => None) Property.createdAt
              exampleStore (IdObject caller) plainList _ eq_refl)
    as (_ & _ & _ & _ & H & _).
  exact H.
Defined.

Lemma X9_listed_properties_witness :
  Property.owner propertyOwned = toString (IdObject caller)
  /\ Property.isActive propertyOwned = true.
Proof.
  destruct (X9_listed_properties (fun _ => None) Property.createdAt
              exampleStore (IdObject caller) plainList _
              (Routes.enrich propertyOwned) eq_refl)
    as (_ & Ho & Ha & _).
  - left. reflexivity.
  - split; assumption.
Defined.

Lemma X10_pages_cover_witness :
  concat
    (map (fun k => pageOf (fun _ => None) (fun _ => Z.of_nat k)
                     twoOwnedStore (IdObject caller) onePerPage
                     (Z.of_nat k)) (seq 1 2))
  = [Routes.enrich propertySecond; Routes.enrich propertyOwned].
Proof.
  apply (X10_pages_cover (fun _ => None) Property.createdAt
           (fun k _ => Z.of_nat k) twoOwnedStore (IdObject caller)
           onePerPage _ eq_refl eq_refl).
  apply (bool_decide_unpack _). vm_compute. exact I.
Defined.

End ListExamples.


(** ** routes/dashboard.js: the feed in general *)

Section FeedFacts.
Import JS.

Lemma StronglySorted_take {A : Type} (R : A -> A -> Prop) (n : nat)
  (l : list A) :
  StronglySorted R l -> StronglySorted R (take n l).
Proof.
  intros H. revert n.
  induction H as [| x l Hl IH Hx]; intros [| n]; simpl; try constructor.
  - apply IH.
  - apply List.Forall_forall. intros z Hz.
    rewrite List.Forall_forall in Hx. apply Hx.
    apply list_elem_of_In. apply list_elem_of_In in Hz.
    now apply (subseteq_take n l).
Qed.

Lemma filter_length_submseteq {A : Type} (f : A -> bool) (l k : list A) :
  l ⊆+ k -> (length (List.filter f l) <= length (List.filter f k))%nat.
Proof.
  induction 1 as [| x l k _ IH | x y l | x l k _ IH | l k m _ IH1 _ IH2];
    simpl.
  - lia.
  - destruct (f x); simpl; lia.
  - destruct (f x), (f y); simpl; lia.
  - destruct (f x); simpl; lia.
  - lia.
Qed.

Lemma filter_map_all {A B : Type} (f : B -> bool) (g : A -> B)
  (l : list A) :
  (forall x, f (g x) = true) -> List.filter f (map g l) = map g l.
Proof.
  intros H. induction l as [| x l IH]; simpl; [reflexivity |].
  now rewrite H, IH.
Qed.

Lemma filter_map_none {A B : Type} (f : B -> bool) (g : A -> B)
  (l : list A) :
  (forall x, f (g x) = false) -> List.filter f (map g l) = [].
Proof.
  intros H. induction l as [| x l IH]; simpl; [reflexivity |].
  now rewrite H, IH.
Qed.

(** The sources of the feed under the cap [c], mapped and
    concatenated. *)
Lemma recentActivity_Ok (other : Z -> Dashboard.cap) (st : store)
  (userId : idValue) (q : Dashboard.activityQuery) (now : Date)
  (feed : list Dashboard.activity) :
  Dashboard.recentActivity other st userId q now = Ok feed ->
  exists c,
    Dashboard.quarter other (Dashboard.parsedOr (Dashboard.q_limit q) 20) = c
    /\ c <> Dashboard.Rejected
    /\ feed
       = Dashboard.slice0 (Dashboard.parsedOr (Dashboard.q_limit q) 20)
           (sortDesc Dashboard.date
              (map (Dashboard.stepActivity st)
                 (Dashboard.limited c
                    (sortDesc Step.updatedAt
                       (Dashboard.stepCandidates st userId
                          (Dashboard.since q now))))
               ++ map (Dashboard.documentActivity st)
                    (Dashboard.limited c
                       (sortDesc Document.createdAt
                          (Dashboard.documentCandidates st userId
                             (Dashboard.since q now))))
               ++ map (Dashboard.eventActivity st)
                    (Dashboard.limited c
                       (sortDesc CalendarEvent.createdAt
                          (Dashboard.eventCandidates st userId
                             (Dashboard.since q now))))
               ++ map Dashboard.propertyActivity
                    (Dashboard.limited c
                       (sortDesc Property.createdAt
                          (Dashboard.propertyCandidates st userId
                             (Dashboard.since q now)))))%list).
Proof.
  unfold Dashboard.recentActivity.
  destruct (Dashboard.quarter other _) as [| n |] eqn:E; [discriminate | |];
    intros [= <-]; eexists; (split; [reflexivity |]);
    (split; [discriminate | reflexivity]).
Qed.

Lemma slice0_submseteq {A : Type} (limit : Z) (l : list A) :
  Dashboard.slice0 limit l ⊆+ l.
Proof.
  unfold Dashboard.slice0. destruct (0 <=? limit); apply submseteq_take.
Qed.






(** X12: every record of a feed is of one of the four types; when the
    queries are limited to [n] documents the feed holds at most [n]
    records of each type; and for a limit in force that is a positive
    multiple of 4 that is a quarter of it. *)
Theorem X12_feed_per_source (other : Z -> Dashboard.cap) (st : store)
  (userId : idValue) (q : Dashboard.activityQuery) (now : Date)
  (feed : list Dashboard.activity) :
  let limit := Dashboard.parsedOr (Dashboard.q_limit q) 20 in
  let count t :=
    length (List.filter (fun a => String.eqb (Dashboard.type a) t) feed) in
  Dashboard.recentActivity other st userId q now = Ok feed ->
  Forall (fun a => In (Dashboard.type a)
                     ["step"; "document"; "event"; "property"]) feed
  /\ (forall n t, Dashboard.quarter other limit = Dashboard.AtMost n ->
                  (count t <= n)%nat)
  /\ (0 < limit -> limit mod 4 = 0 ->
      forall t, Z.of_nat (count t) <= limit / 4).
Proof.
  cbv zeta. intros H. apply recentActivity_Ok in H.
  destruct H as (c & Hq & _ & ->).
  set (acts := (_ ++ _)%list).
  assert (Htypes :
    Forall (fun a => In (Dashboard.type a)
                       ["step"; "document"; "event"; "property"])
      (Dashboard.slice0 (Dashboard.parsedOr (Dashboard.q_limit q) 20)
         (sortDesc Dashboard.date acts))).
  { apply List.Forall_forall. intros a Ha.
    apply list_elem_of_In in Ha.
    pose proof (elem_of_submseteq _ _ _ Ha (slice0_submseteq _ _)) as Ha'.
    apply list_elem_of_In, stableSort_In in Ha'. unfold acts in Ha'.
    repeat (apply in_app_or in Ha'; destruct Ha' as [Ha' | Ha']);
      apply in_map_iff in Ha'; destruct Ha' as (x & <- & _); simpl; tauto. }
  assert (Hcount : forall n t, c = Dashboard.AtMost n ->
    (length (List.filter (fun a => String.eqb (Dashboard.type a) t)
               (Dashboard.slice0
                  (Dashboard.parsedOr (Dashboard.q_limit q) 20)
                  (sortDesc Dashboard.date acts))) <= n)%nat).
  { intros n t ->.
    etransitivity.
    { apply filter_length_submseteq.
      etransitivity; [apply slice0_submseteq |].
      apply Permutation_submseteq, stableSort_Permutation. }
    unfold acts. cbn [Dashboard.limited].
    rewrite !List.filter_app, !length_app.
    destruct (String.eqb "step" t) eqn:E1;
      [| destruct (String.eqb "document" t) eqn:E2;
         [| destruct (String.eqb "event" t) eqn:E3;
            [| destruct (String.eqb "property" t) eqn:E4]]];
      repeat match goal with
             | H : String.eqb _ t = true |- _ =>
                 apply String.eqb_eq in H; subst t
             end;
      repeat first
        [ rewrite filter_map_all by (intros x; reflexivity)
        | rewrite filter_map_none by (intros x; simpl; assumption)
        | rewrite filter_map_none by (intros x; reflexivity) ];
      rewrite ?length_map, ?length_take; simpl; lia. }
  split; [exact Htypes |]. split.
  - intros n t Hn. apply Hcount. now rewrite <- Hq.
  - intros Hpos Hmod t.
    assert (c = Dashboard.AtMost
                  (Z.to_nat
                     (Dashboard.parsedOr (Dashboard.q_limit q) 20 / 4)))
      as Hc.
    { rewrite <- Hq. unfold Dashboard.quarter.
      apply Z.ltb_lt in Hpos. apply Z.eqb_eq in Hmod.
      now rewrite Hpos, Hmod. }
    pose proof (Hcount _ t Hc) as Hle.
    apply inj_le in Hle. rewrite Z2Nat.id in Hle; [exact Hle |].
    apply Z.div_pos; lia.
Qed.

Lemma X12_feed_per_source_witness :
  exists feed,
    Dashboard.recentActivity refuseOther activityStore (IdObject caller)
      activityRequest (day 12) = Ok feed
    /\ Z.of_nat
         (length (List.filter (fun a => String.eqb (Dashboard.type a) "step")
                    feed)) <= 2.
Proof.
  eexists. split; [reflexivity |].
  exact (proj2 (proj2 (X12_feed_per_source refuseOther activityStore
                         (IdObject caller) activityRequest (day 12) _
                         eq_refl))
           ltac:(reflexivity) ltac:(reflexivity) "step").
Defined.

End FeedFacts.


(** ** routes/calendar.js *)

Section CalendarFacts.
Import JS.

Lemma insertSorted_ascending {A : Type} (key : A -> Z) (x : A)
  (l : list A) :
  ascending key l ->
  ascending key (insertSorted (fun a b => key a <? key b) x l).
Proof.
  unfold ascending. induction 1 as [| y l Hl IH Hy]; simpl.
  - repeat constructor.
  - destruct (key y <? key x) eqn:E.
    + apply Z.ltb_lt in E. constructor; [exact IH |].
      apply List.Forall_forall. intros z Hz.
      apply (Permutation_in _ (insertSorted_Permutation _ x l)) in Hz.
      destruct Hz as [<- | Hz]; [lia |].
      rewrite List.Forall_forall in Hy. now apply Hy.
    + apply Z.ltb_ge in E. constructor; [now constructor |].
      constructor; [exact E |].
      eapply List.Forall_impl; [| exact Hy]. simpl. intros z Hz. lia.
Qed.

Lemma sortAsc_ascending {A : Type} (key : A -> Z) (l : list A) :
  ascending key (sortAsc key l).
Proof.
  unfold sortAsc. induction l as [| x l IH]; simpl; [constructor |].
  now apply insertSorted_ascending.
Qed.

(** X13: for an event that does not end before it starts, and clock
    readings that do not go back, at most one of isPast, isOngoing and
    isUpcoming is set; exactly one is set when the four readings coincide. *)
Theorem X13_event_flags (t1 t2 t3 t4 : Date) (e : CalendarEvent.t) :
  CalendarEvent.startDate e <= CalendarEvent.endDate e ->
  t1 <= t2 -> t2 <= t3 -> t3 <= t4 ->
  (flagsSet (Calendar.enrich t1 t2 t3 t4 e) <= 1)%nat
  /\ (t1 = t4 -> flagsSet (Calendar.enrich t1 t2 t3 t4 e) = 1%nat).
Proof.
  intros Hse H12 H23 H34. unfold flagsSet, Calendar.enrich.
  cbn [Calendar.isPast Calendar.isOngoing Calendar.isUpcoming].
  destruct (t1 >? CalendarEvent.endDate e) eqn:E1;
    destruct (CalendarEvent.startDate e <=? t2) eqn:E2;
    destruct (t3 <=? CalendarEvent.endDate e) eqn:E3;
    destruct (t4 <? CalendarEvent.startDate e) eqn:E4;
    simpl;
    rewrite ?Z.gtb_lt, ?Z.leb_le, ?Z.ltb_lt, ?Z.leb_gt, ?Z.ltb_ge in *;
    try (apply Z.gtb_lt in E1); try (apply Z.gtb_ltb in E1);
    rewrite ?Z.gtb_ltb, ?Z.ltb_lt, ?Z.ltb_ge in *;
    split; try lia.
Qed.

Lemma X13_event_flags_witness :
  flagsSet (Calendar.enrich (day 20) (day 20) (day 20) (day 20) eventForeign)
  = 1%nat.
Proof.
  apply (X13_event_flags (day 20) (day 20) (day 20) (day 20) eventForeign);
    (reflexivity || (vm_compute; discriminate)).
Defined.

(** When the clock moves between the readings, no flag at all may be set:
    an event read while it ends is not yet past at the first reading and no
    longer ongoing at the third. *)
Example event_flags_none :
  flagsSet (Calendar.enrich (day 21) (day 21) (day 21 + 1) (day 21 + 1)
              (eventAt "5f0000000000000000000311" "e" (day 3)))
  = 0%nat.
Proof. reflexivity. Qed.

Lemma respond_Ok (rest : CalendarEvent.t -> bool) (st : store)
  (events l : list CalendarEvent.t) :
  Calendar.respond rest st events = Ok l ->
  l = events
  /\ Forall (fun e => Calendar.populatedProperty st e = None
                      /\ rest e = true) l.
Proof.
  unfold Calendar.respond.
  destruct (forallb _ events) eqn:E; [| discriminate].
  intros [= <-]. split; [reflexivity |].
  rewrite forallb_forall in E. apply List.Forall_forall. intros e He.
  specialize (E e He). apply andb_prop in E. destruct E as [E1 E2].
  split; [| exact E2].
  destruct (Calendar.populatedProperty st e) as [p |]; [| reflexivity].
  discriminate E1.
Qed.

Lemma respond_Fail (rest : CalendarEvent.t -> bool) (st : store)
  (events : list CalendarEvent.t) (e : CalendarEvent.t) (p : Property.t) :
  In e events ->
  Calendar.populatedProperty st e = Some p ->
  Calendar.respond rest st events = Fail 500 "Erreur interne du serveur".
Proof.
  intros He Hp. unfold Calendar.respond.
  destruct (forallb _ events) eqn:E; [| reflexivity].
  rewrite forallb_forall in E. specialize (E e He).
  rewrite Hp in E. discriminate E.
Qed.

Lemma upcoming_Ok (rest : CalendarEvent.t -> bool) (st : store)
  (userId : idValue) (days : option Z) (now : Date)
  (l : list CalendarEvent.t) :
  Calendar.upcoming rest st userId days now = Ok l ->
  exists d,
    1 <= d <= 365
    /\ d = default 7 days
    /\ Calendar.respond rest st (Calendar.upcomingEvents st userId d now)
       = Ok l.
Proof.
  unfold Calendar.upcoming. destruct days as [d |]; simpl.
  - destruct ((1 <=? d) && (d <=? 365)) eqn:E; simpl; [| discriminate].
    apply andb_true_iff in E. rewrite !Z.leb_le in E.
    destruct (d =? 0) eqn:E0; [apply Z.eqb_eq in E0; lia |].
    intros H. exists d. repeat split; first [lia | exact H].
  - intros H. exists 7. repeat split; first [lia | exact H].
Qed.

(** X14: GET /api/calendar/upcoming, when it answers with events: they
    are at most 20, sorted by start date ascending; each is a stored,
    active event that the caller owns or that is shared with the caller,
    scheduled or confirmed, and starting between now and the end of the
    window (7 days by default, 365 at most); and none of them refers to a
    Property of the collection, since the route answers 500 as soon as
    one of the events that its query selects does. *)
Theorem X14_upcoming (rest : CalendarEvent.t -> bool) (st : store)
  (userId : idValue) (days : option Z) (now : Date) :
  (forall l,
     Calendar.upcoming rest st userId days now = Ok l ->
     (length l <= 20)%nat
     /\ ascending CalendarEvent.startDate l
     /\ Forall
          (fun e =>
             In e (events st)
             /\ Calendar.ownerOrShared userId e = true
             /\ CalendarEvent.isActive e = true
             /\ In (CalendarEvent.status e) ["scheduled"; "confirmed"]
             /\ now <= CalendarEvent.startDate e
                <= now + default 7 days * 86400000
             /\ Calendar.populatedProperty st e = None) l)
  /\ (forall e p,
        1 <= default 7 days <= 365 ->
        In e (Calendar.upcomingEvents st userId (default 7 days) now) ->
        Calendar.populatedProperty st e = Some p ->
        Calendar.upcoming rest st userId days now
        = Fail 500 "Erreur interne du serveur").
Proof.
  split.
  - intros l H. apply upcoming_Ok in H. destruct H as (d & Hd & -> & H).
    apply respond_Ok in H. destruct H as [-> Hnone].
    unfold Calendar.upcomingEvents in *.
    split; [rewrite length_take; lia |].
    split; [apply StronglySorted_take, sortAsc_ascending |].
    apply List.Forall_forall. intros e He.
    rewrite List.Forall_forall in Hnone. destruct (Hnone e He) as [Hp _].
    apply list_elem_of_In, subseteq_take in He.
    apply list_elem_of_In, stableSort_In, filter_In in He.
    destruct He as [Hin Hf]. rewrite !andb_true_iff, !Z.leb_le in Hf.
    destruct Hf as ((((Hv & Ha) & Hn) & He) & Hs).
    repeat split; try assumption; try lia.
    unfold Calendar.scheduledOrConfirmed in Hs. simpl in Hs.
    rewrite !orb_true_iff, !String.eqb_eq in Hs. simpl.
    destruct Hs as [Hs | [Hs | Hs]]; [auto | auto | discriminate].
  - intros e p Hd He Hp. unfold Calendar.upcoming.
    destruct days as [d |]; unfold default in Hd, He; simpl in Hd, He.
    + assert ((1 <=? d) && (d <=? 365) = true) as ->
        by (apply andb_true_iff; rewrite !Z.leb_le; lia).
      cbn [negb].
      assert ((d =? 0) = false) as -> by (apply Z.eqb_neq; lia).
      now apply (respond_Fail rest st _ e p).
    + cbn [negb]. now apply (respond_Fail rest st _ e p).
Qed.

Lemma X14_upcoming_witness :
  Calendar.upcoming (fun _ => true) plainEventStore (IdObject caller) None
    (day 15) = Ok [eventPlain]
  /\ Calendar.populatedProperty plainEventStore eventPlain = None
  /\ Calendar.upcoming (fun _ => true) exampleStore (IdObject other)
       None (day 15) = Fail 500 "Erreur interne du serveur".
Proof.
  destruct (X14_upcoming (fun _ => true) plainEventStore (IdObject caller)
              None (day 15)) as [Hok _].
  destruct (X14_upcoming (fun _ => true) exampleStore (IdObject other)
              None (day 15)) as [_ Hfail].
  split; [reflexivity |]. split.
  - specialize (Hok [eventPlain] eq_refl). destruct Hok as (_ & _ & Hall).
    apply Forall_cons in Hall. destruct Hall as [Hall _].
    exact (proj2 (proj2 (proj2 (proj2 (proj2 Hall))))).
  - apply (Hfail eventForeign propertyForeign);
      [cbn; lia | left; reflexivity | reflexivity].
Defined.

(** X15: at one and the same time, no event that ends no earlier than
    it starts is both in an answer of GET /api/calendar/upcoming and among
    the events that the query of GET /api/calendar/overdue selects, hence
    in no answer of that route. *)
Theorem X15_upcoming_not_overdue (rest : CalendarEvent.t -> bool)
  (st : store) (userId : idValue) (days : option Z) (now : Date)
  (l : list CalendarEvent.t) (e : CalendarEvent.t) :
  Calendar.upcoming rest st userId days now = Ok l ->
  CalendarEvent.startDate e <= CalendarEvent.endDate e ->
  In e l ->
  ~ In e (Calendar.overdueEvents st userId now)
  /\ forall l', Calendar.overdue rest st userId now = Ok l' -> ~ In e l'.
Proof.
  intros H Hse Hl. apply upcoming_Ok in H. destruct H as (d & Hd & _ & H).
  apply respond_Ok in H. destruct H as [-> _].
  assert (Hnot : ~ In e (Calendar.overdueEvents st userId now)).
  { intros Ho. unfold Calendar.upcomingEvents in Hl.
    apply list_elem_of_In, subseteq_take in Hl.
    apply list_elem_of_In, stableSort_In, filter_In in Hl.
    unfold Calendar.overdueEvents in Ho.
    apply list_elem_of_In, subseteq_take in Ho.
    apply list_elem_of_In, stableSort_In, filter_In in Ho.
    destruct Hl as [_ Hl], Ho as [_ Ho].
    rewrite !andb_true_iff, ?Z.leb_le, ?Z.ltb_lt in Hl, Ho. lia. }
  split; [exact Hnot |].
  intros l' Hl'. unfold Calendar.overdue in Hl'.
  apply respond_Ok in Hl'. destruct Hl' as [-> _]. exact Hnot.
Qed.

Lemma X15_upcoming_not_overdue_witness :
  Calendar.overdue (fun _ => true) plainEventStore (IdObject caller) (day 15)
  = Ok []
  /\ ~ In eventPlain
         (Calendar.overdueEvents plainEventStore (IdObject caller) (day 15)).
Proof.
  split; [reflexivity |].
  assert (CalendarEvent.startDate eventPlain
          <= CalendarEvent.endDate eventPlain) as Hse
    by (vm_compute; discriminate).
  exact (proj1 (X15_upcoming_not_overdue (fun _ => true) plainEventStore
                  (IdObject caller) None (day 15) [eventPlain] eventPlain
                  eq_refl Hse (or_introl eq_refl))).
Defined.

End CalendarFacts.


(** ** models/Document.js *)

Section DocumentFacts.
Import JS.

(** X16: whatever the media type, the type that the hook assigns is one
    of the nine types of the schema. *)
Theorem X16_classify_in_enum (mimeType : string) :
  In (DocumentModel.classify mimeType) DocumentModel.typeEnum.
Proof.
  unfold DocumentModel.classify.
  repeat match goal with
         | |- context [if ?b then _ else _] => destruct b
         end; simpl; tauto.
Qed.

Lemma prefix_image_not_pdf (m : string) :
  DocumentModel.startsWith m "image/" = true -> m <> "application/pdf".
Proof. intros H ->. discriminate H. Qed.

(** X17: a document is typed image exactly when its media type starts
    with "image/", and pdf exactly when its media type is "application/pdf";
    a media type that contains "document" and is neither of these is typed
    document whatever else it contains, so that the media types of the
    office spreadsheets and presentations
    (application/vnd.openxmlformats-officedocument...) are typed document,
    not spreadsheet or presentation. *)
Theorem X17_classify_cases (m : string) :
  (DocumentModel.classify m = "image"
   <-> DocumentModel.startsWith m "image/" = true)
  /\ (DocumentModel.classify m = "pdf" <-> m = "application/pdf")
  /\ (DocumentModel.includes m "document" = true ->
      DocumentModel.startsWith m "image/" = false ->
      m <> "application/pdf" ->
      DocumentModel.classify m = "document").
Proof.
  unfold DocumentModel.classify.
  split; [| split].
  - destruct (DocumentModel.startsWith m "image/"); [tauto |].
    repeat match goal with
           | |- context [if ?b then _ else _] => destruct b
           end; split; discriminate.
  - destruct (DocumentModel.startsWith m "image/") eqn:E.
    + split; [discriminate |]. intros ->. discriminate E.
    + destruct (String.eqb_spec m "application/pdf") as [-> | Hne];
        [tauto |].
      repeat match goal with
             | |- context [if ?b then _ else _] => destruct b
             end; split; (discriminate || contradiction).
  - intros Hdoc Himg Hpdf. rewrite Himg.
    apply String.eqb_neq in Hpdf. rewrite Hpdf, Hdoc. reflexivity.
Qed.

Lemma X17_classify_cases_witness :
  DocumentModel.classify
    "application/vnd.openxmlformats-officedocument.spreadsheetml.sheet"
  = "document".
Proof.
  destruct (X17_classify_cases
    "application/vnd.openxmlformats-officedocument.spreadsheetml.sheet")
    as (_ & _ & H).
  apply H; [reflexivity | reflexivity | discriminate].
Defined.

(** X18: on a new document, after the hook, isPDF holds exactly when the
    type is pdf, isImage implies that the type is image, and a preview URL
    exists only for the types image and pdf. *)
Theorem X18_type_and_preview (d : DocumentModel.t) :
  DocumentModel.isNew d = true ->
  let d' := DocumentModel.preSave d in
  (DocumentModel.isPDF d' = true <-> DocumentModel.type d' = "pdf")
  /\ (DocumentModel.isImage d' = true -> DocumentModel.type d' = "image")
  /\ (DocumentModel.previewUrl d' <> None ->
      DocumentModel.type d' = "image" \/ DocumentModel.type d' = "pdf").
Proof.
  intros Hnew. cbv zeta. unfold DocumentModel.preSave. rewrite Hnew.
  cbn [orb DocumentModel.type DocumentModel.set_type].
  unfold DocumentModel.isPDF, DocumentModel.isImage,
    DocumentModel.previewUrl.
  cbn [DocumentModel.set_type DocumentModel.file_mimeType].
  destruct (X17_classify_cases (DocumentModel.file_mimeType d))
    as (Himg & Hpdf & _).
  assert (Hi : DocumentModel.isImage d = true ->
               DocumentModel.classify (DocumentModel.file_mimeType d)
               = "image").
  { unfold DocumentModel.isImage. intros H. apply Himg.
    apply existsb_exists in H. destruct H as (ty & Hin & Heq).
    apply String.eqb_eq in Heq. rewrite <- Heq. simpl in Hin.
    repeat (destruct Hin as [<- | Hin]; [reflexivity |]). destruct Hin. }
  unfold DocumentModel.isImage, DocumentModel.isPDF in *.
  split; [| split].
  - rewrite String.eqb_eq. symmetry. exact Hpdf.
  - exact Hi.
  - destruct (existsb _ _) eqn:E1; [intros _; left; now apply Hi |].
    destruct (String.eqb_spec (DocumentModel.file_mimeType d)
                "application/pdf") as [E2 | E2]; cbn [orb].
    + intros _. right. now apply Hpdf.
    + intros H. exfalso. apply H.
      cbn [DocumentModel.set_type DocumentModel.file_mimeType].
      apply String.eqb_neq in E2. now rewrite E2.
Qed.

(** Reading back a printed count. *)

Lemma digitPrefix_digits (d : Decimal.uint) :
  DocumentModel.digitPrefix (NilEmpty.string_of_uint d)
  = NilEmpty.string_of_uint d.
Proof. induction d; simpl; rewrite ?IHd; reflexivity. Qed.

Lemma untilDot_digits (d : Decimal.uint) :
  DocumentModel.untilDot (NilEmpty.string_of_uint d)
  = (NilEmpty.string_of_uint d, None).
Proof. induction d; simpl; rewrite ?IHd; reflexivity. Qed.

Lemma showInt_digits (z : Z) :
  exists d, d <> Decimal.Nil
            /\ DocumentModel.showInt z = NilEmpty.string_of_uint d
            /\ Z.of_uint d = Z.of_N (Z.to_N z).
Proof.
  unfold DocumentModel.showInt. exists (N.to_uint (Z.to_N z)).
  assert (Hnn : N.to_uint (Z.to_N z) <> Decimal.Nil).
  { destruct (Z.to_N z); simpl; [discriminate |].
    apply DecimalPos.Unsigned.to_uint_nonnil. }
  split; [exact Hnn |]. split.
  - destruct (N.to_uint (Z.to_N z)); [contradiction | reflexivity ..].
  - unfold Z.of_uint. f_equal. apply DecimalN.Unsigned.of_to.
Qed.

Lemma parseInt_showInt (z : Z) :
  0 <= z < 2 ^ 53 ->
  DocumentModel.parseInt (DocumentModel.showInt z) = DocumentModel.Int z.
Proof.
  intros Hz. destruct (showInt_digits z) as (d & Hnn & -> & Hval).
  rewrite Z2N.id in Hval by lia.
  assert (Hread :
    NilEmpty.uint_of_string
      (DocumentModel.digitPrefix (NilEmpty.string_of_uint d)) = Some d).
  { rewrite digitPrefix_digits. apply NilEmpty.usu. }
  unfold DocumentModel.parseInt.
  destruct d as [| d | d | d | d | d | d | d | d | d | d];
    [contradiction | ..];
    cbn [NilEmpty.string_of_uint] in *;
    (destruct d; cbn [NilEmpty.string_of_uint] in *;
     [ simpl; simpl in Hval; rewrite <- Hval; reflexivity
     | change (DocumentModel.isDigit _) with true; cbv iota;
       match goal with
       | |- context [Ascii.eqb ?a ?b && (Ascii.eqb ?c ?x || Ascii.eqb ?c ?y)] =>
           change (Ascii.eqb a b && (Ascii.eqb c x || Ascii.eqb c y))
             with false
       end;
       cbv iota; rewrite Hread, Hval;
       destruct (z <? 2 ^ 53) eqn:E; [reflexivity | apply Z.ltb_ge in E; lia]
       .. ]).
Qed.

Lemma part_minorVersion (k : nat) :
  DocumentModel.part0 (minorVersion k) = "1"
  /\ DocumentModel.part1 (minorVersion k)
     = Some (DocumentModel.showInt (Z.of_nat k)).
Proof.
  unfold minorVersion, DocumentModel.part0, DocumentModel.part1.
  destruct (showInt_digits (Z.of_nat k)) as (d & _ & -> & _).
  change ("1." +:+ NilEmpty.string_of_uint d)
    with (String "1" (String "." (NilEmpty.string_of_uint d))).
  cbn [DocumentModel.untilDot Ascii.eqb Bool.eqb fst snd].
  rewrite untilDot_digits. split; reflexivity.
Qed.

Lemma getNextVersion_after (d : DocumentModel.t) (k : nat)
  (v : DocumentModel.version) :
  last (DocumentModel.versions d) = Some v ->
  DocumentModel.v_version v = minorVersion k ->
  Z.of_nat k < 2 ^ 53 ->
  DocumentModel.getNextVersion d = Some (minorVersion (S k)).
Proof.
  intros Hlast Hv Hk. unfold DocumentModel.getNextVersion.
  rewrite Hlast, Hv.
  destruct (part_minorVersion k) as [-> ->].
  rewrite parseInt_showInt by lia.
  replace (Z.of_nat k + 1) with (Z.of_nat (S k)) by lia. reflexivity.
Qed.

Lemma addVersions_from (l : list upload) (d : DocumentModel.t) (k : nat) :
  map DocumentModel.v_version (DocumentModel.versions d)
  = map minorVersion (seq 1 k) ->
  Z.of_nat (k + length l) < 2 ^ 53 ->
  exists d',
    addVersions l d = Some d'
    /\ map DocumentModel.v_version (DocumentModel.versions d')
       = map minorVersion (seq 1 (k + length l))
    /\ (l <> [] ->
        DocumentModel.metadata_version d' = minorVersion (k + length l)).
Proof.
  revert d k. induction l as [| u l IH]; intros d k Hvs Hk.
  - exists d. simpl. rewrite Nat.add_0_r. split; [reflexivity |].
    split; [exact Hvs | congruence].
  - assert (Hnext : DocumentModel.getNextVersion d
                    = Some (minorVersion (S k))).
    { destruct k as [| k].
      - simpl in Hvs. apply map_eq_nil in Hvs.
        unfold DocumentModel.getNextVersion. rewrite Hvs. reflexivity.
      - rewrite seq_S, map_app in Hvs. simpl in Hvs.
        destruct (DocumentModel.versions d) as [| v0 vs0] eqn:Evs
          using rev_ind.
        + symmetry in Hvs. now apply app_eq_nil in Hvs.
        + clear IHvs0. rewrite map_app in Hvs. simpl in Hvs.
          apply app_inj_tail in Hvs. destruct Hvs as [_ Hv].
          apply (getNextVersion_after d (S k) v0).
          * rewrite Evs. apply last_snoc.
          * exact Hv.
          * simpl in Hk. lia. }
    simpl addVersions. unfold DocumentModel.addVersion. rewrite Hnext.
    match goal with
    | |- context [addVersions l ?x] => set (d1 := x)
    end.
    destruct (IH d1 (S k)) as (d' & Hadd & Hvs' & Hmeta).
    + unfold d1. cbn [DocumentModel.versions]. rewrite map_app, Hvs.
      simpl map at 2. cbn [DocumentModel.v_version].
      now rewrite seq_S, map_app.
    + simpl in Hk |- *. lia.
    + exists d'. split; [exact Hadd |].
      replace (k + length (u :: l))%nat with (S k + length l)%nat
        by (simpl; lia).
      split; [exact Hvs' | intros _].
      destruct l as [| u' l'].
      * simpl in Hadd. injection Hadd as <-.
        unfold d1. cbn [DocumentModel.metadata_version].
        f_equal. simpl. lia.
      * apply Hmeta. discriminate.
Qed.

(** X19: on a document without versions, a series of calls of
    addVersion numbers the versions 1.1, 1.2, 1.3 and so on, one per call and
    in the order of the calls, and leaves the number of the last one in
    metadata.version. *)
Theorem X19_versions_numbered (l : list upload) (d : DocumentModel.t) :
  DocumentModel.versions d = [] ->
  Z.of_nat (length l) < 2 ^ 53 ->
  exists d',
    addVersions l d = Some d'
    /\ map DocumentModel.v_version (DocumentModel.versions d')
       = map minorVersion (seq 1 (length l))
    /\ (l <> [] -> DocumentModel.metadata_version d' = minorVersion (length l)).
Proof.
  intros Hvs Hl. apply (addVersions_from l d 0); [now rewrite Hvs | exact Hl].
Qed.

Lemma X18_type_and_preview_witness :
  DocumentModel.isPDF (DocumentModel.preSave documentNew) = true
  <-> DocumentModel.type (DocumentModel.preSave documentNew) = "pdf".
Proof.
  exact (proj1 (X18_type_and_preview documentNew eq_refl)).
Defined.

Lemma X19_versions_numbered_witness :
  exists d',
    addVersions threeUploads documentNew = Some d'
    /\ map DocumentModel.v_version (DocumentModel.versions d')
       = ["1.1"; "1.2"; "1.3"].
Proof.
  destruct (X19_versions_numbered threeUploads documentNew)
    as (d' & Hadd & Hvs & _); [reflexivity | simpl; lia |].
  exists d'. split; [exact Hadd | exact Hvs].
Defined.

End DocumentFacts.


(** ** middleware/auth.js *)

Section AuthFacts.
Import JS.
Context {payload : Type}.
Variable verify : string -> @Auth.verified payload.
Variable findUser : payload -> Auth.found.

Lemma slice_append (p t : string) :
  Auth.slice (String.length p) (p +:+ t) = t.
Proof. induction p as [| c p IH]; simpl; [now destruct t | exact IH]. Qed.

Lemma prefix_append (p t : string) : String.prefix p (p +:+ t) = true.
Proof.
  induction p as [| c p IH]; simpl; [now destruct t |].
  destruct (Ascii.ascii_dec c c); [exact IH | contradiction].
Qed.

(** X20: the token of the header "Bearer t" is [t], for every text [t];
    a header that does not start with "Bearer " is its own token. *)
Theorem X20_tokenOf (t h : string) :
  Auth.tokenOf ("Bearer " +:+ t) = t
  /\ (String.prefix "Bearer " h = false -> Auth.tokenOf h = h).
Proof.
  split.
  - unfold Auth.tokenOf. rewrite prefix_append.
    exact (slice_append "Bearer " t).
  - intros H. unfold Auth.tokenOf. now rewrite H.
Qed.

(** X21: [auth] lets a request through only with a header that carries a
    non-empty token which the verifier decodes to a user who exists and is
    active, and [req.user] is then made of that user, its [id] being the
    user's ObjectId; every other request is answered 401 or 500. *)
Theorem X21_auth (authHeader : option string) :
  (forall r,
     Auth.auth verify findUser authHeader = Ok r ->
     exists h p u,
       authHeader = Some h
       /\ Auth.tokenOf h <> ""
       /\ verify (Auth.tokenOf h) = Auth.Decoded p
       /\ findUser p = Auth.Found u
       /\ Auth.isActive u = true
       /\ r = Auth.ofUser u
       /\ Auth.id r = IdObject (Auth._id u))
  /\ (forall code message,
        Auth.auth verify findUser authHeader = Fail code message ->
        code = 401 \/ code = 500).
Proof.
  unfold Auth.auth. split.
  - intros r. destruct authHeader as [h |]; [| discriminate].
    destruct (truthy_string h); simpl; [| discriminate].
    destruct (truthy_string (Auth.tokenOf h)) eqn:Et; simpl; [| discriminate].
    destruct (verify (Auth.tokenOf h)) as [p | | |] eqn:Ev; try discriminate.
    destruct (findUser p) as [u | |] eqn:Ef; try discriminate.
    destruct (Auth.isActive u) eqn:Ea; simpl; [| discriminate].
    intros [= <-]. exists h, p, u.
    repeat split; try assumption.
    intros E. rewrite E in Et. discriminate.
  - intros code message.
    repeat match goal with
           | |- context [match ?x with _ => _ end] => destruct x
           end; simpl; intros [= <- _]; auto; discriminate.
Qed.

(** X22: [optionalAuth] attaches [req.user] exactly when [auth] lets the
    same request through, and attaches the same [req.user]. *)
Theorem X22_optionalAuth (authHeader : option string) (r : Auth.reqUser) :
  Auth.optionalAuth verify findUser authHeader = Some r
  <-> Auth.auth verify findUser authHeader = Ok r.
Proof.
  unfold Auth.optionalAuth, Auth.auth.
  destruct authHeader as [h |]; [| split; discriminate].
  destruct (truthy_string h); simpl; [| split; discriminate].
  destruct (truthy_string (Auth.tokenOf h)); simpl; [| split; discriminate].
  destruct (verify (Auth.tokenOf h)) as [p | | |]; try (split; discriminate).
  destruct (findUser p) as [u | |]; try (split; discriminate).
  destruct (Auth.isActive u); simpl; split; congruence.
Qed.

End AuthFacts.

Section AuthExamples.
Import JS.

Lemma X21_auth_witness :
  exists u,
    Auth.auth verifyExample findUserExample (Some "Bearer abc")
    = Ok (Auth.ofUser u)
    /\ Auth.isActive u = true.
Proof.
  destruct (X21_auth verifyExample findUserExample (Some "Bearer abc"))
    as [H _].
  destruct (H _ eq_refl) as (h & p & u & _ & _ & _ & Hf & Ha & Hr & _).
  exists u. split; [| exact Ha]. rewrite <- Hr. reflexivity.
Defined.

End AuthExamples.


(** ** routes/dashboard.js: the costs of steps that follow the schema *)

Section SchemaCostFacts.
Import JS.

(** X23: when every stored Step holds under [costs] what the Step schema
    declares (no [amount], no [category]), the [$match] stage of the costs
    pipeline keeps no Step and the costs report is empty. *)
Theorem X23_costs_empty_for_schema_steps (st : store) :
  Forall (fun s => declaredCosts (Step.costs s)) (steps st) ->
  List.filter Dashboard.costsMatch (steps st) = []
  /\ Dashboard.byCategory st = [].
Proof.
  intros H.
  assert (Hnone : List.filter Dashboard.costsMatch (steps st) = []).
  { apply filter_Forall_false. eapply List.Forall_impl; [| exact H].
    intros s Hs. unfold Dashboard.costsMatch, declaredCosts in *.
    destruct (Step.costs s) as [| d | l].
    - apply andb_false_r.
    - destruct Hs as [Ha _]. unfold Dashboard.amountPositive.
      rewrite Ha. apply andb_false_r.
    - destruct Hs. }
  split; [exact Hnone |].
  unfold Dashboard.byCategory, Dashboard.costsByCategory.
  now rewrite Hnone.
Qed.

Lemma X23_costs_empty_for_schema_steps_witness :
  Dashboard.byCategory exampleStore = [].
Proof.
  apply (X23_costs_empty_for_schema_steps exampleStore).
  repeat constructor.
Defined.

End SchemaCostFacts.


(* ------------------------------------------------------------------ *)
(** ** The step routes *)
(* ------------------------------------------------------------------ *)

Section StepRouteFacts.
Import JS.

Lemma countStatus_three (l : list Step.t) :
  (StepRoutes.countStatus "completed" l
   + StepRoutes.countStatus "in_progress" l
   + StepRoutes.countStatus "todo" l <= length l)%nat.
Proof.
  unfold StepRoutes.countStatus.
  induction l as [| s l IH]; simpl; [lia |].
  destruct (String.eqb_spec (Step.status s) "completed") as [E | _].
  - rewrite E. simpl. lia.
  - destruct (String.eqb_spec (Step.status s) "in_progress") as [E | _].
    + rewrite E. simpl. lia.
    + destruct (String.eqb (Step.status s) "todo"); simpl; lia.
Qed.

Lemma flagged_not_completed (g : nat -> Step.t -> bool)
  (l : list Step.t) :
  (forall i s, g i s = true ->
               String.eqb (Step.status s) "completed" = false) ->
  (length (List.filter (fun b : bool => b) (imap g l))
   + StepRoutes.countStatus "completed" l <= length l)%nat.
Proof.
  unfold StepRoutes.countStatus. revert g.
  induction l as [| s l IH]; intros g Hg; simpl; [lia |].
  specialize (IH (g ∘ S) (fun i => Hg (S i))).
  destruct (g 0%nat s) eqn:E.
  - rewrite (Hg _ _ E). simpl. lia.
  - destruct (String.eqb (Step.status s) "completed"); simpl; lia.
Qed.

Lemma isOverdue_not_completed (now : Date) (s : Step.t) :
  Step.isOverdue now s = true ->
  String.eqb (Step.status s) "completed" = false.
Proof.
  unfold Step.isOverdue. destruct (Step.deadline _); [| discriminate].
  destruct (String.eqb (Step.status s) "completed");
    [discriminate | reflexivity].
Qed.

(** X24: GET /api/steps/property/:propertyId, when it answers: the steps
    are the active steps of that property and no others, in ascending
    [order]; [total] is their number; [completed], [inProgress] and
    [todo] together never exceed [total]; and neither do [overdue] and
    [completed] together, whatever the clock shows at each reading,
    because a completed step never counts as overdue. *)
Theorem X24_step_stats (st : store) (userId : idValue)
  (propertyId : ObjectId) (clock : nat -> Date)
  (d : StepRoutes.stepsData) :
  StepRoutes.getPropertySteps st userId propertyId clock = Ok d ->
  ascending Step.order (StepRoutes.d_steps d)
  /\ (forall s, In s (StepRoutes.d_steps d)
                <-> In s (steps st) /\ Step.property s = propertyId
                    /\ Step.isActive s = true)
  /\ StepRoutes.total (StepRoutes.d_stats d)
     = length (StepRoutes.d_steps d)
  /\ (StepRoutes.completed (StepRoutes.d_stats d)
      + StepRoutes.inProgress (StepRoutes.d_stats d)
      + StepRoutes.todo (StepRoutes.d_stats d)
      <= StepRoutes.total (StepRoutes.d_stats d))%nat
  /\ (StepRoutes.overdue (StepRoutes.d_stats d)
      + StepRoutes.completed (StepRoutes.d_stats d)
      <= StepRoutes.total (StepRoutes.d_stats d))%nat.
Proof.
  unfold StepRoutes.getPropertySteps.
  destruct (List.find _ (properties st)); [| discriminate].
  intros [= <-].
  cbn [StepRoutes.d_steps StepRoutes.d_stats StepRoutes.total
       StepRoutes.completed StepRoutes.inProgress StepRoutes.todo
       StepRoutes.overdue].
  split; [apply sortAsc_ascending |].
  split.
  { intros s. unfold sortAsc. rewrite stableSort_In, filter_In.
    rewrite andb_true_iff, String.eqb_eq. tauto. }
  split; [reflexivity |].
  split; [apply countStatus_three |].
  apply flagged_not_completed.
  intros i s. apply isOverdue_not_completed.
Qed.

Lemma X24_step_stats_witness :
  exists d,
    StepRoutes.getPropertySteps exampleStore (Routes.authenticated caller)
      (Property._id propertyOwned) (fun _ => day 10) = Ok d
    /\ StepRoutes.total (StepRoutes.d_stats d) = 2%nat
    /\ (StepRoutes.overdue (StepRoutes.d_stats d)
        + StepRoutes.completed (StepRoutes.d_stats d)
        <= StepRoutes.total (StepRoutes.d_stats d))%nat.
Proof.
  eexists. split; [reflexivity |]. split; [reflexivity |].
  exact (proj2 (proj2 (proj2 (proj2
    (X24_step_stats exampleStore (Routes.authenticated caller)
       (Property._id propertyOwned) (fun _ => day 10) _ eq_refl))))).
Defined.

(** What [save] leaves untouched. *)
Lemma save_keeps (s : Step.t) :
  Step.status (Step.save s) = Step.status s
  /\ Step._id (Step.save s) = Step._id s
  /\ Step.property (Step.save s) = Step.property s
  /\ Step.order (Step.save s) = Step.order s
  /\ Step.checklist (Step.save s) = Step.checklist s
  /\ Step.step_dates (Step.save s) = Step.step_dates s.
Proof.
  unfold Step.save, Step.preSave.
  destruct (_ || _); [| repeat split].
  destruct (String.eqb (Step.status s) "completed"); [repeat split |].
  destruct (String.eqb (Step.status s) "in_progress"); [repeat split |].
  destruct (String.eqb (Step.status s) "todo"); repeat split.
Qed.

Lemma save_completed (s : Step.t) :
  Step.status s = "completed" ->
  Step.completionPercentage s = num 100 ->
  Step.completionPercentage (Step.save s) = num 100.
Proof.
  intros Hst Hp. unfold Step.save, Step.preSave. rewrite Hst.
  destruct (_ || _); [reflexivity | exact Hp].
Qed.

Lemma save_unmodified (s : Step.t) :
  Step.isModified s "checklist" || Step.isModified s "status" = false ->
  Step.save s = Step.stored s.
Proof. intros H. unfold Step.save, Step.preSave. now rewrite H. Qed.

(** The outcome of the change of status on a step as loaded. *)
Lemma applyStatus_spec (status : string) (now : Date) (loaded : Step.t) :
  let step' := StepRoutes.applyStatus status now (Step.stored loaded) in
  Step.status step' = status
  /\ Step._id step' = Step._id loaded
  /\ Step.property step' = Step.property loaded
  /\ Step.order step' = Step.order loaded
  /\ Step.checklist step' = Step.checklist loaded
  /\ (status = "completed" ->
      Step.completionPercentage step' = num 100
      /\ Step.actualEnd (Step.step_dates step') = Some now)
  /\ (status = Step.status loaded -> status <> "completed" ->
      step' = Step.stored loaded).
Proof.
  unfold StepRoutes.applyStatus.
  cbn [Step.stored Step.status].
  destruct (String.eqb_spec status "in_progress") as [Ein | Ein];
    cbn [andb].
  - destruct (String.eqb_spec (Step.status loaded) "todo") as [Etodo | Etodo].
    + unfold Step.start. cbn [Step.stored Step.status]. rewrite Etodo.
      cbn [String.eqb Ascii.eqb Bool.eqb].
      match goal with |- context [Step.save ?x] =>
        destruct (save_keeps x) as (H1 & H2 & H3 & H4 & H5 & H6) end.
      rewrite H1, H2, H3, H4, H5.
      cbn. subst status.
      repeat split; try discriminate.
    + subst status. cbn [String.eqb Ascii.eqb Bool.eqb].
      match goal with |- context [Step.save ?x] =>
        destruct (save_keeps x) as (H1 & H2 & H3 & H4 & H5 & H6) end.
      rewrite H1, H2, H3, H4, H5. cbn.
      refine (conj eq_refl (conj eq_refl (conj eq_refl (conj eq_refl
                (conj eq_refl (conj _ _)))))); [discriminate |].
      intros E _. rewrite save_unmodified.
      * destruct loaded; cbn in *; subst; reflexivity.
      * cbn. rewrite <- E. reflexivity.
  - destruct (String.eqb_spec status "completed") as [Ec | Ec].
    + unfold Step.complete.
      match goal with |- context [Step.save ?x] =>
        destruct (save_keeps x) as (H1 & H2 & H3 & H4 & H5 & H6);
        pose proof (save_completed x eq_refl eq_refl) as H7 end.
      rewrite H1, H2, H3, H4, H5, H6, H7. cbn. subst status.
      refine (conj eq_refl (conj eq_refl (conj eq_refl (conj eq_refl
                (conj eq_refl (conj _ _)))))).
      * intros _. split; reflexivity.
      * intros _ E. now contradiction E.
    + match goal with |- context [Step.save ?x] =>
        destruct (save_keeps x) as (H1 & H2 & H3 & H4 & H5 & H6) end.
      rewrite H1, H2, H3, H4, H5. cbn.
      refine (conj eq_refl (conj eq_refl (conj eq_refl (conj eq_refl
                (conj eq_refl (conj _ _)))))).
      * intros E. now contradiction Ec.
      * intros E _. rewrite save_unmodified.
        -- destruct loaded; cbn in *; subst; reflexivity.
        -- cbn. rewrite E, String.eqb_refl. reflexivity.
Qed.

Lemma replaceStep_ids (s : Step.t) (l : list Step.t) :
  map Step._id (StepRoutes.replaceStep s l) = map Step._id l.
Proof.
  induction l as [| x l IH]; simpl; [reflexivity |].
  destruct (String.eqb_spec (Step._id x) (Step._id s)) as [E | _]; simpl.
  - now rewrite E.
  - now rewrite IH.
Qed.

Lemma replaceStep_In (s loaded : Step.t) (l : list Step.t) :
  List.find (fun x => String.eqb (Step._id x) (Step._id s)) l
  = Some loaded ->
  In s (StepRoutes.replaceStep s l).
Proof.
  induction l as [| x l IH]; simpl; [discriminate |].
  destruct (String.eqb (Step._id x) (Step._id s)); simpl.
  - now left.
  - intros H. right. now apply IH.
Qed.

Lemma find_id {A : Type} (key : A -> string) (id : string) (l : list A)
  (x : A) :
  List.find (fun y => String.eqb (key y) id) l = Some x ->
  key x = id /\ In x l.
Proof.
  intros H. apply find_some in H. destruct H as [Hin Hid].
  now apply String.eqb_eq in Hid.
Qed.

(** X25: PUT /api/steps/:id/status, when it answers for the step stored
    under [id]: the requested status is one of the five of the schema and
    is the status of the returned step, also where the route goes through
    [start] or [complete]; identifier, property, order and checklist are
    the stored ones; a request for [completed] leaves 100 percent and the
    present time as the actual end, whatever the step was before; a
    request for the status that the step already has, other than
    [completed], writes the step back as it was; and the collection has
    the same identifiers as before and holds the returned step. *)
Theorem X25_status_update (st : store) (userId : idValue) (id : ObjectId)
  (status : string) (now : Date) (loaded step' : Step.t) (st' : store) :
  List.find (fun s => String.eqb (Step._id s) id) (steps st)
  = Some loaded ->
  StepRoutes.putStatus st userId id status now = (Ok step', st') ->
  In status Step.statusEnum
  /\ Step.status step' = status
  /\ Step._id step' = id
  /\ Step.property step' = Step.property loaded
  /\ Step.order step' = Step.order loaded
  /\ Step.checklist step' = Step.checklist loaded
  /\ (status = "completed" ->
      Step.completionPercentage step' = num 100
      /\ Step.actualEnd (Step.step_dates step') = Some now)
  /\ (status = Step.status loaded -> status <> "completed" ->
      step' = Step.stored loaded)
  /\ map Step._id (steps st') = map Step._id (steps st)
  /\ In step' (steps st').
Proof.
  intros Hfind. unfold StepRoutes.putStatus. rewrite Hfind.
  destruct (existsb (String.eqb status) Step.statusEnum) eqn:Hen;
    cbn [negb]; [| discriminate].
  destruct (Routes.findProperty st _); [| discriminate].
  destruct (StepRoutes.refused st userId t); [discriminate |].
  intros [= <- <-].
  destruct (applyStatus_spec status now loaded)
    as (H1 & H2 & H3 & H4 & H5 & H6 & H7).
  destruct (find_id Step._id id _ _ Hfind) as [Hid _].
  split.
  { apply existsb_exists in Hen. destruct Hen as (x & Hx & Ex).
    apply String.eqb_eq in Ex. now subst x. }
  split; [exact H1 |]. split; [now rewrite H2 |].
  split; [exact H3 |]. split; [exact H4 |]. split; [exact H5 |].
  split; [exact H6 |]. split; [exact H7 |].
  cbn [steps StepRoutes.withSteps].
  split; [apply replaceStep_ids |].
  apply replaceStep_In with (loaded := loaded).
  rewrite H2, Hid. exact Hfind.
Qed.

Lemma X25_status_update_witness :
  exists step' st',
    StepRoutes.putStatus sharedStore (Routes.authenticated caller)
      (Step._id stepShared) "completed" (day 10) = (Ok step', st')
    /\ Step.status step' = "completed"
    /\ Step.completionPercentage step' = num 100
    /\ In step' (steps st').
Proof.
  do 2 eexists. split; [reflexivity |].
  pose proof
    (X25_status_update sharedStore (Routes.authenticated caller)
       (Step._id stepShared) "completed" (day 10) stepShared _ _
       eq_refl eq_refl) as H.
  split; [exact (proj1 (proj2 H)) |].
  split; [exact (proj1 (proj1 (proj2 (proj2 (proj2 (proj2 (proj2
            (proj2 H)))))) eq_refl)) |].
  exact (proj2 (proj2 (proj2 (proj2 (proj2 (proj2 (proj2 (proj2
           (proj2 H))))))))).
Defined.

(** X26: PUT /api/steps/:id/status with the identifier that the
    authentication middleware puts in the request, an ObjectId: the owner
    test compares a string with it and never succeeds, so a user who is
    not in the share list of the step's Property is refused with 403 and
    nothing is written, the owner of the Property included. *)
Theorem X26_status_refused_outside_share_list (st : store)
  (user id : ObjectId) (status : string) (now : Date) (loaded : Step.t)
  (property : Property.t) :
  In status Step.statusEnum ->
  List.find (fun s => String.eqb (Step._id s) id) (steps st)
  = Some loaded ->
  Routes.findProperty st (Step.property loaded) = Some property ->
  (forall p sh, In p (properties st) ->
                Property._id p = Property._id property ->
                In sh (Property.sharedWith p) ->
                Property.user sh <> user) ->
  StepRoutes.putStatus st (Routes.authenticated user) id status now
  = (Fail 403 "Accès refusé", st).
Proof.
  intros Hen Hfind Hprop Hshare. unfold StepRoutes.putStatus.
  assert (existsb (String.eqb status) Step.statusEnum = true) as ->.
  { apply existsb_exists. exists status. split; [exact Hen |].
    apply String.eqb_refl. }
  cbn [negb]. rewrite Hfind. cbn [Step.stored Step.property].
  rewrite Hprop.
  assert (StepRoutes.refused st (Routes.authenticated user) property
          = true) as ->; [| reflexivity].
  unfold StepRoutes.refused, Routes.authenticated.
  cbn [strictNeString strictEqString negb].
  rewrite find_all_false; [reflexivity |].
  intros p Hp.
  destruct (String.eqb_spec (Property._id p) (Property._id property))
    as [E | _]; [| reflexivity].
  cbn [andb]. apply existsb_all_false. intros sh Hsh.
  apply matchesId_other. cbn [toString]. now apply (Hshare p sh).
Qed.

Lemma X26_status_refused_outside_share_list_witness :
  Property.owner propertyOwned = caller
  /\ StepRoutes.putStatus exampleStore (Routes.authenticated caller)
       (Step._id stepCancelled) "todo" (day 10)
     = (Fail 403 "Accès refusé", exampleStore).
Proof.
  split; [reflexivity |].
  apply (X26_status_refused_outside_share_list exampleStore caller
           (Step._id stepCancelled) "todo" (day 10) stepCancelled
           propertyOwned).
  - simpl. tauto.
  - reflexivity.
  - reflexivity.
  - intros p sh Hp Hid Hsh.
    destruct Hp as [<- | [<- | [<- | []]]];
      first [discriminate Hid | destruct Hsh].
Defined.

Lemma findByIdAndUpdate_ids (id : ObjectId) (o : Z) (l : list Step.t) :
  map Step._id (StepRoutes.findByIdAndUpdate id o l) = map Step._id l.
Proof.
  induction l as [| x l IH]; simpl; [reflexivity |].
  destruct (String.eqb (Step._id x) id); simpl; [reflexivity |].
  now rewrite IH.
Qed.

Lemma findByIdAndUpdate_other (id : ObjectId) (o : Z) (l : list Step.t)
  (s : Step.t) :
  Step._id s <> id ->
  In s (StepRoutes.findByIdAndUpdate id o l) <-> In s l.
Proof.
  intros Hne. induction l as [| x l IH]; simpl; [tauto |].
  destruct (String.eqb_spec (Step._id x) id) as [E | E]; simpl.
  - split;
      (intros [Heq | H];
       [exfalso; apply Hne; rewrite <- Heq; exact E | now right]).
  - rewrite IH. tauto.
Qed.

Lemma findByIdAndUpdate_order (id : ObjectId) (o : Z) (l : list Step.t)
  (s : Step.t) :
  NoDup (map Step._id l) ->
  In s (StepRoutes.findByIdAndUpdate id o l) ->
  Step._id s = id -> Step.order s = o.
Proof.
  induction l as [| x l IH]; simpl; [tauto |].
  intros Hnd. apply NoDup_cons in Hnd. destruct Hnd as [Hx Hnd].
  destruct (String.eqb_spec (Step._id x) id) as [E | E]; simpl.
  - intros [<- | Hin] Hid; [reflexivity |].
    exfalso. apply Hx. apply list_elem_of_In.
    rewrite E, <- Hid. now apply in_map.
  - intros [<- | Hin] Hid; [now contradiction E |]. now apply IH.
Qed.

Lemma updates_ids (items : list (ObjectId * Z)) (l : list Step.t) :
  map Step._id (updates items l) = map Step._id l.
Proof.
  unfold updates. revert l.
  induction items as [| [id o] items IH]; intros l; simpl;
    [reflexivity |].
  rewrite IH. apply findByIdAndUpdate_ids.
Qed.

Lemma updates_other (items : list (ObjectId * Z)) (l : list Step.t)
  (s : Step.t) :
  ~ In (Step._id s) (map fst items) ->
  In s (updates items l) <-> In s l.
Proof.
  unfold updates. revert l.
  induction items as [| [id o] items IH]; intros l Hni; simpl;
    [tauto |].
  simpl in Hni. rewrite IH by tauto.
  apply findByIdAndUpdate_other. intros E. apply Hni. now left.
Qed.

Lemma updates_order (items : list (ObjectId * Z)) (l : list Step.t)
  (s : Step.t) (o : Z) :
  NoDup (map Step._id l) ->
  NoDup (map fst items) ->
  In s (updates items l) ->
  In (Step._id s, o) items ->
  Step.order s = o.
Proof.
  revert l. induction items as [| [id o0] items IH]; intros l Hl Hi;
    [simpl; tauto |].
  change (updates ((id, o0) :: items) l)
    with (updates items (StepRoutes.findByIdAndUpdate id o0 l)).
  simpl in Hi. apply NoDup_cons in Hi. destruct Hi as [Hid Hi].
  intros Hin [Heq | Hrest].
  - injection Heq as -> ->.
    apply (findByIdAndUpdate_order (Step._id s) o l); [exact Hl | | reflexivity].
    apply (updates_other items); [| exact Hin].
    intros H. apply Hid. now apply list_elem_of_In.
  - apply (IH (StepRoutes.findByIdAndUpdate id o0 l));
      [now rewrite findByIdAndUpdate_ids | exact Hi | exact Hin | exact Hrest].
Qed.

(** X27: POST /api/steps/reorder, when it answers, identifiers being
    unique in the collection and in the request: the collection keeps its
    identifiers; every stored step that the request names has the order
    asked for, an integer not below 1, and this whatever Property the
    step belongs to, since the route checks the ownership of
    [propertyId] only; a step that the request does not name is left as
    it was; and the answer lists the active steps of [propertyId], in
    ascending order. *)
Theorem X27_reorder (st : store) (userId : idValue) (propertyId : ObjectId)
  (items : list (ObjectId * Z)) (l : list Step.t) (st' : store) :
  NoDup (map Step._id (steps st)) ->
  NoDup (map fst items) ->
  StepRoutes.reorder st userId propertyId items = (Ok l, st') ->
  map Step._id (steps st') = map Step._id (steps st)
  /\ (forall s' o, In s' (steps st') -> In (Step._id s', o) items ->
                   Step.order s' = o /\ 1 <= o)
  /\ (forall s, ~ In (Step._id s) (map fst items) ->
                In s (steps st') <-> In s (steps st))
  /\ ascending Step.order l
  /\ (forall s', In s' l
                 <-> In s' (steps st') /\ Step.property s' = propertyId
                     /\ Step.isActive s' = true).
Proof.
  intros Hst Hitems. unfold StepRoutes.reorder.
  destruct (forallb _ items) eqn:Hvalid; cbn [negb]; [| discriminate].
  destruct (List.find _ (properties st)); [| discriminate].
  fold (updates items (steps st)).
  intros [= <- <-]. cbn [steps StepRoutes.withSteps].
  split; [apply updates_ids |].
  split.
  { intros s' o Hin Hitem. split.
    - now apply (updates_order items (steps st)).
    - rewrite forallb_forall in Hvalid.
      specialize (Hvalid _ Hitem). cbn in Hvalid. lia. }
  split; [intros s Hni; now apply updates_other |].
  split; [apply sortAsc_ascending |].
  intros s'. unfold sortAsc. rewrite stableSort_In, filter_In.
  rewrite andb_true_iff, String.eqb_eq. tauto.
Qed.

Lemma X27_reorder_witness :
  exists l st',
    StepRoutes.reorder exampleStore (Routes.authenticated caller)
      (Property._id propertyOwned) [(Step._id stepForeign, 1)]
    = (Ok l, st')
    /\ Step.property stepForeign <> Property._id propertyOwned
    /\ In (StepRoutes.set_order 1 stepForeign) (steps st')
    /\ Step.order (StepRoutes.set_order 1 stepForeign) = 1.
Proof.
  do 2 eexists. split; [reflexivity |]. split; [discriminate |].
  split; [simpl; tauto |].
  refine (proj1 (proj1 (proj2
    (X27_reorder exampleStore (Routes.authenticated caller)
       (Property._id propertyOwned) [(Step._id stepForeign, 1)] _ _
       _ _ eq_refl)) (StepRoutes.set_order 1 stepForeign) 1 _ _)).
  - apply (bool_decide_unpack _). vm_compute. exact I.
  - apply (bool_decide_unpack _). vm_compute. exact I.
  - simpl. tauto.
  - simpl. tauto.
Defined.
End StepRouteFacts.


(* ------------------------------------------------------------------ *)
(** ** The soft delete and the status of a Property *)
(* ------------------------------------------------------------------ *)

Section PropertyRouteFacts.
Import JS.

(** The hook touches the photos only. *)
Lemma preSave_photos_only (p : Property.t) :
  exists l, Property.preSave p = Property.set_photos l p.
Proof.
  unfold Property.preSave.
  destruct (_ <? _)%nat; [| exists (Property.photos p); now destruct p].
  destruct (_ =? _)%nat; [eexists; reflexivity |].
  destruct (_ <? _)%nat; [eexists; reflexivity |].
  exists (Property.photos p); now destruct p.
Qed.

Lemma replaceProperty_first (s : Property.t) (g : Property.t -> bool)
  (l : list Property.t) (p : Property.t) :
  In p l ->
  Property._id p = Property._id s ->
  g s = true ->
  (forall x, g x = true -> Property._id x = Property._id s) ->
  List.find g (PropertyRoutes.replaceProperty s l) = Some s.
Proof.
  intros Hin Hid Hs Hg. induction l as [| x l IH]; simpl in *;
    [contradiction |].
  destruct (String.eqb_spec (Property._id x) (Property._id s)) as [E | E].
  - simpl. now rewrite Hs.
  - simpl. destruct (g x) eqn:Egx.
    + exfalso. apply E. now apply Hg.
    + apply IH. destruct Hin as [-> | Hin]; [now contradiction E | exact Hin].
Qed.

Lemma replaceProperty_In (s x : Property.t) (l : list Property.t) :
  NoDup (map Property._id l) ->
  In x (PropertyRoutes.replaceProperty s l) ->
  Property._id x = Property._id s ->
  x = s.
Proof.
  induction l as [| y l IH]; simpl; [tauto |].
  intros Hnd. apply NoDup_cons in Hnd. destruct Hnd as [Hy Hnd].
  destruct (String.eqb_spec (Property._id y) (Property._id s)) as [E | E];
    simpl.
  - intros [<- | Hin] Hid; [reflexivity |].
    exfalso. apply Hy. apply list_elem_of_In.
    rewrite E, <- Hid. now apply in_map.
  - intros [<- | Hin] Hid; [now contradiction E |]. now apply IH.
Qed.

Lemma findOwned_Some (st : store) (userId : idValue) (id : ObjectId)
  (p : Property.t) :
  PropertyRoutes.findOwned st userId id = Some p ->
  In p (properties st) /\ Property._id p = id
  /\ matchesId (Property.owner p) userId = true.
Proof.
  unfold PropertyRoutes.findOwned. intros H. apply find_some in H.
  destruct H as [Hin H]. apply andb_prop in H. destruct H as [H1 H2].
  apply String.eqb_eq in H1. tauto.
Qed.

(** X28: DELETE /api/properties/:id, when it answers, identifiers being
    unique in the collection: the Property stays in the collection with
    [isActive] false; GET /api/properties/:id, asked with a parameter
    that is cast to its identifier, still answers with it for the same
    user, since that query does not look at [isActive], while no answer
    of GET /api/properties holds it any more; the steps, documents and
    events are left as they were. *)
Theorem X28_soft_delete (regex : string -> option (string -> bool))
  (rank : Property.t -> Z) (cast : string -> option ObjectId)
  (st : store) (userId : idValue) (id : ObjectId) (st' : store) :
  NoDup (map Property._id (properties st)) ->
  PropertyRoutes.deleteProperty st userId id = (Ok tt, st') ->
  (forall param,
     cast param = Some id ->
     exists pd, Routes.getProperty cast st' userId param = Ok pd
                /\ Property._id (Routes.d_property pd) = id
                /\ Property.isActive (Routes.d_property pd) = false)
  /\ (forall q data e,
        Routes.listProperties regex rank st' userId q = Ok data ->
        In e (Routes.l_properties data) ->
        Property._id (Routes.e_property e) <> id)
  /\ steps st' = steps st
  /\ documents st' = documents st
  /\ events st' = events st.
Proof.
  intros Hnd. unfold PropertyRoutes.deleteProperty.
  destruct (PropertyRoutes.findOwned st userId id) as [p |] eqn:Hfind;
    [| discriminate].
  unfold PropertyRoutes.save. intros [= <-].
  destruct (findOwned_Some _ _ _ _ Hfind) as (Hin & Hid & Hown).
  destruct (preSave_photos_only (PropertyRoutes.set_isActive false p))
    as [photos Hsaved].
  rewrite Hsaved.
  set (saved := Property.set_photos photos
                  (PropertyRoutes.set_isActive false p)).
  assert (Property._id saved = id) as Hsid by exact Hid.
  split; [| split; [| repeat split]].
  - intros param Hcast. unfold Routes.getProperty. rewrite Hcast.
    cbn [properties PropertyRoutes.withProperties].
    rewrite (replaceProperty_first saved _ (properties st) p Hin).
    + eexists. split; [reflexivity |]. split; [exact Hsid | reflexivity].
    + now rewrite Hid.
    + unfold Routes.ownerOrShared. rewrite Hsid, String.eqb_refl.
      change (Property.owner saved) with (Property.owner p).
      now rewrite Hown.
    + intros x Hx. apply andb_prop in Hx. destruct Hx as [H1 _].
      apply String.eqb_eq in H1. now rewrite H1.
  - intros q data e Hlist He Heq.
    unfold Routes.listProperties in Hlist.
    destruct (negb (Routes.validList q)); [discriminate |].
    destruct (Routes.listThrows regex q); [discriminate |].
    injection Hlist as <-. cbn [Routes.l_properties] in He.
    apply in_map_iff in He. destruct He as (x & <- & Hx).
    cbn [Routes.e_property] in Heq.
    apply list_elem_of_In, subseteq_take, subseteq_drop in Hx.
    apply list_elem_of_In in Hx.
    apply stableSort_In in Hx. unfold sortAsc in Hx.
    apply stableSort_In, filter_In in Hx. destruct Hx as [Hx Hf].
    cbn [properties PropertyRoutes.withProperties] in Hx.
    assert (x = saved) as ->.
    { apply (replaceProperty_In saved x (properties st) Hnd Hx).
      exact (eq_trans Heq (eq_sym Hsid)). }
    unfold Routes.listFilter in Hf.
    do 7 (apply andb_prop in Hf; destruct Hf as [Hf _]).
    apply andb_prop in Hf. destruct Hf as [_ Hf].
    discriminate Hf.
Qed.

Lemma X28_soft_delete_witness :
  exists st',
    PropertyRoutes.deleteProperty exampleStore (Routes.authenticated caller)
      (Property._id propertyOwned) = (Ok tt, st')
    /\ steps st' = steps exampleStore
    /\ exists pd,
         Routes.getProperty castHex st' (Routes.authenticated caller)
           (Property._id propertyOwned) = Ok pd
         /\ Property._id (Routes.d_property pd) = Property._id propertyOwned
         /\ Property.isActive (Routes.d_property pd) = false.
Proof.
  eexists. split; [reflexivity |].
  assert (NoDup (map Property._id (properties exampleStore))) as Hnd.
  { apply (bool_decide_unpack _). vm_compute. exact I. }
  pose proof
    (X28_soft_delete (fun _ => None) Property.createdAt castHex exampleStore
       (Routes.authenticated caller) (Property._id propertyOwned) _
       Hnd eq_refl) as H.
  exact (conj (proj1 (proj2 (proj2 H)))
           (proj1 H (Property._id propertyOwned) eq_refl)).
Defined.

(** X29: PUT /api/properties/:id/status, when it answers: the validator
    has let through one of the eight statuses of the schema only, the
    returned Property has the requested status, and the progress
    returned with it is the Number that the table gives for that status,
    never a value found on the prototype chain and never the fallback
    for a name that the table lacks. *)
Theorem X29_property_status_progress (st : store) (userId : idValue)
  (id : ObjectId) (status : string) (d : PropertyRoutes.statusData)
  (st' : store) :
  PropertyRoutes.putStatus st userId id status = (Ok d, st') ->
  In status Property.statusEnum
  /\ Property._id (PropertyRoutes.s_property d) = id
  /\ Property.status (PropertyRoutes.s_property d) = status
  /\ exists n,
       ownProperty Property.statusProgress status = Some n
       /\ PropertyRoutes.s_progressPercentage d = VNumber n.
Proof.
  unfold PropertyRoutes.putStatus.
  destruct (existsb (String.eqb status) Property.statusEnum) eqn:Hen;
    cbn [negb]; [| discriminate].
  destruct (PropertyRoutes.findOwned st userId id) as [p |] eqn:Hfind;
    [| discriminate].
  unfold PropertyRoutes.save. intros [= <- _].
  cbn [PropertyRoutes.s_property PropertyRoutes.s_progressPercentage].
  destruct (findOwned_Some _ _ _ _ Hfind) as (_ & Hid & _).
  destruct (preSave_photos_only (PropertyRoutes.set_status status p))
    as [photos ->].
  unfold Property.methods_getProgressPercentage.
  cbn [Property.set_photos PropertyRoutes.set_status Property._id
       Property.status].
  apply existsb_exists in Hen. destruct Hen as (x & Hx & Ex).
  apply String.eqb_eq in Ex. subst x.
  split; [exact Hx |]. split; [exact Hid |]. split; [reflexivity |].
  simpl in Hx.
  destruct Hx as [<- | [<- | [<- | [<- | [<- | [<- | [<- | [<- | []]]]]]]]];
    eexists; (split; [reflexivity |]); reflexivity.
Qed.

Lemma X29_property_status_progress_witness :
  exists d st',
    PropertyRoutes.putStatus exampleStore (Routes.authenticated caller)
      (Property._id propertyOwned) "offer_made" = (Ok d, st')
    /\ Property.status (PropertyRoutes.s_property d) = "offer_made"
    /\ exists n,
         ownProperty Property.statusProgress "offer_made" = Some n
         /\ PropertyRoutes.s_progressPercentage d = VNumber n.
Proof.
  do 2 eexists. split; [reflexivity |].
  exact (proj2 (proj2
    (X29_property_status_progress exampleStore (Routes.authenticated caller)
       (Property._id propertyOwned) "offer_made" _ _ eq_refl))).
Defined.
End PropertyRouteFacts.
